(** * swift-extracter: the resolution-and-aggregation engine of SwiftScanner

    A shallow embedding of [SwiftScanner.js] (the scanner that [ScannerCLI.js]
    loads) and of the older copy of the same class kept in the repository
    ([Legacy] below), with the properties the specification states about
    them.

    Conventions of the embedding:
    - a JavaScript string is a [string]; the operations used by the scanner
      ([includes], [startsWith], [endsWith], [split(c)[0]], [trim],
      [replace], [lastIndexOf], [substring], [toLowerCase]) are written out
      on it, over the ASCII range;
    - a JavaScript object used as a dictionary is a [gmap string _] when only
      lookups and stores matter, and an association list in enumeration
      order when the code iterates over it;
    - an array is a [list];
    - a function that can throw returns a [Completion]; the console is a list
      of lines threaded through the state. *)

From Stdlib Require Import Ascii String ZArith Bool Arith Lia.
From stdpp Require Import base option list strings gmap fin_maps.

Open Scope Z_scope.
Open Scope nat_scope.

(** ** JavaScript string operations *)

Module Js.

Definition newline : ascii := "010"%char.
Definition lparen : ascii := "("%char.
Definition slash : ascii := "/"%char.
Definition dash : ascii := "-"%char.
Definition dquote : ascii := "034"%char.

(** [s === t] on strings. *)
Definition streq (s t : string) : bool := String.eqb s t.

(** A string is truthy when it is not empty. *)
Definition truthy (s : string) : bool := negb (streq s "").

(** [s.startsWith(p)] *)
Fixpoint startsWith (s p : string) : bool :=
  match p, s with
  | EmptyString, _ => true
  | String _ _, EmptyString => false
  | String b p', String a s' => Ascii.eqb a b && startsWith s' p'
  end.

(** [s.includes(p)] *)
Fixpoint includes (s p : string) : bool :=
  startsWith s p ||
  match s with
  | EmptyString => false
  | String _ s' => includes s' p
  end.

(** [s.endsWith(p)] *)
Fixpoint endsWith (s p : string) : bool :=
  streq s p ||
  match s with
  | EmptyString => false
  | String _ s' => endsWith s' p
  end.

(** [s.split(c)[0]]: the part of [s] before the first [c], all of [s] when
    there is none. *)
Fixpoint splitHead (c : ascii) (s : string) : string :=
  match s with
  | EmptyString => EmptyString
  | String a s' => if Ascii.eqb a c then EmptyString else String a (splitHead c s')
  end.

(** White space removed by [trim], on the ASCII range: tab, line feed,
    vertical tab, form feed, carriage return and space. *)
Definition isSpace (a : ascii) : bool :=
  let n := nat_of_ascii a in
  (Nat.leb 9 n && Nat.leb n 13) || Nat.eqb n 32.

Fixpoint trimStart (s : string) : string :=
  match s with
  | EmptyString => EmptyString
  | String a s' => if isSpace a then trimStart s' else s
  end.

(** Removes the white space at the end: a character is kept when it is not
    a space or when something is kept after it. *)
Fixpoint trimEnd (s : string) : string :=
  match s with
  | EmptyString => EmptyString
  | String a s' =>
      match trimEnd s' with
      | EmptyString => if isSpace a then EmptyString else String a EmptyString
      | t => String a t
      end
  end.

(** [s.trim()] *)
Definition trim (s : string) : string := trimEnd (trimStart s).

(** [s.replace(p, r)] with a string pattern: the first occurrence only. *)
Fixpoint replace (s p r : string) : string :=
  if startsWith s p then r +:+ String.substring (String.length p) (String.length s - String.length p) s
  else match s with
       | EmptyString => EmptyString
       | String a s' => String a (replace s' p r)
       end.

(** [s.lastIndexOf(c)] for a one-character pattern: [-1] when absent. *)
Fixpoint lastIndexOf (c : ascii) (s : string) : Z :=
  match s with
  | EmptyString => (-1)%Z
  | String a s' =>
      let r := lastIndexOf c s' in
      if (0 <=? r)%Z then (r + 1)%Z
      else if Ascii.eqb a c then 0%Z else (-1)%Z
  end.

(** [s.substring(a, b)]: both ends are clamped to [0 .. length], and
    swapped when [a > b]. *)
Definition substring (s : string) (a b : Z) : string :=
  let len := Z.of_nat (String.length s) in
  let clamp x := Z.max 0 (Z.min x len) in
  let lo := Z.min (clamp a) (clamp b) in
  let hi := Z.max (clamp a) (clamp b) in
  String.substring (Z.to_nat lo) (Z.to_nat (hi - lo)) s.

Definition lowerChar (a : ascii) : ascii :=
  let n := nat_of_ascii a in
  if Nat.leb 65 n && Nat.leb n 90 then ascii_of_nat (n + 32) else a.

(** [s.toLowerCase()] *)
Fixpoint toLowerCase (s : string) : string :=
  match s with
  | EmptyString => EmptyString
  | String a s' => String (lowerChar a) (toLowerCase s')
  end.

(** [s[i]]: [None] stands for [undefined]. *)
Definition charAt (s : string) (i : nat) : option ascii := String.get i s.

(** [path.join(dir, name)] for a normalised [dir] and a plain entry name,
    as [readdir] returns them. *)
Definition pathJoin (dir name : string) : string :=
  if endsWith dir "/" then dir +:+ name else dir +:+ "/" +:+ name.

End Js.

(** ** Outcomes of calls that can throw *)

Inductive Completion (A : Type) : Type :=
| Normal (value : A)
| Throw (message : string).
Arguments Normal {A} value.
Arguments Throw {A} message.

(** ** Offset to line and column: [findLineAndColumn] *)

Record Location := mkLocation { line : nat; column : nat; offset : nat }.

Module Locate.

(** The [while] loop: walk back from the offset to the character after the
    previous line feed. An index past the end reads [undefined], which is
    not a line feed. *)
Fixpoint lineStartOf (fileContent : string) (lineStart : nat) : nat :=
  match lineStart with
  | 0 => 0
  | S before =>
      match Js.charAt fileContent before with
      | Some c => if Ascii.eqb c Js.newline then lineStart else lineStartOf fileContent before
      | None => lineStartOf fileContent before
      end
  end.

(** The [for] loop: [line] starts at 1 and grows by one for every line feed
    at an index below [lineStart]. *)
Definition lineOf (fileContent : string) (lineStart : nat) : nat :=
  fold_left
    (fun line i =>
       match Js.charAt fileContent i with
       | Some c => if Ascii.eqb c Js.newline then S line else line
       | None => line
       end)
    (seq 0 lineStart) 1.

(** The body of the [try] block once the file has been read. *)
Definition locate (fileContent : string) (offset : nat) : nat * nat :=
  let lineStart := lineStartOf fileContent offset in
  let column := offset - lineStart + 1 in
  (lineOf fileContent lineStart, column).

(** [findLineAndColumn(fileName, offset)] given the outcome of
    [fs.readFileSync(fileName, 'utf-8')]: the lines written to the console
    and the result, [None] being the [null] of the [catch] branch. *)
Definition findLineAndColumn (readFileSync : string -> Completion string)
    (fileName : string) (offset : nat) : list string * option (nat * nat) :=
  match readFileSync fileName with
  | Normal fileContent => ([], Some (locate fileContent offset))
  | Throw message =>
      (["Error reading file " +:+ fileName +:+ ": " +:+ message], None)
  end.

End Locate.

(** ** Data model *)

(** A node of the structural oracle's tree: ["key.kind"], ["key.name"]
    (absent on many nodes), ["key.offset"] and ["key.substructure"] (an
    absent list and an empty one are traversed alike). Every node of a
    substructure carries a kind tag; the fields of the root other than its
    substructure are not read. *)
#[local] Unset Elimination Schemes.
Inductive Node : Type :=
  mkNode (key_kind : string) (key_name : option string) (key_offset : nat)
         (key_substructure : list Node).
#[local] Set Elimination Schemes.

Definition key_kind (n : Node) : string := let 'mkNode k _ _ _ := n in k.
Definition key_name (n : Node) : option string := let 'mkNode _ m _ _ := n in m.
Definition key_offset (n : Node) : nat := let 'mkNode _ _ o _ := n in o.
Definition key_substructure (n : Node) : list Node := let 'mkNode _ _ _ s := n in s.

(** An entry of the components dataset, as the completion oracle reports it. *)
Record CatalogEntry := mkEntry {
  entry_name : string;
  entry_kind : string;
  entry_moduleName : string;
  entry_docBrief : option string
}.

(** [componentsDataset]: module name to entries, in the order [for ... in]
    enumerates the object. *)
Definition Dataset := list (string * list CatalogEntry).

(** An element of [projectModulesList]. *)
Record ProjectModule := mkModule {
  module_name : string;
  module_path : string;
  module_originalPath : string;
  module_isThirdParty : bool
}.

(** A record of [codebaseComponents]; the field names are the code's. *)
Record Metadata := mkMetadata {
  id : string;
  name : option string;
  tags : list string;
  designSystems : list string;
  designDocs : option string;
  isSelfDeclared : bool;
  filewiseOccurences : gmap string nat;
  totalOccurences : nat;
  stories : list string;
  filewiseLocation : gmap string (list Location);
  type : string;
  libraryName : string;
  thirdParty : bool
}.

(** ** Structural extractor: [extractComponentsFromStructure] *)

Module Structure.

(** The test of the [if] in the loop. *)
Definition isSwiftComponent (component : Node) : bool :=
  Js.startsWith (key_kind component) "source.lang.swift.decl"
  || Js.startsWith (key_kind component) "source.lang.swift.expr"
  || Js.startsWith (key_kind component) "source.lang.swift.structure".

(** The loop over ["key.substructure"]: push the component when its kind
    passes the test, then push everything found below it. *)
Fixpoint extractComponentsFromStructure (fileStructure : Node) : list Node :=
  match fileStructure with
  | mkNode _ _ _ substructure =>
      (fix loop (rest : list Node) : list Node :=
         match rest with
         | [] => []
         | component :: rest' =>
             (if isSwiftComponent component then [component] else [])
               ++ extractComponentsFromStructure component
               ++ loop rest'
         end) substructure
  end.

(** The specification's reading, to compare with: every node below the
    root, each parent before its descendants and siblings in order ... *)
Fixpoint descendants (n : Node) : list Node :=
  match n with
  | mkNode _ _ _ substructure =>
      (fix walk (rest : list Node) : list Node :=
         match rest with
         | [] => []
         | child :: rest' => child :: descendants child ++ walk rest'
         end) substructure
  end.

(** ... of which the ones with a declaration, expression or structure kind
    are kept. *)
Definition flattenSpec (root : Node) : list Node :=
  List.filter isSwiftComponent (descendants root).

End Structure.

(** ** What the scanner reads from outside *)

Record Env := mkEnv {
  (** [fs.readFile] and [fs.readFileSync] with a text encoding *)
  readFile : string -> Completion string;
  (** [child_process.execSync]: the standard output, or the error thrown *)
  execSync : string -> Completion string;
  (** [JSON.parse]; a value that is not an object reads as a node without
      substructure *)
  jsonParse : string -> Completion Node
}.

(** The fields of the scanner that a scan reads and never writes. *)
Record Config := mkConfig {
  designSystemModules : list string;
  projectModulesList : list ProjectModule;
  componentsDataset : Dataset
}.

(** ** Metadata aggregator: the code shared by both copies of
    [extractMetadata] *)

Module Aggregator.

(** The text a template literal gives a name: [undefined] prints as such. *)
Definition nameText (component : Node) : string :=
  match key_name component with
  | Some n => n
  | None => "undefined"
  end.

(** [component["key.kind"].replace('source.lang.swift.', '')] *)
Definition componentType (component : Node) : string :=
  Js.replace (key_kind component) "source.lang.swift." "".

(** [`${existingComponent.moduleName}/${componentName}/${componentType}`] *)
Definition metadataId (component : Node) (existingComponent : CatalogEntry) : string :=
  entry_moduleName existingComponent +:+ "/" +:+ nameText component
    +:+ "/" +:+ componentType component.

(** [getDesignSystems(moduleName)] *)
Definition getDesignSystems (designSystemModules : list string) (moduleName : string)
    : list string :=
  let lowercaseModuleName := Js.toLowerCase moduleName in
  List.filter
    (fun designSystemModule =>
       Js.streq (Js.toLowerCase designSystemModule) lowercaseModuleName)
    designSystemModules.

(** The object literal of the [if (!metadata)] branch; [isThirdParty] is
    the value of [this.isThirdParty(existingComponent.moduleName)]. *)
Definition newMetadata (designSystemModules : list string) (isThirdParty : bool)
    (component : Node) (existingComponent : CatalogEntry) : Metadata :=
  {| id := metadataId component existingComponent;
     name := key_name component;
     tags := [];
     designSystems := getDesignSystems designSystemModules (entry_moduleName existingComponent);
     designDocs := entry_docBrief existingComponent;
     isSelfDeclared := negb isThirdParty;
     filewiseOccurences := ∅;
     totalOccurences := 0;
     stories := [];
     filewiseLocation := ∅;
     type := componentType component;
     libraryName := entry_moduleName existingComponent;
     thirdParty := isThirdParty |}.

(** [metadata.totalOccurences++;
     metadata.filewiseOccurences[filePath] =
       (metadata.filewiseOccurences[filePath] || 0) + 1;] *)
Definition countOccurence (metadata : Metadata) (filePath : string) : Metadata :=
  {| id := id metadata;
     name := name metadata;
     tags := tags metadata;
     designSystems := designSystems metadata;
     designDocs := designDocs metadata;
     isSelfDeclared := isSelfDeclared metadata;
     filewiseOccurences :=
       <[filePath := default 0 (filewiseOccurences metadata !! filePath) + 1]>
         (filewiseOccurences metadata);
     totalOccurences := totalOccurences metadata + 1;
     stories := stories metadata;
     filewiseLocation := filewiseLocation metadata;
     type := type metadata;
     libraryName := libraryName metadata;
     thirdParty := thirdParty metadata |}.

(** [metadata.filewiseLocation[filePath] = [{ line, column, offset }];] *)
Definition setLocation (metadata : Metadata) (filePath : string) (loc : Location)
    : Metadata :=
  {| id := id metadata;
     name := name metadata;
     tags := tags metadata;
     designSystems := designSystems metadata;
     designDocs := designDocs metadata;
     isSelfDeclared := isSelfDeclared metadata;
     filewiseOccurences := filewiseOccurences metadata;
     totalOccurences := totalOccurences metadata;
     stories := stories metadata;
     filewiseLocation := <[filePath := [loc]]> (filewiseLocation metadata);
     type := type metadata;
     libraryName := libraryName metadata;
     thirdParty := thirdParty metadata |}.

(** The location entry built from the result of [findLineAndColumn]. *)
Definition locationEntry (lc : nat * nat) (component : Node) : Location :=
  {| line := fst lc; column := snd lc; offset := key_offset component |}.

(** The message of the [TypeError] thrown when the [null] returned by
    [findLineAndColumn] is destructured. *)
Definition destructureNull : string :=
  "Cannot destructure property 'line' of 'this.findLineAndColumn(...)' as it is null.".


End Aggregator.

(** ** [SwiftScanner.js]: matcher and aggregator *)

Module Current.

(** The fields a scan writes: [codebaseComponents] (an array), the
    [projectComponents] array ([None] is the [{}] that [extractMetadata]
    returns from its [catch]) and the console. *)
Record State := mkState {
  codebaseComponents : list Metadata;
  projectComponents : list (option Metadata);
  console : list string
}.

Definition initial : State :=
  {| codebaseComponents := []; projectComponents := []; console := [] |}.

Definition log (lines : list string) (st : State) : State :=
  {| codebaseComponents := codebaseComponents st;
     projectComponents := projectComponents st;
     console := console st ++ lines |}.

Definition setCodebase (components : list Metadata) (st : State) : State :=
  {| codebaseComponents := components;
     projectComponents := projectComponents st;
     console := console st |}.

Definition pushProject (metadata : option Metadata) (st : State) : State :=
  {| codebaseComponents := codebaseComponents st;
     projectComponents := projectComponents st ++ [metadata];
     console := console st |}.

(** *** Property access on an array by a string key *)

Definition isDigit (a : ascii) : bool :=
  let n := nat_of_ascii a in Nat.leb 48 n && Nat.leb n 57.

Fixpoint digitsValue (s : string) (acc : nat) : option nat :=
  match s with
  | EmptyString => Some acc
  | String a s' =>
      if isDigit a then digitsValue s' (10 * acc + (nat_of_ascii a - 48)) else None
  end.

(** Whether a text holds decimal digits only. *)
Fixpoint allDigits (s : string) : bool :=
  match s with
  | EmptyString => true
  | String a s' => isDigit a && allDigits s'
  end.

(** A key is an array index when it is the canonical decimal numeral of a
    number. *)
Definition arrayIndex (key : string) : option nat :=
  match key with
  | EmptyString => None
  | String a rest =>
      if Ascii.eqb a "0" then (if Js.streq rest "" then Some 0 else None)
      else digitsValue key 0
  end.

(** [array[key]]: the element when [key] is an index in range, [undefined]
    otherwise. (The array's named properties, [length] and the inherited
    methods, have names without a slash; a metadata id has two.) *)
Definition arrayProperty (array : list Metadata) (key : string) : option (nat * Metadata) :=
  match arrayIndex key with
  | Some i => match array !! i with Some m => Some (i, m) | None => None end
  | None => None
  end.

Section Scan.
Variable env : Env.
Variable cfg : Config.

(** [isThirdParty(moduleName)] *)
Definition isThirdParty (moduleName : string) : bool :=
  match List.find (fun md => Js.streq (module_name md) moduleName)
                  (projectModulesList cfg) with
  | Some md => module_isThirdParty md
  | None => false
  end.

(** [extractMetadata(component, existingComponent, fileContent, filePath)];
    [fileContent] is not used by the code. The counters are written to the
    object before [findLineAndColumn] is called, so when that fails a
    record found in the array keeps the increments. *)
Definition extractMetadata (st : State) (component : Node)
    (existingComponent : CatalogEntry) (filePath : string) : State * option Metadata :=
  let metadataId := Aggregator.metadataId component existingComponent in
  let found := arrayProperty (codebaseComponents st) metadataId in
  let metadata :=
    match found with
    | Some (_, m) => m
    | None =>
        Aggregator.newMetadata (designSystemModules cfg)
          (isThirdParty (entry_moduleName existingComponent))
          component existingComponent
    end in
  let counted := Aggregator.countOccurence metadata filePath in
  let inPlace (m : Metadata) : list Metadata :=
    match found with
    | Some (i, _) => <[i := m]> (codebaseComponents st)
    | None => codebaseComponents st
    end in
  let '(lines, position) :=
    Locate.findLineAndColumn (readFile env) filePath (key_offset component) in
  match position with
  | Some lc =>
      let located :=
        Aggregator.setLocation counted filePath (Aggregator.locationEntry lc component) in
      (setCodebase (inPlace located ++ [located]) (log lines st), Some located)
  | None =>
      (setCodebase (inPlace counted)
         (log (lines ++ ["Error extracting metadata: " +:+ Aggregator.destructureNull]) st),
       None)
  end.

(** *** [processComponents] *)

(** An element of a value of [moduleComponentsMap]. *)
Record Processed := mkProcessed {
  baseName : string;
  kind : string;
  isFunc : bool;
  fullComponent : CatalogEntry
}.

(** [name.split('(')[0].trim()] *)
Definition baseNameOf (name : string) : string :=
  Js.trim (Js.splitHead Js.lparen name).

(** The pre-processing of one module's entries. *)
Definition preprocess (moduleComponents : list CatalogEntry) : list Processed :=
  flat_map
    (fun moduleComponent =>
       if Js.truthy (entry_name moduleComponent)
       then [ {| baseName := baseNameOf (entry_name moduleComponent);
                 kind := entry_kind moduleComponent;
                 isFunc := Js.includes (entry_kind moduleComponent) "function";
                 fullComponent := moduleComponent |} ]
       else [])
    moduleComponents.

Definition moduleComponentsMap : list (string * list Processed) :=
  map (fun '(moduleName, moduleComponents) => (moduleName, preprocess moduleComponents))
      (componentsDataset cfg).

(** [component['key.name'] && component['key.name'].split('(')[0].trim()],
    [None] when the value is falsy. *)
Definition componentNameOf (component : Node) : option string :=
  match key_name component with
  | Some n =>
      if Js.truthy n
      then (let b := baseNameOf n in if Js.truthy b then Some b else None)
      else None
  | None => None
  end.

(** The two nested [if]s of the inner loop. *)
Definition satisfies (componentName componentKind : string) (p : Processed) : bool :=
  Js.streq (baseName p) componentName
  && ((isFunc p && Js.includes componentKind "expr") || Js.streq (kind p) componentKind).

(** The callback given to [moduleComponentsMap.forEach]: the [for] loop
    runs to the first entry that satisfies the test, and the [return]
    there ends this call of the callback. *)
Definition visitModule (component : Node) (componentName filePath : string)
    (st : State) (moduleComponents : list Processed) : State :=
  match List.find (satisfies componentName (key_kind component)) moduleComponents with
  | Some p =>
      let '(st', metadata) := extractMetadata st component (fullComponent p) filePath in
      pushProject metadata st'
  | None => st
  end.

(** The callback given to [components.forEach]. *)
Definition visitComponent (filePath : string) (st : State) (component : Node) : State :=
  match componentNameOf component with
  | None => st
  | Some componentName =>
      fold_left (fun st '(_, moduleComponents) =>
                   visitModule component componentName filePath st moduleComponents)
                moduleComponentsMap st
  end.

Definition processComponents (st : State) (components : list Node) (filePath : string)
    : State :=
  fold_left (visitComponent filePath) components st.

(** Whether the matcher declares a match between one entry and one
    candidate: what [processComponents] tests when the dataset holds this
    entry alone. *)
Definition declaresMatch (entry : CatalogEntry) (component : Node) : bool :=
  match componentNameOf component with
  | None => false
  | Some componentName =>
      existsb (satisfies componentName (key_kind component)) (preprocess [entry])
  end.

End Scan.

End Current.

(** ** The older copy of the scanner: matcher and aggregator *)

Module Legacy.

(** Here [codebaseComponents] is an object keyed by metadata id;
    [projectComponents] holds references to the records of that object,
    written as their ids ([None] is the [{}] of the [catch]). Writing
    [codebase_components.json] after each update is not modelled. *)
Record State := mkState {
  codebaseComponents : gmap string Metadata;
  projectComponents : list (option string);
  console : list string
}.

Definition initial : State :=
  {| codebaseComponents := ∅; projectComponents := []; console := [] |}.

Definition log (lines : list string) (st : State) : State :=
  {| codebaseComponents := codebaseComponents st;
     projectComponents := projectComponents st;
     console := console st ++ lines |}.

Definition setCodebase (components : gmap string Metadata) (st : State) : State :=
  {| codebaseComponents := components;
     projectComponents := projectComponents st;
     console := console st |}.

Definition pushProject (metadata : option string) (st : State) : State :=
  {| codebaseComponents := codebaseComponents st;
     projectComponents := projectComponents st ++ [metadata];
     console := console st |}.

(** [thirdPartyDependencies]: the array the constructor and
    [extractThirdPartyDependencies] give (the [name] and [url] of each
    dependency), or the plain object [getDebugYaml] puts in its place once
    the manifest has been read (module name to first input). *)
Inductive Dependencies : Type :=
| DependencyArray (dependencies : list (string * string))
| DependencyObject (dependencies : list (string * string)).

(** The message of the [TypeError] that [for ... of] throws on a plain
    object. *)
Definition notIterable : string := "this.thirdPartyDependencies is not iterable".

Section Scan.
Variable env : Env.
Variable cfg : Config.
Variable thirdPartyDependencies : Dependencies.

(** [isThirdParty(moduleName)] *)
Definition isThirdParty (moduleName : string) : Completion bool :=
  let lowercaseModuleName := Js.toLowerCase moduleName in
  match thirdPartyDependencies with
  | DependencyArray dependencies =>
      Normal
        (existsb
           (fun dependency => Js.streq (Js.toLowerCase (fst dependency)) lowercaseModuleName)
           dependencies)
  | DependencyObject _ => Throw notIterable
  end.

(** The record the update starts from: the one stored under the id, or the
    object literal of the [if (!metadata)] branch, whose two calls of
    [isThirdParty] either both return or the first throws. *)
Definition startRecord (st : State) (component : Node) (existingComponent : CatalogEntry)
    : Completion Metadata :=
  match codebaseComponents st !! Aggregator.metadataId component existingComponent with
  | Some m => Normal m
  | None =>
      match isThirdParty (entry_moduleName existingComponent) with
      | Normal thirdParty =>
          Normal (Aggregator.newMetadata (designSystemModules cfg) thirdParty
                    component existingComponent)
      | Throw message => Throw message
      end
  end.

(** [extractMetadata]: the record looked up is the object held by
    [codebaseComponents], so its counters change in place, also when
    [findLineAndColumn] fails afterwards. An error thrown while the new
    record is built leaves the store as it was. *)
Definition extractMetadata (st : State) (component : Node)
    (existingComponent : CatalogEntry) (filePath : string) : State * option string :=
  let metadataId := Aggregator.metadataId component existingComponent in
  let found := codebaseComponents st !! metadataId in
  match startRecord st component existingComponent with
  | Throw message => (log ["Error extracting metadata: " +:+ message] st, None)
  | Normal metadata =>
      let counted := Aggregator.countOccurence metadata filePath in
      let '(lines, position) :=
        Locate.findLineAndColumn (readFile env) filePath (key_offset component) in
      match position with
      | Some lc =>
          let located :=
            Aggregator.setLocation counted filePath (Aggregator.locationEntry lc component) in
          (setCodebase (<[metadataId := located]> (codebaseComponents st)) (log lines st),
           Some metadataId)
      | None =>
          (setCodebase
             (match found with
              | Some _ => <[metadataId := counted]> (codebaseComponents st)
              | None => codebaseComponents st
              end)
             (log (lines ++ ["Error extracting metadata: " +:+ Aggregator.destructureNull]) st),
           None)
      end
  end.

(** A name that is absent or empty is falsy. *)
Definition nameTruthy (name : option string) : bool :=
  match name with
  | Some n => Js.truthy n
  | None => false
  end.

(** The test of the inner loop on one [moduleComponent]. *)
Definition satisfies (component : Node) (moduleComponent : CatalogEntry) : bool :=
  Js.truthy (entry_name moduleComponent) && nameTruthy (key_name component)
  && (let baseModuleName := Current.baseNameOf (entry_name moduleComponent) in
      let baseComponentName := Current.baseNameOf (Aggregator.nameText component) in
      let mcIsFunc := Js.includes (entry_kind moduleComponent) "function" in
      (Js.streq baseModuleName baseComponentName
       && mcIsFunc && Js.includes (key_kind component) "expr")
      || (Js.streq baseModuleName baseComponentName
          && Js.streq (entry_kind moduleComponent) (key_kind component))).

(** The [for ... in] loop over the dataset: the first module with a
    satisfying entry gets the update, and the [break] ends the loop. *)
Fixpoint visitModules (component : Node) (filePath : string) (st : State)
    (modules : Dataset) : State :=
  match modules with
  | [] => st
  | (_, moduleComponents) :: rest =>
      match List.find (satisfies component) moduleComponents with
      | Some existingComponent =>
          let '(st', metadata) := extractMetadata st component existingComponent filePath in
          pushProject metadata st'
      | None => visitModules component filePath st rest
      end
  end.

Definition processComponents (st : State) (components : list Node) (filePath : string)
    : State :=
  fold_left (fun st component => visitModules component filePath st (componentsDataset cfg))
            components st.

End Scan.

End Legacy.

(** ** Build graph resolver: [getDebugYaml] *)

Module Manifest.

(** [s.split(sep)] for a separator that is not empty. [skip] counts the
    characters of a separator still to pass over, [current] is the piece
    being read. *)
Fixpoint splitFrom (sep s : string) (skip : nat) (current : string) : list string :=
  match s with
  | EmptyString => [current]
  | String a s' =>
      match skip with
      | S k => splitFrom sep s' k current
      | 0 =>
          if Js.startsWith s sep
          then current :: splitFrom sep s' (String.length sep - 1) ""
          else splitFrom sep s' 0 (current +:+ String a "")
      end
  end.

Definition split (s sep : string) : list string := splitFrom sep s 0 "".

(** [parts.join(sep)] *)
Fixpoint join (sep : string) (parts : list string) : string :=
  match parts with
  | [] => ""
  | [p] => p
  | p :: rest => p +:+ sep +:+ join sep rest
  end.

(** [parts.pop()], for the array that is left. *)
Definition pop (parts : list string) : list string := removelast parts.

(** [parts[i]], with [undefined] printed by a template literal or split
    further only where the code does so on a defined value. *)
Definition part (parts : list string) (i : nat) : string := nth i parts "".

(** A command of the manifest: the resolver reads its [inputs] only. *)
Record Command := mkCommand { inputs : list string }.

(** The parsed document: [data.commands], in the order of [Object.keys]. *)
Record Data := mkData { commands : list (string * Command) }.

(** [data.commands[key]] *)
Definition command (data : Data) (key : string) : option Command :=
  snd <$> List.find (fun kc => Js.streq (fst kc) key) (commands data).

(** [data.commands[mod].inputs[0]]; reading [includes] of [undefined]
    throws. *)
Definition firstInput (data : Data) (key : string) : Completion string :=
  match command data key with
  | Some c =>
      match inputs c with
      | originalPath :: _ => Normal originalPath
      | [] => Throw "Cannot read properties of undefined (reading 'includes')"
      end
  | None => Throw "Cannot read properties of undefined (reading 'inputs')"
  end.

(** The callback of [filter]. *)
Definition keep (originalPath : string) : bool :=
  Js.includes originalPath ".build/checkouts" || negb (Js.includes originalPath ".build").

(** [moduleKeys.filter(...)]: the keys kept, each with its first input; the
    first key without one throws. *)
Fixpoint filterKeys (data : Data) (moduleKeys : list string)
    : Completion (list (string * string)) :=
  match moduleKeys with
  | [] => Normal []
  | key :: rest =>
      match firstInput data key with
      | Throw message => Throw message
      | Normal originalPath =>
          match filterKeys data rest with
          | Throw message => Throw message
          | Normal kept =>
              Normal (if keep originalPath then (key, originalPath) :: kept else kept)
          end
      end
  end.

(** The directory of the module, from its first input. *)
Definition modulePath (originalPath : string) : string :=
  if Js.includes originalPath ".build/checkouts"
  then
    let parentPath := part (split originalPath ".build/checkouts") 0 in
    let splittedLibrary := split (part (split originalPath ".build/checkouts") 1) "/" in
    let library := join "/" (pop splittedLibrary) in
    parentPath +:+ ".build/checkouts" +:+ library
  else join "/" (pop (split originalPath "/")).

(** [mod.substring(2, mod.lastIndexOf("-"))] *)
Definition moduleNameOf (key : string) : string :=
  Js.substring key 2 (Js.lastIndexOf Js.dash key).

(** The object pushed by the callback of [map]. *)
Definition moduleOf (key originalPath : string) : ProjectModule :=
  {| module_name := moduleNameOf key;
     module_path := modulePath originalPath;
     module_originalPath := originalPath;
     module_isThirdParty := Js.includes originalPath ".build/checkouts" |}.

(** The [try] block of [getDebugYaml] on the parsed document: the modules
    pushed on [projectModulesList], or the error that rejects the promise
    (nothing is pushed then, the filter having run before the first push). *)
Definition getDebugYaml (data : Data) (projectModulesList : list ProjectModule)
    : Completion (list ProjectModule) :=
  match command data "PackageStructure" with
  | None => Throw "Cannot read properties of undefined (reading 'inputs')"
  | Some _ =>
      let moduleKeys := List.filter (fun key => Js.startsWith key "C.") (map fst (commands data)) in
      match filterKeys data moduleKeys with
      | Throw message => Throw message
      | Normal kept =>
          Normal (projectModulesList ++ map (fun '(key, originalPath) => moduleOf key originalPath) kept)
      end
  end.

End Manifest.

(** ** External commands: [executeCommand] and [getStructureFromFile] *)

Module Oracle.

(** [try { body } catch (error) { handler(error.message) }] *)
Definition tryCatch {A : Type} (body : Completion A) (handler : string -> Completion A)
    : Completion A :=
  match body with
  | Normal value => Normal value
  | Throw message => handler message
  end.

Section WithEnv.
Variable env : Env.

(** The lines [executeCommand] writes to the console. *)
Definition executeCommandLog (command : string) : list string :=
  match execSync env command with
  | Normal _ => []
  | Throw message => ["Error: " +:+ message]
  end.

(** [executeCommand(command)] *)
Definition executeCommand (command : string) : Completion string :=
  tryCatch (execSync env command) (fun message => Normal (Js.trim message)).

(** The command line of the structural oracle. *)
Definition structureCommand (filePath : string) : string :=
  "sourcekitten structure --file " +:+ String Js.dquote (filePath +:+ String Js.dquote "").

(** [getStructureFromFile(filePath)] *)
Definition getStructureFromFile (filePath : string) : Completion Node :=
  tryCatch
    (match executeCommand (structureCommand filePath) with
     | Normal stdout => jsonParse env stdout
     | Throw message => Throw message
     end)
    (fun message => Throw ("Error extracting public components: " +:+ message)).

End WithEnv.

End Oracle.

(** ** File walker: [scanFilesRecursively] and the loop of the [scan] command *)

(** What [fs.stat] and [fs.readdir] find at a path. *)
#[local] Unset Elimination Schemes.
Inductive FsEntry : Type :=
| FsMissing (message : string)          (* [stat] throws *)
| FsFile                                (* not a directory *)
| FsUnreadable (message : string)       (* a directory, [readdir] throws *)
| FsDirectory (files : list (string * FsEntry)).
#[local] Set Elimination Schemes.

Module Walker.

Section Scan.
Variable env : Env.
Variable cfg : Config.

(** [validPath(directoryPath)] *)
Definition validPath (directoryPath : string) : bool :=
  existsb (fun md => Js.includes (module_path md) directoryPath) (projectModulesList cfg).

(** The three [console.log] calls of the rejection. *)
Definition guidance : list string :=
  ["Directory path does not include any module path. Please provide a valid scan path.";
   "Available module paths:"]
  ++ map (fun md => " - " +:+ module_path md) (projectModulesList cfg).

(** [extractComponents(filePath, fileContent)]. [process] calls it without
    [await]; what is left of it after its first [await] runs as microtasks,
    before the walker's next file-system call is answered, so its effects
    come here, before the next file. *)
Definition extractComponents (st : Current.State) (filePath : string) : Current.State :=
  let st1 := Current.log (Oracle.executeCommandLog env (Oracle.structureCommand filePath)) st in
  match Oracle.getStructureFromFile env filePath with
  | Normal fileStructure =>
      let components := Structure.extractComponentsFromStructure fileStructure in
      Current.processComponents env cfg st1 components filePath
  | Throw message =>
      Current.log ["Error extracting components from file " +:+ filePath +:+ ": " +:+ message] st1
  end.

(** [extractComponentsFromFile(filePath)], with [process] inlined. *)
Definition extractComponentsFromFile (st : Current.State) (filePath : string)
    : Current.State :=
  let st1 := Current.log ["scanning file: " +:+ filePath] st in
  match readFile env filePath with
  | Normal _ => extractComponents st1 filePath
  | Throw message =>
      Current.log ["Error scanning Swift file " +:+ filePath +:+ ": " +:+ message] st1
  end.

(** [scanFilesRecursively(filePath, excludedFolders)], on what the file
    system holds at [filePath]. *)
Fixpoint scanFilesRecursively (entry : FsEntry) (filePath : string)
    (excludedFolders : list string) (st : Current.State) : Current.State :=
  match entry with
  | FsMissing message => Current.log ["Error scanning directory: " +:+ message] st
  | FsFile =>
      if Js.endsWith filePath ".swift" then extractComponentsFromFile st filePath else st
  | FsUnreadable message =>
      if validPath filePath
      then Current.log ["Error scanning directory: " +:+ message] st
      else Current.log guidance st
  | FsDirectory files =>
      if validPath filePath
      then
        (fix loop (files : list (string * FsEntry)) (st : Current.State) : Current.State :=
           match files with
           | [] => st
           | (file, child) :: rest =>
               let subFilePath := Js.pathJoin filePath file in
               if existsb (Js.streq file) excludedFolders
               then loop rest st
               else loop rest (scanFilesRecursively child subFilePath excludedFolders st)
           end) files st
      else Current.log guidance st
  end.

(** The loop of the [scan] command over the paths given on the command
    line, each with what the file system holds there. *)
Definition scanAll (roots : list (string * FsEntry)) (excludedFolders : list string)
    (st : Current.State) : Current.State :=
  fold_left (fun st '(filePath, entry) => scanFilesRecursively entry filePath excludedFolders st)
            roots st.

End Scan.

End Walker.

(** ** Vocabulary of the properties *)

Module Spec.

(** *** Matching rule *)

(** The base name as the specification words it: the part of the name
    before the first opening parenthesis. *)
Definition statedBaseName (name : string) : string := Js.splitHead Js.lparen name.

(** The kind condition, the same in the specification and in the code. *)
Definition kindsCompatible (entry : CatalogEntry) (component : Node) : Prop :=
  (Js.includes (entry_kind entry) "function" = true
   /\ Js.includes (key_kind component) "expr" = true)
  \/ entry_kind entry = key_kind component.

(** The rule as the specification states it. *)
Definition statedRule (entry : CatalogEntry) (component : Node) : Prop :=
  (exists n, key_name component = Some n
             /\ statedBaseName (entry_name entry) = statedBaseName n)
  /\ kindsCompatible entry component.

(** The rule the code applies: base names are trimmed, and the candidate's
    must not be empty. *)
Definition appliedRule (entry : CatalogEntry) (component : Node) : Prop :=
  (exists n, key_name component = Some n
             /\ Current.baseNameOf n <> ""
             /\ Current.baseNameOf (entry_name entry) = Current.baseNameOf n)
  /\ kindsCompatible entry component.

(** *** Occurrence counters *)


(** *** Manifest *)

(** A target key [C.<module>-<disambiguator>]; the disambiguator holds no
    dash. *)
Definition keyPattern (key moduleName disambiguator : string) : Prop :=
  key = "C." +:+ moduleName +:+ "-" +:+ disambiguator
  /\ Js.lastIndexOf Js.dash disambiguator = (-1)%Z.

(** A manifest the resolver's interface allows: keys are distinct (they are
    those of an object), the [PackageStructure] command is there, and every
    module target follows the key pattern and lists an input. *)
Definition wellFormed (data : Manifest.Data) : Prop :=
  NoDup (map fst (Manifest.commands data))
  /\ (exists c, ("PackageStructure", c) ∈ Manifest.commands data)
  /\ forall key c, (key, c) ∈ Manifest.commands data ->
       Js.startsWith key "C." = true ->
       (exists moduleName disambiguator, keyPattern key moduleName disambiguator)
       /\ exists originalPath rest, Manifest.inputs c = originalPath :: rest.

(** The module targets among some commands, each with its first input, in
    the order of the commands. *)
Definition targetsOf (l : list (string * Manifest.Command)) : list (string * string) :=
  flat_map
    (fun '(key, c) =>
       match Manifest.inputs c with
       | originalPath :: _ => if Js.startsWith key "C." then [(key, originalPath)] else []
       | [] => []
       end) l.

Definition moduleTargets (data : Manifest.Data) : list (string * string) :=
  targetsOf (Manifest.commands data).

(** The elements of a list that satisfy [P], in their order. *)
Inductive selects {A : Type} (P : A -> Prop) : list A -> list A -> Prop :=
| selects_nil : selects P [] []
| selects_keep (x : A) (l selected : list A) :
    P x -> selects P l selected -> selects P (x :: l) (x :: selected)
| selects_drop (x : A) (l selected : list A) :
    ~ P x -> selects P l selected -> selects P (x :: l) selected.

(** A module of the topology describes a target: it keeps the first input
    as its original path, is third-party exactly when that input is under
    the checkout root, and is named by the key without its [C.] and its
    trailing disambiguator. *)
Definition describes (underCheckouts : string -> Prop) (md : ProjectModule)
    (target : string * string) : Prop :=
  module_originalPath md = snd target
  /\ (module_isThirdParty md = true <-> underCheckouts (snd target))
  /\ exists disambiguator, keyPattern (fst target) (module_name md) disambiguator.

(** The topology of a manifest, for a reading of "under the checkout root"
    and of "under the build directory": one module for each module target
    whose first input is under the checkout root or not under the build
    directory, and for no other, in the order of the manifest. *)
Definition topology (underCheckouts underBuild : string -> Prop) (data : Manifest.Data)
    (modules : list ProjectModule) : Prop :=
  exists keptTargets,
    selects (fun target => underCheckouts (snd target) \/ ~ underBuild (snd target))
      (moduleTargets data) keptTargets
    /\ Forall2 (describes underCheckouts) modules keptTargets.

(** The reading by directories: the directories a path goes through are
    its pieces between slashes, the last one (the file) left out; the path
    is under the build directory when one of them is [.build], and under
    the checkout root when [checkouts] follows it. *)
Definition directoriesOf (path : string) : list string :=
  Manifest.pop (Manifest.split path "/").

Definition pathUnderBuild (path : string) : Prop :=
  ".build" ∈ directoriesOf path.

Definition pathUnderCheckouts (path : string) : Prop :=
  exists before after, directoriesOf path = before ++ ".build" :: "checkouts" :: after.

(** The reading by text: the name occurs somewhere in the path. *)
Definition occursIn (text path : string) : Prop :=
  exists before after, path = before +:+ text +:+ after.

(** *** Scan paths *)

(** Whether the pieces [first] are the first of [pieces]. *)
Fixpoint startsWithPieces (pieces first : list string) : bool :=
  match first, pieces with
  | [], _ => true
  | _ :: _, [] => false
  | f :: first', p :: pieces' => Js.streq p f && startsWithPieces pieces' first'
  end.

(** The path [inner] is [outer] or lies under it: the pieces of [outer]
    between slashes are the first pieces of [inner]. *)
Definition pathWithin (inner outer : string) : bool :=
  startsWithPieces (Manifest.split inner "/") (Manifest.split outer "/").

(** The directory neither lies under a module path nor contains one. *)
Definition outsideModules (cfg : Config) (directoryPath : string) : Prop :=
  forall md, md ∈ projectModulesList cfg ->
    pathWithin directoryPath (module_path md) = false
    /\ pathWithin (module_path md) directoryPath = false.

Definition isDirectory (entry : FsEntry) : Prop :=
  match entry with
  | FsUnreadable _ | FsDirectory _ => True
  | _ => False
  end.

(** Two states with the same records. *)
Definition sameRecords (st st' : Current.State) : Prop :=
  Current.codebaseComponents st = Current.codebaseComponents st'
  /\ Current.projectComponents st = Current.projectComponents st'.

(** *** First match *)

(** The first entry, in the order of the dataset, that satisfies the test of
    the older copy for a candidate. *)
Fixpoint firstSatisfying (modules : Dataset) (component : Node) : option CatalogEntry :=
  match modules with
  | [] => None
  | (_, moduleComponents) :: rest =>
      match List.find (Legacy.satisfies component) moduleComponents with
      | Some existingComponent => Some existingComponent
      | None => firstSatisfying rest component
      end
  end.

(** *** Runs of the aggregator *)

(** One call of [extractMetadata]: the candidate, the catalog entry it was
    resolved to and the file it was found in. *)
Record Resolved := mkResolved {
  candidate : Node;
  resolvedTo : CatalogEntry;
  inFile : string
}.

Definition currentRun (env : Env) (cfg : Config) (calls : list Resolved)
    (st : Current.State) : Current.State :=
  fold_left
    (fun st r => fst (Current.extractMetadata env cfg st (candidate r) (resolvedTo r) (inFile r)))
    calls st.

Definition legacyRun (env : Env) (cfg : Config) (thirdPartyDependencies : Legacy.Dependencies)
    (calls : list Resolved) (st : Legacy.State) : Legacy.State :=
  fold_left
    (fun st r =>
       fst (Legacy.extractMetadata env cfg thirdPartyDependencies st
              (candidate r) (resolvedTo r) (inFile r)))
    calls st.

(** The occurrences of one symbol at the given offsets of one file, all
    resolved to the same entry. *)
Definition occurrences (kind : string) (name : option string) (sub : list Node)
    (entry : CatalogEntry) (filePath : string) (offsets : list nat) : list Resolved :=
  map (fun off => mkResolved (mkNode kind name off sub) entry filePath) offsets.

(** The record [SwiftScanner.js] pushes for a candidate in a file with the
    given content: the update of a new record. *)
Definition currentRecord (cfg : Config) (component : Node) (entry : CatalogEntry)
    (filePath content : string) : Metadata :=
  Aggregator.setLocation
    (Aggregator.countOccurence
       (Aggregator.newMetadata (designSystemModules cfg)
          (Current.isThirdParty cfg (entry_moduleName entry)) component entry)
       filePath)
    filePath
    (Aggregator.locationEntry (Locate.locate content (key_offset component)) component).

(** The counters of the record stored under [key], zero when there is
    none. *)
Definition totalBefore (st : Legacy.State) (key : string) : nat :=
  match Legacy.codebaseComponents st !! key with
  | Some m => totalOccurences m
  | None => 0
  end.

Definition countBefore (st : Legacy.State) (key filePath : string) : nat :=
  match Legacy.codebaseComponents st !! key with
  | Some m => default 0 (filewiseOccurences m !! filePath)
  | None => 0
  end.

End Spec.

(** ** Sample data *)

Module Sample.

(** The text [a], line feed, [bb], line feed, [ccc]. *)
Definition content : string :=
  String "a" (String Js.newline (String "b" (String "b" (String Js.newline "ccc")))).

Definition functionKind : string := "source.lang.swift.decl.function.free".
Definition callKind : string := "source.lang.swift.expr.call".

Definition call (name : string) (offset : nat) : Node :=
  mkNode callKind (Some name) offset [].

Definition entryIn (moduleName name : string) : CatalogEntry :=
  {| entry_name := name; entry_kind := functionKind;
     entry_moduleName := moduleName; entry_docBrief := None |}.

(** A file that calls [h], then declares a function [f] whose body calls
    [run] twice. *)
Definition tree : Node :=
  mkNode "source.lang.swift.file" None 0
    [ call "h" 0;
      mkNode functionKind (Some "f()") 2
        [ mkNode "source.lang.swift.stmt.brace" None 3
            [ call "run" 3; call "run" 5 ] ] ].

(** An environment in which every file reads as [content] and the oracle
    answers with [tree]. *)
Definition env : Env :=
  {| readFile := fun _ => Normal content;
     execSync := fun _ => Normal "{}";
     jsonParse := fun _ => Normal tree |}.

(** An environment in which the oracle command fails. *)
Definition failingEnv : Env :=
  {| readFile := fun _ => Normal content;
     execSync := fun _ => Throw " Command failed: sourcekitten ";
     jsonParse := fun _ => Throw "Unexpected token C in JSON at position 0" |}.

Definition appModule : ProjectModule :=
  {| module_name := "App"; module_path := "/proj/Sources/App";
     module_originalPath := "/proj/Sources/App/main.swift";
     module_isThirdParty := false |}.

(** One module [Lib] whose catalog lists [run()]. *)
Definition cfg : Config :=
  {| designSystemModules := [];
     projectModulesList := [appModule];
     componentsDataset := [("Lib", [entryIn "Lib" "run()"])] |}.

(** Two modules that both list [run()]. *)
Definition cfgTwoModules : Config :=
  {| designSystemModules := [];
     projectModulesList := [appModule];
     componentsDataset := [("LibA", [entryIn "LibA" "run()"]);
                           ("LibB", [entryIn "LibB" "run()"])] |}.

Definition manifest : Manifest.Data :=
  {| Manifest.commands :=
       [ ("PackageStructure", {| Manifest.inputs := ["/proj/Package.swift"] |});
         ("C.App-debug.module", {| Manifest.inputs := ["/proj/Sources/App/main.swift"] |});
         ("C.Lib-debug.module",
           {| Manifest.inputs := ["/proj/.build/checkouts/Lib/Sources/Lib/Lib.swift"] |});
         ("C.Gen-debug.module",
           {| Manifest.inputs := ["/proj/.build/debug/Gen.build/Gen.swift"] |}) ] |}.

(** A package kept in a directory whose name ends in [.build], with a
    second module whose source file has [.build] in its name. *)
Definition manifestBesideBuild : Manifest.Data :=
  {| Manifest.commands :=
       [ ("PackageStructure", {| Manifest.inputs := ["/work/my.build/Package.swift"] |});
         ("C.App-debug.module",
           {| Manifest.inputs := ["/work/my.build/Sources/App/main.swift"] |});
         ("C.Core-debug.module",
           {| Manifest.inputs := ["/work/my.build/Sources/Core/Core.builder.swift"] |}) ] |}.

(** A directory outside the sample module, and the module's directory. *)
Definition outsideRoot : string * FsEntry :=
  ("/tmp/other", FsDirectory [("x.swift", FsFile)]).

Definition appRoot : string * FsEntry :=
  ("/proj/Sources/App", FsDirectory [("main.swift", FsFile); ("notes.txt", FsFile)]).

(** A directory beside the module's, whose name is the beginning of the
    module's. *)
Definition besideRoot : string * FsEntry :=
  ("/proj/Sources/Ap", FsDirectory [("x.swift", FsFile)]).

(** The module's directory, with its Swift file in a subdirectory. *)
Definition nestedRoot : string * FsEntry :=
  ("/proj/Sources/App", FsDirectory [("Views", FsDirectory [("v.swift", FsFile)])]).

End Sample.

(** ** Further vocabulary: locations *)

Module LocateSpec.

(** The number of line feeds of a text. *)
Fixpoint countNewlines (s : string) : nat :=
  match s with
  | EmptyString => 0
  | String a s' => (if Ascii.eqb a Js.newline then 1 else 0) + countNewlines s'
  end.

(** A text that ends where a line starts: it is empty or ends with a line
    feed. *)
Definition endsLine (before : string) : Prop :=
  before = "" \/ exists b, before = b +:+ String Js.newline "".

(** No line feed at the indices below [k]; indices past the end read
    [undefined]. *)
Definition noNewlineBelow (s : string) (k : nat) : Prop :=
  forall j, j < k -> Js.charAt s j <> Some Js.newline.

End LocateSpec.

(** ** Further vocabulary: ids, matches and records *)

Module RecordSpec.

(** Whether a text is free of a character. *)
Fixpoint without (c : ascii) (s : string) : bool :=
  match s with
  | EmptyString => true
  | String a s' => negb (Ascii.eqb a c) && without c s'
  end.

(** The modules of the dataset that hold an entry satisfying the test of
    [SwiftScanner.js] for a candidate, in the order of the dataset. *)
Definition modulesMatching (cfg : Config) (component : Node) : list string :=
  match Current.componentNameOf component with
  | None => []
  | Some componentName =>
      map fst
        (List.filter
           (fun '(_, moduleComponents) =>
              existsb (Current.satisfies componentName (key_kind component)) moduleComponents)
           (Current.moduleComponentsMap cfg))
  end.



(** The descriptive fields of a record: its id is made of its library name,
    its name and its type; it has no tag and no story; its design systems
    are the design-system modules whose name is its library name, ASCII case
    apart. *)
Definition described (cfg : Config) (m : Metadata) : Prop :=
  id m = libraryName m +:+ "/"
           +:+ (match name m with Some n => n | None => "undefined" end)
           +:+ "/" +:+ type m
  /\ tags m = [] /\ stories m = []
  /\ forall d, d ∈ designSystems m
       <-> d ∈ designSystemModules cfg
           /\ Js.toLowerCase d = Js.toLowerCase (libraryName m).

End RecordSpec.

(** ** Further vocabulary: the walker *)

Module WalkSpec.

(** What the file system holds, without the entries whose name is excluded,
    at every depth. *)
Fixpoint prune (excludedFolders : list string) (entry : FsEntry) : FsEntry :=
  match entry with
  | FsDirectory files =>
      FsDirectory
        ((fix go (files : list (string * FsEntry)) : list (string * FsEntry) :=
            match files with
            | [] => []
            | (file, child) :: rest =>
                if existsb (Js.streq file) excludedFolders
                then go rest
                else (file, prune excludedFolders child) :: go rest
            end) files)
  | other => other
  end.

(** The later state holds everything the earlier one held, in place: the
    records, the elements of [projectComponents] and the console lines of the
    earlier state are a prefix of the later one's. *)
Definition extends (st st' : Current.State) : Prop :=
  Current.codebaseComponents st `prefix_of` Current.codebaseComponents st'
  /\ Current.projectComponents st `prefix_of` Current.projectComponents st'
  /\ Current.console st `prefix_of` Current.console st'.

(** [projectComponents], without the empty objects of failed extractions,
    holds the records of [codebaseComponents]. *)
Definition mirrors (st : Current.State) : Prop :=
  omap (fun r : option Metadata => r) (Current.projectComponents st)
  = Current.codebaseComponents st.

(** The causes for which the pipeline gives up on a file: the file cannot be
    read, the oracle's output is not JSON, or the oracle fails and its error
    text is not JSON. *)
Definition fileFails (env : Env) (filePath : string) : Prop :=
  (exists message, readFile env filePath = Throw message)
  \/ (exists stdout message,
        execSync env (Oracle.structureCommand filePath) = Normal stdout
        /\ jsonParse env stdout = Throw message)
  \/ (exists failure message,
        execSync env (Oracle.structureCommand filePath) = Throw failure
        /\ jsonParse env (Js.trim failure) = Throw message).

End WalkSpec.

(** ** Symbol catalog: [updateDataset] and [getOffset] of [SwiftScanner.js] *)

Module Catalog.

(** [componentsDataset] as [updateDataset] finds and leaves it: the
    buckets the object owns, by name, and the array that a write to
    [__proto__] has made the prototype of the object, if any ([None] is
    [Object.prototype]). The order of the names is left out. *)
Record Store := mkStore {
  own : gmap string (list CatalogEntry);
  prototype : option (list CatalogEntry)
}.

(** The [{}] of the constructor. *)
Definition empty : Store := {| own := ∅; prototype := None |}.

(** The message of the [TypeError] thrown by the call of
    [this.componentsDataset.hasOwnProperty] once the object owns a bucket of
    that name, which hides the inherited method. *)
Definition notAFunction : string :=
  "this.componentsDataset.hasOwnProperty is not a function".

(** The callback of [forEach]. For a name the object does not own, the
    assignment creates the bucket, except for [__proto__]: there it makes
    the new array the prototype of the object, and the [push] that follows
    reaches that array through the same accessor. *)
Definition file (store : Store) (component : CatalogEntry) : Completion Store :=
  let moduleName := entry_moduleName component in
  match own store !! "hasOwnProperty" with
  | Some _ => Throw notAFunction
  | None =>
      match own store !! moduleName with
      | Some entries =>
          Normal {| own := <[moduleName := entries ++ [component]]> (own store);
                    prototype := prototype store |}
      | None =>
          if Js.streq moduleName "__proto__"
          then Normal {| own := own store; prototype := Some [component] |}
          else Normal {| own := <[moduleName := [component]]> (own store);
                         prototype := prototype store |}
      end
  end.

(** [updateDataset(components)]: the dataset it leaves, and the message of
    the error that ended the loop, if any. What was filed before the error
    stays. *)
Fixpoint updateDataset (store : Store) (components : list CatalogEntry)
    : Store * option string :=
  match components with
  | [] => (store, None)
  | component :: rest =>
      match file store component with
      | Normal store' => updateDataset store' rest
      | Throw message => (store, Some message)
      end
  end.

(** The bucket the object owns under a name, an absent one reading as
    empty. *)
Definition bucket (store : Store) (moduleName : string) : list CatalogEntry :=
  default [] (own store !! moduleName).

(** Every entry sits in the bucket named by its module, those of a module
    named [__proto__] possibly in the array that has become the prototype,
    and no bucket is empty. *)
Definition filed (store : Store) : Prop :=
  (forall moduleName entries, own store !! moduleName = Some entries ->
     entries <> [] /\ forall c, c ∈ entries -> entry_moduleName c = moduleName)
  /\ (forall entries, prototype store = Some entries ->
        entries <> [] /\ forall c, c ∈ entries -> entry_moduleName c = "__proto__").

(** [getOffset(swiftCode, filePath)]: the console line and the result,
    [None] being [null]. The [fs] of the module is [require("fs").promises],
    which has no [appendFileSync]: the call in the [else] branch throws, and
    the [catch] returns [null] without touching the file. *)
Definition getOffset (swiftCode filePath : string) : list string * option Z :=
  let lastNewlineIndex := Js.lastIndexOf Js.newline swiftCode in
  if (lastNewlineIndex =? -1)%Z
  then (["Error reading or updating file " +:+ filePath +:+ ": "
           +:+ "fs.appendFileSync is not a function"], None)
  else ([], Some lastNewlineIndex).

End Catalog.

(** ** Module of a path: [getModuleName] *)

Module Paths.

(** [getModuleName(filePath)] on the resolved path: the name of the first
    module whose path occurs in it, [None] being [null]. *)
Definition getModuleName (cfg : Config) (parentDir : string) : option string :=
  module_name <$> List.find (fun md => Js.includes parentDir (module_path md))
                            (projectModulesList cfg).

End Paths.

(** ** Further sample data *)

Module Sample2.

Definition testsModule : ProjectModule :=
  {| module_name := "AppTests"; module_path := "/proj/Sources/AppTests";
     module_originalPath := "/proj/Sources/AppTests/AppTests.swift";
     module_isThirdParty := false |}.

Definition libModule : ProjectModule :=
  {| module_name := "Lib"; module_path := "/proj/.build/checkouts/Lib/Sources/Lib";
     module_originalPath := "/proj/.build/checkouts/Lib/Sources/Lib/Lib.swift";
     module_isThirdParty := true |}.

(** [App] comes before [AppTests], whose path starts with the path of
    [App]. *)
Definition cfg : Config :=
  {| designSystemModules := [];
     projectModulesList := [Sample.appModule; testsModule; libModule];
     componentsDataset := [("Lib", [Sample.entryIn "Lib" "run()"])] |}.

(** A manifest in which one module target lists no input. *)
Definition manifestWithoutInput : Manifest.Data :=
  {| Manifest.commands :=
       [ ("PackageStructure", {| Manifest.inputs := ["/proj/Package.swift"] |});
         ("C.App-debug.module", {| Manifest.inputs := ["/proj/Sources/App/main.swift"] |});
         ("C.Gen-debug.module", {| Manifest.inputs := [] |}) ] |}.

End Sample2.

(** ** Import extractor: [getFileImports] *)

(** A node of the syntax tree: its [type], its [text] and its [children]. *)
#[local] Unset Elimination Schemes.
Inductive AstNode : Type :=
  mkAst (ast_type : string) (ast_text : string) (ast_children : list AstNode).
#[local] Set Elimination Schemes.

Definition ast_type (n : AstNode) : string := let 'mkAst t _ _ := n in t.
Definition ast_text (n : AstNode) : string := let 'mkAst _ x _ := n in x.
Definition ast_children (n : AstNode) : list AstNode := let 'mkAst _ _ c := n in c.

Module Imports.

(** A character of the class [[^@\s]], on the ASCII range. *)
Definition tokenChar (a : ascii) : bool :=
  negb (Ascii.eqb a "@") && negb (Js.isSpace a).

(** What [([^@\s]+)] takes: the longest run of token characters at the
    start. *)
Fixpoint takeToken (s : string) : string :=
  match s with
  | EmptyString => EmptyString
  | String a s' => if tokenChar a then String a (takeToken s') else EmptyString
  end.

(** What is left after [\s+]: the text after its leading white space, when
    there is some. A shorter run of white space would leave a white space
    where the next character of the pattern is none. *)
Definition afterSpaces (s : string) : option string :=
  match s with
  | String a _ => if Js.isSpace a then Some (Js.trimStart s) else None
  | EmptyString => None
  end.

(** The text without its first [n] characters. *)
Fixpoint dropChars (n : nat) (s : string) : string :=
  match n, s with
  | S k, String _ s' => dropChars k s'
  | _, _ => s
  end.

(** [/import\s+([^@\s]+)/] anchored at the start of [s]: the group. *)
Definition importAt (s : string) : option string :=
  if Js.startsWith s "import"
  then match afterSpaces (dropChars 6 s) with
       | Some rest =>
           let token := takeToken rest in
           if Js.truthy token then Some token else None
       | None => None
       end
  else None.

(** [/@testable\s+import\s+([^@\s]+)/] anchored at the start of [s]. *)
Definition testableAt (s : string) : option string :=
  if Js.startsWith s "@testable"
  then match afterSpaces (dropChars 9 s) with
       | Some rest => importAt rest
       | None => None
       end
  else None.

(** [text.match(re)[1]] for a pattern anchored by [anchored]: the group of
    the leftmost match. *)
Fixpoint leftmost (anchored : string -> option string) (s : string) : option string :=
  match anchored s with
  | Some group => Some group
  | None =>
      match s with
      | EmptyString => None
      | String _ s' => leftmost anchored s'
      end
  end.

(** What one node pushes on [importedLibraries]. *)
Definition ownImports (node : AstNode) : list string :=
  if Js.streq (ast_type node) "import_declaration"
  then match leftmost importAt (Js.trim (ast_text node)) with
       | Some group => [Js.trim group]
       | None => []
       end
  else if Js.streq (ast_type node) "attribute"
  then (let attributeText := Js.trim (ast_text node) in
        if Js.startsWith attributeText "@testable import"
        then match leftmost testableAt attributeText with
             | Some group => [Js.trim group]
             | None => []
             end
        else [])
  else [].

(** [getFileImports(node, importedLibraries)]: the array after the call. *)
Fixpoint getFileImports (node : AstNode) (importedLibraries : list string) : list string :=
  match node with
  | mkAst _ _ children =>
      (fix each (children : list AstNode) (imported : list string) : list string :=
         match children with
         | [] => imported
         | child :: rest => each rest (getFileImports child imported)
         end) children (importedLibraries ++ ownImports node)
  end.

(** The nodes of a tree, each before its children, siblings in order. *)
Fixpoint preorder (node : AstNode) : list AstNode :=
  match node with
  | mkAst _ _ children =>
      node :: (fix walk (children : list AstNode) : list AstNode :=
                 match children with
                 | [] => []
                 | child :: rest => preorder child ++ walk rest
                 end) children
  end.

(** A text of white space only, and a text of token characters only. *)
Fixpoint allSpaces (s : string) : bool :=
  match s with
  | EmptyString => true
  | String a s' => Js.isSpace a && allSpaces s'
  end.

Fixpoint allToken (s : string) : bool :=
  match s with
  | EmptyString => true
  | String a s' => tokenChar a && allToken s'
  end.

(** The text ends, or goes on with a character that ends a token. *)
Definition endsToken (rest : string) : bool :=
  match rest with
  | EmptyString => true
  | String a _ => negb (tokenChar a)
  end.

End Imports.

(** * Properties *)

(** ** Facts about the string operations *)

Module JsFacts.

Lemma streq_true (s t : string) : Js.streq s t = true <-> s = t.
Proof. unfold Js.streq. apply String.eqb_eq. Qed.

Lemma streq_false (s t : string) : Js.streq s t = false <-> s <> t.
Proof. unfold Js.streq. apply String.eqb_neq. Qed.

Lemma streq_refl (s : string) : Js.streq s s = true.
Proof. apply streq_true. reflexivity. Qed.

Lemma truthy_true (s : string) : Js.truthy s = true <-> s <> "".
Proof.
  unfold Js.truthy. rewrite negb_true_iff. apply streq_false.
Qed.

Lemma startsWith_app (p t : string) : Js.startsWith (p +:+ t) p = true.
Proof.
  induction p as [|a p IH]; simpl.
  - destruct t; reflexivity.
  - rewrite Ascii.eqb_refl. exact IH.
Qed.

Lemma startsWith_inv (s p : string) :
  Js.startsWith s p = true -> exists t, s = p +:+ t.
Proof.
  revert s. induction p as [|b p IH]; intros s H.
  - exists s. reflexivity.
  - destruct s as [|a s]; simpl in H; [discriminate|].
    apply andb_true_iff in H as [Hab Hs].
    apply Ascii.eqb_eq in Hab. subst b.
    destruct (IH _ Hs) as [t ->]. exists t. reflexivity.
Qed.

Lemma includes_of_startsWith (s p : string) :
  Js.startsWith s p = true -> Js.includes s p = true.
Proof. intros H. destruct s; cbn [Js.includes]; rewrite H; reflexivity. Qed.

Lemma includes_app (a p b : string) : Js.includes (a +:+ p +:+ b) p = true.
Proof.
  induction a as [|c a IH].
  - change ("" +:+ p +:+ b) with (p +:+ b).
    apply includes_of_startsWith, startsWith_app.
  - change (String c a +:+ p +:+ b) with (String c (a +:+ p +:+ b)).
    cbn [Js.includes]. rewrite IH. apply orb_true_r.
Qed.

Lemma includes_nil (p : string) : Js.includes "" p = Js.startsWith "" p.
Proof. cbn [Js.includes]. apply orb_false_r. Qed.

Lemma includes_cons (c : ascii) (s p : string) :
  Js.includes (String c s) p = Js.startsWith (String c s) p || Js.includes s p.
Proof. reflexivity. Qed.

Lemma includes_inv (s p : string) :
  Js.includes s p = true -> exists a b, s = a +:+ p +:+ b.
Proof.
  induction s as [|c s IH]; intros H.
  - rewrite includes_nil in H. apply startsWith_inv in H as [t ->].
    exists "", t. reflexivity.
  - rewrite includes_cons in H. apply orb_true_iff in H as [H|H].
    + apply startsWith_inv in H as [t ->]. exists "", t. reflexivity.
    + destruct (IH H) as (a & b & ->). exists (String c a), b. reflexivity.
Qed.

End JsFacts.

(** ** Offset to line and column *)

(** C4, as the code computes it: in the text [a], line feed, [bb], line feed,
    [ccc], offset 4 is the second line feed; the line starts at index 2, so
    the location is line 2, column 4 - 2 + 1 = 3. *)
Theorem C4_offset_4_is_line_2_column_3 (fileName : string) :
  Locate.findLineAndColumn (fun _ => Normal Sample.content) fileName 4 = ([], Some (2, 3)).
Proof. reflexivity. Qed.

(** C4 as stated (line 2, column 2 at offset 4) does not hold. *)
Lemma C4_offset_4_is_not_column_2 :
  Locate.findLineAndColumn (fun _ => Normal Sample.content) "a.swift" 4 <> ([], Some (2, 2)).
Proof. discriminate. Qed.

(** Line 2, column 2 is the location of offset 3, the second [b]. *)
Lemma offset_3_is_line_2_column_2 :
  Locate.locate Sample.content 3 = (2, 2).
Proof. reflexivity. Qed.

(** ** Structural extractor *)

Module StructureFacts.

Import Structure.

(** Induction on a tree with the hypothesis for every child. *)
Lemma Node_forall_ind (P : Node -> Prop) :
  (forall k m o sub, Forall P sub -> P (mkNode k m o sub)) ->
  forall n, P n.
Proof.
  intros step.
  fix IH 1.
  intros [k m o sub]. apply step.
  induction sub as [|c sub IHsub]; constructor.
  - apply IH.
  - exact IHsub.
Qed.

Lemma extract_is_filtered_walk (root : Node) :
  extractComponentsFromStructure root = flattenSpec root.
Proof.
  unfold flattenSpec.
  induction root as [k m o sub IH] using Node_forall_ind.
  simpl. induction IH as [|c sub Hc _ IHsub]; [reflexivity|].
  rewrite IHsub, Hc. simpl.
  rewrite List.filter_app.
  destruct (isSwiftComponent c); reflexivity.
Qed.

End StructureFacts.

(** C9: the flat list is the pre-order walk of the nodes below the root
    (each parent before its descendants) filtered by the kind test; so a node
    is in the list exactly when it lies below the root and its kind starts
    with a declaration, expression or structure prefix, whatever the kinds of
    the nodes above it. *)
Theorem C9_flattening_retains_by_kind_prefix (root : Node) :
  Structure.extractComponentsFromStructure root
    = List.filter Structure.isSwiftComponent (Structure.descendants root)
  /\ forall component,
       component ∈ Structure.extractComponentsFromStructure root
       <-> component ∈ Structure.descendants root
           /\ (Js.startsWith (key_kind component) "source.lang.swift.decl" = true
               \/ Js.startsWith (key_kind component) "source.lang.swift.expr" = true
               \/ Js.startsWith (key_kind component) "source.lang.swift.structure" = true).
Proof.
  pose proof (StructureFacts.extract_is_filtered_walk root) as E.
  unfold Structure.flattenSpec in E. split; [exact E|].
  intros component. rewrite E, !list_elem_of_In, List.filter_In.
  unfold Structure.isSwiftComponent. rewrite !orb_true_iff. tauto.
Qed.

(** ** External commands *)

(** C10: [executeCommand] returns normally for every command; when the
    execution fails, what it returns is the trimmed message of the failure.
    So when the structural oracle fails, [getStructureFromFile] gives that
    text to the JSON parser, and the only error it can raise is the
    parser's. *)
Theorem C10_executeCommand_returns_failure_text (env : Env) (command : string) :
  (exists output, Oracle.executeCommand env command = Normal output)
  /\ (forall message,
        execSync env command = Throw message ->
        Oracle.executeCommand env command = Normal (Js.trim message))
  /\ (forall filePath message,
        execSync env (Oracle.structureCommand filePath) = Throw message ->
        Oracle.getStructureFromFile env filePath
          = match jsonParse env (Js.trim message) with
            | Normal fileStructure => Normal fileStructure
            | Throw parseMessage =>
                Throw ("Error extracting public components: " +:+ parseMessage)
            end).
Proof.
  unfold Oracle.getStructureFromFile, Oracle.executeCommand, Oracle.tryCatch.
  repeat split.
  - destruct (execSync env command) as [output|message]; eauto.
  - intros message ->. reflexivity.
  - intros filePath message ->. reflexivity.
Qed.

Lemma C10_failing_oracle_witness :
  Oracle.executeCommand Sample.failingEnv "sourcekitten" = Normal "Command failed: sourcekitten"
  /\ Oracle.getStructureFromFile Sample.failingEnv "a.swift"
     = Throw "Error extracting public components: Unexpected token C in JSON at position 0".
Proof.
  destruct (C10_executeCommand_returns_failure_text Sample.failingEnv "sourcekitten")
    as (_ & Hfail & Hstructure).
  split.
  - exact (Hfail " Command failed: sourcekitten " eq_refl).
  - exact (Hstructure "a.swift" " Command failed: sourcekitten " eq_refl).
Defined.

(** ** Matching rule *)

Module MatcherFacts.

Lemma baseNameOf_empty : Current.baseNameOf "" = "".
Proof. reflexivity. Qed.

Lemma baseName_nonempty (n : string) : Current.baseNameOf n <> "" -> n <> "".
Proof. intros H ->. apply H, baseNameOf_empty. Qed.

Lemma componentNameOf_Some (component : Node) (b : string) :
  Current.componentNameOf component = Some b
  <-> exists n, key_name component = Some n /\ Current.baseNameOf n = b /\ b <> "".
Proof.
  unfold Current.componentNameOf. split.
  - destruct (key_name component) as [n|]; [|discriminate].
    destruct (Js.truthy n); [|discriminate].
    destruct (Js.truthy (Current.baseNameOf n)) eqn:Hb; [|discriminate].
    intros [= <-]. exists n. apply JsFacts.truthy_true in Hb. auto.
  - intros (n & -> & <- & Hb).
    pose proof (baseName_nonempty _ Hb) as Hn.
    apply JsFacts.truthy_true in Hn, Hb. rewrite Hn, Hb. reflexivity.
Qed.

Lemma kindTest_true (entry : CatalogEntry) (component : Node) :
  (Js.includes (entry_kind entry) "function" && Js.includes (key_kind component) "expr")
    || Js.streq (entry_kind entry) (key_kind component) = true
  <-> Spec.kindsCompatible entry component.
Proof.
  unfold Spec.kindsCompatible.
  rewrite orb_true_iff, andb_true_iff, JsFacts.streq_true. tauto.
Qed.

Lemma declaresMatch_applied (entry : CatalogEntry) (component : Node) :
  Current.declaresMatch entry component = true <-> Spec.appliedRule entry component.
Proof.
  unfold Current.declaresMatch, Spec.appliedRule. split.
  - destruct (Current.componentNameOf component) as [b|] eqn:Hc; [|discriminate].
    apply componentNameOf_Some in Hc as (n & Hn & Hb & Hne).
    unfold Current.preprocess. cbn [flat_map].
    destruct (Js.truthy (entry_name entry)); cbn [app existsb]; [|discriminate].
    rewrite orb_false_r. unfold Current.satisfies. cbn [Current.baseName Current.isFunc Current.kind].
    rewrite andb_true_iff, JsFacts.streq_true, kindTest_true.
    intros [Hbase Hkind]. split; [|exact Hkind].
    exists n. subst b. auto.
  - intros [(n & Hn & Hne & Hbase) Hkind].
    assert (Hc : Current.componentNameOf component = Some (Current.baseNameOf n))
      by (apply componentNameOf_Some; eauto).
    rewrite Hc. unfold Current.preprocess. cbn [flat_map].
    assert (He : Js.truthy (entry_name entry) = true).
    { apply JsFacts.truthy_true, baseName_nonempty. congruence. }
    rewrite He. cbn [app existsb]. rewrite orb_false_r.
    unfold Current.satisfies. cbn [Current.baseName Current.isFunc Current.kind].
    rewrite andb_true_iff, JsFacts.streq_true, kindTest_true. auto.
Qed.

(** A name with a space before its parenthesis matches, although the parts
    before the parenthesis differ. *)
Lemma trimmed_names_match :
  let entry := Sample.entryIn "Lib" "foo (bar:)" in
  let component := Sample.call "foo(bar:)" 0 in
  Current.declaresMatch entry component = true /\ ~ Spec.statedRule entry component.
Proof.
  split; [reflexivity|].
  intros [(n & [= <-] & Hbase) _]. discriminate Hbase.
Qed.

End MatcherFacts.

(** C3, as the code applies the rule: a match is declared exactly when the
    candidate has a name whose trimmed base name is not empty and equals the
    entry's trimmed base name, and either the entry's kind contains
    [function] while the candidate's contains [expr], or the two kinds are
    equal. The entry [foo(bar:)] of a function kind matches the candidate
    [foo(bar:)] of a call kind and a candidate of its own kind, and no
    candidate whose base name is [food]. *)
Theorem C3_match_rule (entry : CatalogEntry) (component : Node) :
  (Current.declaresMatch entry component = true <-> Spec.appliedRule entry component)
  /\ (forall declNamespace exprNamespace moduleName doc off sub,
        let foo := mkEntry "foo(bar:)" (declNamespace +:+ "function.free") moduleName doc in
        Current.declaresMatch foo
          (mkNode (exprNamespace +:+ "expr.call") (Some "foo(bar:)") off sub) = true
        /\ Current.declaresMatch foo (mkNode (entry_kind foo) (Some "foo(bar:)") off sub) = true
        /\ forall n kind,
             Spec.statedBaseName n = "food" ->
             Current.declaresMatch foo (mkNode kind (Some n) off sub) = false).
Proof.
  split; [apply MatcherFacts.declaresMatch_applied|].
  intros declNamespace exprNamespace moduleName doc off sub foo. repeat split.
  - apply MatcherFacts.declaresMatch_applied. split.
    + exists "foo(bar:)". repeat split. discriminate.
    + left. split.
      * exact (JsFacts.includes_app declNamespace "function" ".free").
      * exact (JsFacts.includes_app exprNamespace "expr" ".call").
  - apply MatcherFacts.declaresMatch_applied. split.
    + exists "foo(bar:)". repeat split. discriminate.
    + right. reflexivity.
  - intros n kind Hfood. apply not_true_is_false. intros H.
    apply MatcherFacts.declaresMatch_applied in H as [(n' & [= <-] & _ & Hbase) _].
    unfold Current.baseNameOf, Spec.statedBaseName in *. rewrite Hfood in Hbase.
    discriminate Hbase.
Qed.

Lemma C3_match_rule_witness :
  Current.declaresMatch (Sample.entryIn "Lib" "foo(bar:)") (Sample.call "food(bar:)" 7) = false.
Proof.
  destruct (C3_match_rule (Sample.entryIn "Lib" "run()") (Sample.call "run" 0)) as [_ H].
  destruct (H "source.lang.swift.decl." "source.lang.swift." "Lib" None 7 [])
    as (_ & _ & Hfood).
  exact (Hfood "food(bar:)" Sample.callKind eq_refl).
Defined.

(** C3 as stated fails: an entry [(x)] and a candidate [(y)] of the same kind
    have equal (empty) base names, and the code skips the candidate. *)
Lemma C3_stated_rule_counterexample :
  ~ (forall entry component,
       Current.declaresMatch entry component = true <-> Spec.statedRule entry component).
Proof.
  intros H.
  specialize (H (Sample.entryIn "Lib" "(x)") (mkNode Sample.functionKind (Some "(y)") 0 [])).
  assert (Hs : Spec.statedRule (Sample.entryIn "Lib" "(x)")
                 (mkNode Sample.functionKind (Some "(y)") 0 [])).
  { split; [exists "(y)"; split; reflexivity | right; reflexivity]. }
  apply H in Hs. discriminate Hs.
Qed.

(** ** Build graph resolver *)

Module ManifestFacts.

Lemma app_empty (b : string) : "" +:+ b = b.
Proof. reflexivity. Qed.

Lemma app_String (c : ascii) (a b : string) : String c a +:+ b = String c (a +:+ b).
Proof. reflexivity. Qed.

Lemma length_app (a b : string) :
  String.length (a +:+ b) = String.length a + String.length b.
Proof.
  induction a as [|c a IH]; [reflexivity|].
  rewrite app_String. cbn [String.length]. rewrite IH. reflexivity.
Qed.

Lemma substring_prefix (b c : string) :
  String.substring 0 (String.length b) (b +:+ c) = b.
Proof.
  induction b as [|x b IH].
  - rewrite app_empty. destruct c; reflexivity.
  - rewrite app_String. cbn [String.length String.substring]. rewrite IH. reflexivity.
Qed.

Lemma lastIndexOf_after (a d : string) :
  Js.lastIndexOf Js.dash d = (-1)%Z ->
  Js.lastIndexOf Js.dash (a +:+ String Js.dash d) = Z.of_nat (String.length a).
Proof.
  intros Hd. induction a as [|c a IH].
  - rewrite app_empty. cbn [Js.lastIndexOf]. rewrite Hd. reflexivity.
  - rewrite app_String. cbn [Js.lastIndexOf]. rewrite IH.
    destruct (Z.leb_spec 0 (Z.of_nat (String.length a))) as [_|Hneg]; [|lia].
    cbn [String.length]. lia.
Qed.

(** The name of a key that follows the pattern is the module's. *)
Lemma moduleNameOf_pattern (key moduleName disambiguator : string) :
  Spec.keyPattern key moduleName disambiguator ->
  Manifest.moduleNameOf key = moduleName.
Proof.
  intros [-> Hd]. unfold Manifest.moduleNameOf.
  change ("C." +:+ moduleName +:+ "-" +:+ disambiguator)
    with (String "C" (String "." (moduleName +:+ String Js.dash disambiguator))).
  change (String "C" (String "." (moduleName +:+ String Js.dash disambiguator)))
    with (String "C" (String "." moduleName) +:+ String Js.dash disambiguator) at 2.
  rewrite (lastIndexOf_after _ _ Hd).
  unfold Js.substring. cbn [String.length]. rewrite length_app. cbn [String.length].
  set (n := String.length moduleName). set (k := String.length disambiguator).
  replace (Z.to_nat _) with 2 by lia.
  replace (Z.to_nat _) with n by lia.
  cbn [String.substring]. apply substring_prefix.
Qed.

Lemma command_of_member (data : Manifest.Data) (key : string) (c : Manifest.Command) :
  NoDup (map fst (Manifest.commands data)) ->
  (key, c) ∈ Manifest.commands data ->
  Manifest.command data key = Some c.
Proof.
  unfold Manifest.command. induction (Manifest.commands data) as [|[k c'] l IH];
    intros Hnd Hin.
  - inversion Hin.
  - cbn [List.find fst]. apply NoDup_cons in Hnd as [Hk Hnd].
    apply elem_of_cons in Hin as [[= <- <-]|Hin].
    + rewrite JsFacts.streq_refl. reflexivity.
    + destruct (Js.streq k key) eqn:E.
      * apply JsFacts.streq_true in E. subst k. exfalso. apply Hk.
        apply list_elem_of_fmap. exists (key, c). auto.
      * auto.
Qed.

Lemma filterKeys_wellFormed (data : Manifest.Data) (l : list (string * Manifest.Command)) :
  Spec.wellFormed data ->
  (forall kc, kc ∈ l -> kc ∈ Manifest.commands data) ->
  Manifest.filterKeys data (List.filter (fun key => Js.startsWith key "C.") (map fst l))
    = Normal (List.filter (fun target => Manifest.keep (snd target)) (Spec.targetsOf l)).
Proof.
  intros (Hnd & _ & Hmod). induction l as [|[key c] l IH]; intros Hsub; [reflexivity|].
  assert (Hin : (key, c) ∈ Manifest.commands data) by (apply Hsub; left).
  assert (Hrest : forall kc, kc ∈ l -> kc ∈ Manifest.commands data)
    by (intros kc Hkc; apply Hsub; right; exact Hkc).
  specialize (IH Hrest).
  cbn [map fst List.filter Spec.targetsOf flat_map].
  destruct (Js.startsWith key "C.") eqn:Hc.
  - destruct (Hmod key c Hin Hc) as (_ & originalPath & rest & Hinputs).
    cbn [Manifest.filterKeys]. unfold Manifest.firstInput.
    rewrite (command_of_member data key c Hnd Hin), Hinputs.
    fold (Spec.targetsOf l). rewrite IH. cbn [app List.filter snd]. reflexivity.
  - fold (Spec.targetsOf l). rewrite IH.
    destruct (Manifest.inputs c); reflexivity.
Qed.

(** [includes] is the occurrence of the text. *)
Lemma includes_text (path text : string) :
  Js.includes path text = true <-> Spec.occursIn text path.
Proof.
  split.
  - apply JsFacts.includes_inv.
  - intros (before & after & ->). apply JsFacts.includes_app.
Qed.

(** The callback of [filter], read by text. *)
Lemma keep_text (originalPath : string) :
  Manifest.keep originalPath = true
  <-> Spec.occursIn ".build/checkouts" originalPath \/ ~ Spec.occursIn ".build" originalPath.
Proof.
  unfold Manifest.keep. rewrite orb_true_iff, negb_true_iff, includes_text.
  rewrite <- (includes_text originalPath ".build").
  destruct (Js.includes originalPath ".build"); split.
  - intros [H|H]; [left; exact H|discriminate H].
  - intros [H|H]; [left; exact H|]. exfalso. apply H. reflexivity.
  - intros _. right. intros H. discriminate H.
  - intros _. right. reflexivity.
Qed.

Lemma selects_filter {A : Type} (P : A -> Prop) (f : A -> bool) (l : list A) :
  (forall x, f x = true <-> P x) -> Spec.selects P l (List.filter f l).
Proof.
  intros Hf. induction l as [|x l IH]; [constructor|].
  cbn [List.filter]. destruct (f x) eqn:Hx.
  - apply Spec.selects_keep; [apply Hf, Hx|exact IH].
  - apply Spec.selects_drop; [|exact IH]. intros Hp. apply Hf in Hp. congruence.
Qed.

(** Every module target of a well-formed manifest follows the key pattern. *)
Lemma target_pattern (data : Manifest.Data) :
  Spec.wellFormed data ->
  forall key originalPath,
    (key, originalPath) ∈ Spec.moduleTargets data ->
    exists moduleName disambiguator, Spec.keyPattern key moduleName disambiguator.
Proof.
  intros (_ & _ & Hmod) key originalPath Hin.
  unfold Spec.moduleTargets in Hin.
  apply list_elem_of_In, in_flat_map in Hin as ([k c] & Hkc & Hin).
  destruct (Manifest.inputs c) as [|p rest] eqn:Hinputs; [inversion Hin|].
  destruct (Js.startsWith k "C.") eqn:Hc; [|inversion Hin].
  destruct Hin as [[= -> ->]|[]].
  apply list_elem_of_In in Hkc.
  exact (proj1 (Hmod key c Hkc Hc)).
Qed.

(** The object pushed for a target describes it. *)
Lemma describes_map (targets : list (string * string)) :
  (forall target, target ∈ targets ->
     exists moduleName disambiguator, Spec.keyPattern (fst target) moduleName disambiguator) ->
  Forall2 (Spec.describes (Spec.occursIn ".build/checkouts"))
    (map (fun '(key, originalPath) => Manifest.moduleOf key originalPath) targets) targets.
Proof.
  induction targets as [|[key originalPath] targets IH]; intros Hpat; [constructor|].
  cbn [map]. constructor.
  - destruct (Hpat (key, originalPath)) as (moduleName & disambiguator & Hkey); [left|].
    cbn [fst] in Hkey.
    split; [reflexivity|]. split; [apply includes_text|].
    exists disambiguator. cbn [Manifest.moduleOf module_name fst].
    rewrite (moduleNameOf_pattern _ _ _ Hkey). exact Hkey.
  - apply IH. intros target Hin. apply Hpat. right. exact Hin.
Qed.

End ManifestFacts.

(** C7, by text: for a well-formed manifest the resolver succeeds, and the
    module list holds, in the order of the manifest, one module for exactly
    those [C.] targets whose first input contains the text [.build/checkouts]
    or does not contain the text [.build]; each module keeps that input as
    its original path, is third-party exactly when the input contains
    [.build/checkouts], and is named by the key without its [C.] and its
    trailing disambiguator. *)
Theorem C7_topology_follows_the_text (data : Manifest.Data) :
  Spec.wellFormed data ->
  exists modules,
    Manifest.getDebugYaml data [] = Normal modules
    /\ Spec.topology (Spec.occursIn ".build/checkouts") (Spec.occursIn ".build")
         data modules.
Proof.
  intros Hwf. pose proof Hwf as (Hnd & (ps & Hps) & Hmod).
  eexists. split.
  - unfold Manifest.getDebugYaml.
    rewrite (ManifestFacts.command_of_member data _ ps Hnd Hps).
    rewrite (ManifestFacts.filterKeys_wellFormed data (Manifest.commands data) Hwf)
      by auto.
    cbn [app]. reflexivity.
  - exists (List.filter (fun target => Manifest.keep (snd target)) (Spec.moduleTargets data)).
    split.
    + apply ManifestFacts.selects_filter. intros target. apply ManifestFacts.keep_text.
    + apply ManifestFacts.describes_map. intros [key originalPath] Hin.
      apply list_elem_of_In, List.filter_In in Hin as [Hin _].
      cbn [fst]. apply (ManifestFacts.target_pattern data Hwf key originalPath).
      apply list_elem_of_In. exact Hin.
Qed.

Lemma C7_sample_manifest_witness :
  exists modules,
    Manifest.getDebugYaml Sample.manifest [] = Normal modules
    /\ Spec.topology (Spec.occursIn ".build/checkouts") (Spec.occursIn ".build")
         Sample.manifest modules
    /\ map module_name modules = ["App"; "Lib"]
    /\ map module_isThirdParty modules = [false; true].
Proof.
  assert (Hwf : Spec.wellFormed Sample.manifest).
  { split; [|split].
    - apply (bool_decide_unpack _). vm_compute. reflexivity.
    - eexists. left.
    - intros key c Hin Hc.
      repeat (apply elem_of_cons in Hin as [Hin|Hin]).
      + injection Hin as -> ->. discriminate Hc.
      + injection Hin as -> ->. split.
        * exists "App", "debug.module". split; reflexivity.
        * eexists _, _. reflexivity.
      + injection Hin as -> ->. split.
        * exists "Lib", "debug.module". split; reflexivity.
        * eexists _, _. reflexivity.
      + injection Hin as -> ->. split.
        * exists "Gen", "debug.module". split; reflexivity.
        * eexists _, _. reflexivity.
      + inversion Hin. }
  destruct (C7_topology_follows_the_text Sample.manifest Hwf) as (modules & Hrun & Htopology).
  exists modules. split; [exact Hrun|]. split; [exact Htopology|].
  assert (Heq : modules
                = map (fun '(key, originalPath) => Manifest.moduleOf key originalPath)
                    [("C.App-debug.module", "/proj/Sources/App/main.swift");
                     ("C.Lib-debug.module",
                      "/proj/.build/checkouts/Lib/Sources/Lib/Lib.swift")]).
  { assert (Hsome : Normal modules
                    = Normal
                        (map (fun '(key, originalPath) => Manifest.moduleOf key originalPath)
                           [("C.App-debug.module", "/proj/Sources/App/main.swift");
                            ("C.Lib-debug.module",
                             "/proj/.build/checkouts/Lib/Sources/Lib/Lib.swift")]))
      by (rewrite <- Hrun; reflexivity).
    injection Hsome as ->. reflexivity. }
  rewrite Heq. split; reflexivity.
Defined.

(** C7 as stated, read by directories, fails on a package kept in a
    directory named [my.build]: the manifest is well-formed and neither
    first input goes through a directory named [.build], yet the resolver
    returns no module. *)
Lemma C7_path_reading_counterexample :
  Spec.wellFormed Sample.manifestBesideBuild
  /\ ~ exists modules,
        Manifest.getDebugYaml Sample.manifestBesideBuild [] = Normal modules
        /\ Spec.topology Spec.pathUnderCheckouts Spec.pathUnderBuild
             Sample.manifestBesideBuild modules.
Proof.
  split.
  - split; [|split].
    + apply (bool_decide_unpack _). vm_compute. reflexivity.
    + eexists. left.
    + intros key c Hin Hc.
      repeat (apply elem_of_cons in Hin as [Hin|Hin]).
      * injection Hin as -> ->. discriminate Hc.
      * injection Hin as -> ->. split.
        -- exists "App", "debug.module". split; reflexivity.
        -- eexists _, _. reflexivity.
      * injection Hin as -> ->. split.
        -- exists "Core", "debug.module". split; reflexivity.
        -- eexists _, _. reflexivity.
      * inversion Hin.
  - intros (modules & Hrun & keptTargets & Hselects & Hdescribes).
    assert (Hnone : modules = []).
    { assert (Hsome : Normal modules = Normal (@nil ProjectModule))
        by (rewrite <- Hrun; reflexivity).
      injection Hsome as ->. reflexivity. }
    subst modules. inversion Hdescribes; subst keptTargets.
    inversion Hselects as [| |target l selected Hnot Hrest]; subst.
    apply Hnot. right. unfold Spec.pathUnderBuild.
    intros Hbuild. vm_compute in Hbuild.
    repeat (apply elem_of_cons in Hbuild as [Hbuild|Hbuild]; [discriminate Hbuild|]).
    inversion Hbuild.
Qed.

(** ** Metadata aggregator *)

Module AggregatorFacts.

Import Aggregator.






(** The update block, on any record. *)
Lemma update_block (metadata : Metadata) (filePath : string) (loc : Location) :
  let updated := setLocation (countOccurence metadata filePath) filePath loc in
  filewiseLocation updated !! filePath = Some [loc]
  /\ totalOccurences updated = totalOccurences metadata + 1
  /\ filewiseOccurences updated !! filePath
     = Some (default 0 (filewiseOccurences metadata !! filePath) + 1).
Proof.
  cbn. rewrite !lookup_insert_eq. auto.
Qed.

Lemma id_update (metadata : Metadata) (filePath : string) (loc : Location) :
  id (setLocation (countOccurence metadata filePath) filePath loc) = id metadata.
Proof. reflexivity. Qed.

End AggregatorFacts.

Module CurrentFacts.

Import Aggregator.

Lemma digitsValue_allDigits (s : string) (acc n : nat) :
  Current.digitsValue s acc = Some n -> Current.allDigits s = true.
Proof.
  revert acc. induction s as [|a s IH]; intros acc H; [reflexivity|].
  cbn [Current.digitsValue] in H. cbn [Current.allDigits].
  destruct (Current.isDigit a); [|discriminate]. eauto.
Qed.

Lemma arrayIndex_allDigits (key : string) (n : nat) :
  Current.arrayIndex key = Some n -> Current.allDigits key = true.
Proof.
  unfold Current.arrayIndex. destruct key as [|a rest]; [discriminate|].
  destruct (Ascii.eqb a "0") eqn:Ha.
  - apply Ascii.eqb_eq in Ha. subst a.
    destruct (Js.streq rest "") eqn:Hr; [|discriminate].
    apply JsFacts.streq_true in Hr. subst rest. reflexivity.
  - apply digitsValue_allDigits.
Qed.

Lemma allDigits_slash (a b : string) : Current.allDigits (a +:+ String Js.slash b) = false.
Proof.
  induction a as [|c a IH]; [reflexivity|].
  rewrite ManifestFacts.app_String. cbn [Current.allDigits]. rewrite IH. apply andb_false_r.
Qed.

(** A metadata id is never an array index: the lookup in
    [codebaseComponents] finds nothing, whatever the array holds. *)
Lemma lookup_by_id_finds_nothing (array : list Metadata) (component : Node)
    (entry : CatalogEntry) :
  Current.arrayProperty array (metadataId component entry) = None.
Proof.
  unfold Current.arrayProperty.
  destruct (Current.arrayIndex (metadataId component entry)) as [i|] eqn:Hi; [|reflexivity].
  apply arrayIndex_allDigits in Hi. unfold metadataId in Hi.
  change ("/" +:+ nameText component +:+ "/" +:+ componentType component)
    with (String Js.slash (nameText component +:+ "/" +:+ componentType component)) in Hi.
  rewrite allDigits_slash in Hi. discriminate.
Qed.

Section Steps.
Variable env : Env.
Variable cfg : Config.

Lemma current_readable (st : Current.State) (component : Node)
    (entry : CatalogEntry) (filePath content : string) :
  readFile env filePath = Normal content ->
  Current.extractMetadata env cfg st component entry filePath
  = (Current.setCodebase
       (Current.codebaseComponents st ++ [Spec.currentRecord cfg component entry filePath content])
       (Current.log [] st),
     Some (Spec.currentRecord cfg component entry filePath content)).
Proof.
  intros Hread. unfold Current.extractMetadata, Locate.findLineAndColumn.
  rewrite lookup_by_id_finds_nothing, Hread. reflexivity.
Qed.

Lemma current_unreadable (st : Current.State) (component : Node)
    (entry : CatalogEntry) (filePath message : string) :
  readFile env filePath = Throw message ->
  Current.codebaseComponents (Current.extractMetadata env cfg st component entry filePath).1
  = Current.codebaseComponents st.
Proof.
  intros Hread. unfold Current.extractMetadata, Locate.findLineAndColumn.
  rewrite lookup_by_id_finds_nothing, Hread. reflexivity.
Qed.



(** Every resolved match in a readable file adds a record to the array. *)
Lemma current_run_grows (calls : list Spec.Resolved) (st : Current.State) :
  Forall (fun r => exists content, readFile env (Spec.inFile r) = Normal content) calls ->
  length (Current.codebaseComponents (Spec.currentRun env cfg calls st))
  = length (Current.codebaseComponents st) + length calls.
Proof.
  revert st. induction calls as [|r calls IH]; intros st Hread.
  - cbn. lia.
  - apply Forall_cons in Hread as [[content Hr] Hrest].
    change (Spec.currentRun env cfg (r :: calls) st)
      with (Spec.currentRun env cfg calls
              (Current.extractMetadata env cfg st (Spec.candidate r) (Spec.resolvedTo r)
                 (Spec.inFile r)).1).
    rewrite (IH _ Hrest), (current_readable _ _ _ _ _ Hr).
    cbn. rewrite length_app. cbn. lia.
Qed.

End Steps.

End CurrentFacts.

Module LegacyFacts.

Import Aggregator.

Section Steps.
Variable env : Env.
Variable cfg : Config.
Variable thirdPartyDependencies : Legacy.Dependencies.

(** What the update starts from is a stored record or a new one. *)
Lemma start_cases (st : Legacy.State) (component : Node) (entry : CatalogEntry)
    (start : Metadata) :
  Legacy.startRecord cfg thirdPartyDependencies st component entry = Normal start ->
  Legacy.codebaseComponents st !! metadataId component entry = Some start
  \/ (Legacy.codebaseComponents st !! metadataId component entry = None
      /\ exists tp, start = newMetadata (designSystemModules cfg) tp component entry).
Proof.
  unfold Legacy.startRecord.
  destruct (Legacy.codebaseComponents st !! metadataId component entry) as [m|].
  - intros [= ->]. left. reflexivity.
  - destruct (Legacy.isThirdParty thirdPartyDependencies (entry_moduleName entry));
      [|discriminate].
    intros [= <-]. right. split; [reflexivity|]. eexists. reflexivity.
Qed.

Lemma legacy_throws (st : Legacy.State) (component : Node)
    (entry : CatalogEntry) (filePath message : string) :
  Legacy.startRecord cfg thirdPartyDependencies st component entry = Throw message ->
  Legacy.extractMetadata env cfg thirdPartyDependencies st component entry filePath
  = (Legacy.log ["Error extracting metadata: " +:+ message] st, None).
Proof. intros Hstart. unfold Legacy.extractMetadata. rewrite Hstart. reflexivity. Qed.

Lemma legacy_readable (st : Legacy.State) (component : Node)
    (entry : CatalogEntry) (filePath content : string) (start : Metadata) :
  readFile env filePath = Normal content ->
  Legacy.startRecord cfg thirdPartyDependencies st component entry = Normal start ->
  Legacy.extractMetadata env cfg thirdPartyDependencies st component entry filePath
  = (Legacy.setCodebase
       (<[metadataId component entry :=
            setLocation (countOccurence start filePath)
              filePath (locationEntry (Locate.locate content (key_offset component)) component)]>
          (Legacy.codebaseComponents st))
       (Legacy.log [] st),
     Some (metadataId component entry)).
Proof.
  intros Hread Hstart. unfold Legacy.extractMetadata, Locate.findLineAndColumn.
  rewrite Hstart, Hread. reflexivity.
Qed.

(** The store after a call whose file cannot be read: the counters of a
    record found there have been incremented. *)
Lemma legacy_unreadable (st : Legacy.State) (component : Node)
    (entry : CatalogEntry) (filePath message : string) (start : Metadata) :
  readFile env filePath = Throw message ->
  Legacy.startRecord cfg thirdPartyDependencies st component entry = Normal start ->
  Legacy.codebaseComponents
    (Legacy.extractMetadata env cfg thirdPartyDependencies st component entry filePath).1
  = match Legacy.codebaseComponents st !! metadataId component entry with
    | Some _ =>
        <[metadataId component entry := countOccurence start filePath]>
          (Legacy.codebaseComponents st)
    | None => Legacy.codebaseComponents st
    end.
Proof.
  intros Hread Hstart. unfold Legacy.extractMetadata, Locate.findLineAndColumn.
  rewrite Hstart, Hread. reflexivity.
Qed.

(** A property of records that new records have and the update of a record
    keeps holds of every stored record after a call. *)
Lemma legacy_step_invariant (P : Metadata -> Prop) (st : Legacy.State) (component : Node)
    (entry : CatalogEntry) (filePath : string) :
  (forall tp, P (newMetadata (designSystemModules cfg) tp component entry)) ->
  (forall m, P m -> P (countOccurence m filePath)) ->
  (forall m loc, P m -> P (setLocation m filePath loc)) ->
  map_Forall (fun _ m => P m) (Legacy.codebaseComponents st) ->
  map_Forall (fun _ m => P m)
    (Legacy.codebaseComponents
       (Legacy.extractMetadata env cfg thirdPartyDependencies st component entry filePath).1).
Proof.
  intros Hnew Hcount Hloc Hst.
  destruct (Legacy.startRecord cfg thirdPartyDependencies st component entry)
    as [start|message] eqn:Hstart.
  - assert (Hp : P start).
    { destruct (start_cases _ _ _ _ Hstart) as [Hm|(_ & tp & ->)].
      - exact (Hst _ _ Hm).
      - apply Hnew. }
    destruct (readFile env filePath) as [content|message] eqn:Hread.
    + rewrite (legacy_readable _ _ _ _ _ _ Hread Hstart). cbn.
      apply map_Forall_insert_2; [|exact Hst]. apply Hloc, Hcount, Hp.
    + rewrite (legacy_unreadable _ _ _ _ _ _ Hread Hstart).
      destruct (Legacy.codebaseComponents st !! metadataId component entry); [|exact Hst].
      apply map_Forall_insert_2; [|exact Hst]. apply Hcount, Hp.
  - rewrite (legacy_throws _ _ _ _ _ Hstart). exact Hst.
Qed.



End Steps.

End LegacyFacts.


Module RunFacts.

Import Aggregator.

Section Steps.
Variable env : Env.
Variable cfg : Config.

Lemma legacy_start_total (thirdPartyDependencies : Legacy.Dependencies) (st : Legacy.State)
    (component : Node) (entry : CatalogEntry) (start : Metadata) :
  Legacy.startRecord cfg thirdPartyDependencies st component entry = Normal start ->
  totalOccurences start = Spec.totalBefore st (metadataId component entry).
Proof.
  intros Hstart. unfold Spec.totalBefore.
  destruct (LegacyFacts.start_cases _ _ _ _ _ _ Hstart) as [Hm|(Hm & tp & ->)];
    rewrite Hm; reflexivity.
Qed.

Lemma legacy_start_count (thirdPartyDependencies : Legacy.Dependencies) (st : Legacy.State)
    (component : Node) (entry : CatalogEntry) (filePath : string) (start : Metadata) :
  Legacy.startRecord cfg thirdPartyDependencies st component entry = Normal start ->
  default 0 (filewiseOccurences start !! filePath)
  = Spec.countBefore st (metadataId component entry) filePath.
Proof.
  intros Hstart. unfold Spec.countBefore.
  destruct (LegacyFacts.start_cases _ _ _ _ _ _ Hstart) as [Hm|(Hm & tp & ->)];
    rewrite Hm; reflexivity.
Qed.

(** With an array of dependencies the update always has a record to start
    from. *)
Lemma legacy_array_start (dependencies : list (string * string)) (st : Legacy.State)
    (component : Node) (entry : CatalogEntry) :
  exists start,
    Legacy.startRecord cfg (Legacy.DependencyArray dependencies) st component entry
    = Normal start.
Proof.
  unfold Legacy.startRecord.
  destruct (Legacy.codebaseComponents st !! metadataId component entry);
    eexists; reflexivity.
Qed.

(** One readable occurrence, in the older copy. *)
Lemma legacy_step (dependencies : list (string * string)) (st : Legacy.State)
    (component : Node) (entry : CatalogEntry) (filePath content : string) :
  readFile env filePath = Normal content ->
  exists m,
    Legacy.codebaseComponents
      (Legacy.extractMetadata env cfg (Legacy.DependencyArray dependencies) st component
         entry filePath).1
      !! metadataId component entry = Some m
    /\ filewiseLocation m !! filePath
       = Some [locationEntry (Locate.locate content (key_offset component)) component]
    /\ totalOccurences m = Spec.totalBefore st (metadataId component entry) + 1
    /\ filewiseOccurences m !! filePath
       = Some (Spec.countBefore st (metadataId component entry) filePath + 1).
Proof.
  intros Hread.
  destruct (legacy_array_start dependencies st component entry) as [start Hstart].
  rewrite (LegacyFacts.legacy_readable _ _ _ _ _ _ _ _ _ Hread Hstart).
  eexists. split; [apply lookup_insert_eq|].
  destruct (AggregatorFacts.update_block start filePath
              (locationEntry (Locate.locate content (key_offset component)) component))
    as (Hloc & Htotal & Hcount).
  rewrite (legacy_start_total _ _ _ _ _ Hstart) in Htotal.
  rewrite (legacy_start_count _ _ _ _ _ _ Hstart) in Hcount. auto.
Qed.

(** Several occurrences of one symbol in one readable file, in the older
    copy with an array of dependencies: the counters grow by their number,
    the location is the last one's. *)
Lemma legacy_occurrences (dependencies : list (string * string)) (kind : string)
    (name : option string) (sub : list Node)
    (entry : CatalogEntry) (filePath content : string) (offsets : list nat) (lastOffset : nat)
    (st : Legacy.State) :
  readFile env filePath = Normal content ->
  let component := mkNode kind name lastOffset sub in
  let key := metadataId component entry in
  exists m,
    Legacy.codebaseComponents
      (Spec.legacyRun env cfg (Legacy.DependencyArray dependencies)
         (Spec.occurrences kind name sub entry filePath (offsets ++ [lastOffset])) st)
      !! key = Some m
    /\ filewiseLocation m !! filePath
       = Some [locationEntry (Locate.locate content lastOffset) component]
    /\ totalOccurences m = Spec.totalBefore st key + length offsets + 1
    /\ filewiseOccurences m !! filePath
       = Some (Spec.countBefore st key filePath + length offsets + 1).
Proof.
  intros Hread component key. revert st.
  induction offsets as [|off offsets IH]; intros st.
  - destruct (legacy_step dependencies st component entry filePath content Hread)
      as (m & Hm & Hloc & Htotal & Hcount).
    exists m. cbn [length]. rewrite !Nat.add_0_r. auto.
  - cbn [app Spec.occurrences map Spec.legacyRun fold_left
         Spec.candidate Spec.resolvedTo Spec.inFile].
    set (st1 := (Legacy.extractMetadata env cfg (Legacy.DependencyArray dependencies) st
                   (mkNode kind name off sub) entry filePath).1).
    destruct (legacy_step dependencies st (mkNode kind name off sub) entry filePath content
                Hread)
      as (m1 & Hm1 & _ & Htotal1 & Hcount1).
    change (metadataId (mkNode kind name off sub) entry) with key in Hm1, Htotal1, Hcount1.
    fold st1 in Hm1.
    destruct (IH st1) as (m & Hm & Hloc & Htotal & Hcount).
    exists m. split; [exact Hm|]. split; [exact Hloc|].
    unfold Spec.totalBefore, Spec.countBefore in Htotal, Hcount.
    rewrite Hm1 in Htotal, Hcount. rewrite Hcount1 in Hcount. cbn [default from_option] in Hcount.
    cbn [length]. split; [lia|]. rewrite Hcount. f_equal. unfold Datatypes.id. lia.
Qed.

(** With the object of [getDebugYaml] in place of the array, no record is
    ever created: a store that is empty stays so, and every call returns
    the empty object of the [catch]. *)
Lemma legacy_object_stores_nothing (dependencies : list (string * string))
    (calls : list Spec.Resolved) (st : Legacy.State) :
  Legacy.codebaseComponents st = ∅ ->
  Legacy.codebaseComponents
    (Spec.legacyRun env cfg (Legacy.DependencyObject dependencies) calls st) = ∅.
Proof.
  revert st. induction calls as [|r calls IH]; intros st Hst; [exact Hst|].
  apply IH.
  rewrite (LegacyFacts.legacy_throws env cfg (Legacy.DependencyObject dependencies) st
             (Spec.candidate r) (Spec.resolvedTo r) (Spec.inFile r) Legacy.notIterable).
  - exact Hst.
  - unfold Legacy.startRecord. rewrite Hst, lookup_empty. reflexivity.
Qed.

Variable thirdPartyDependencies : Legacy.Dependencies.

(** The older copy updates at most one record for a candidate: the one of
    the first satisfying entry, in the order of the dataset. *)
Lemma legacy_first_match_wins (component : Node) (filePath : string) (st : Legacy.State)
    (modules : Dataset) :
  Legacy.visitModules env cfg thirdPartyDependencies component filePath st modules
  = match Spec.firstSatisfying modules component with
    | Some existingComponent =>
        let '(st', metadata) :=
          Legacy.extractMetadata env cfg thirdPartyDependencies st component
            existingComponent filePath in
        Legacy.pushProject metadata st'
    | None => st
    end.
Proof.
  induction modules as [|[moduleName moduleComponents] rest IH]; [reflexivity|].
  cbn [Legacy.visitModules Spec.firstSatisfying].
  destruct (List.find (Legacy.satisfies component) moduleComponents); [reflexivity|exact IH].
Qed.

End Steps.

End RunFacts.

(** ** Defects of [SwiftScanner.js] *)

(** C5 on [SwiftScanner.js]: the occurrences of [run] at offsets 0, 3 and 5
    of one file leave three records with the same id. Each holds the
    location of its own offset and counts one occurrence, in total and for
    the file: no location is replaced by a later one and no counter goes
    beyond 1. *)
Theorem C5_every_occurrence_starts_a_new_count :
  let st :=
    Spec.currentRun Sample.env Sample.cfg
      (Spec.occurrences Sample.callKind (Some "run") [] (Sample.entryIn "Lib" "run()")
         "main.swift" [0; 3; 5])
      Current.initial in
  map (fun m => (id m, filewiseLocation m !! "main.swift",
                 totalOccurences m, filewiseOccurences m !! "main.swift"))
      (Current.codebaseComponents st)
  = [ ("Lib/run/expr.call", Some [mkLocation 1 1 0], 1, Some 1);
      ("Lib/run/expr.call", Some [mkLocation 2 2 3], 1, Some 1);
      ("Lib/run/expr.call", Some [mkLocation 3 1 5], 1, Some 1) ].
Proof. vm_compute. reflexivity. Qed.

(** In [SwiftScanner.js] this is so for every run: whatever the calls and
    the files, no stored record counts more than one occurrence. *)
Lemma current_records_count_one (env : Env) (cfg : Config) (calls : list Spec.Resolved) :
  Forall (fun m => totalOccurences m = 1)
    (Current.codebaseComponents (Spec.currentRun env cfg calls Current.initial)).
Proof.
  assert (H : forall st,
             Forall (fun m => totalOccurences m = 1) (Current.codebaseComponents st) ->
             Forall (fun m => totalOccurences m = 1)
               (Current.codebaseComponents (Spec.currentRun env cfg calls st))).
  { induction calls as [|r calls IH]; intros st Hst; [exact Hst|].
    apply IH.
    destruct (readFile env (Spec.inFile r)) as [content|message] eqn:Hread.
    - rewrite (CurrentFacts.current_readable _ _ _ _ _ _ _ Hread). cbn.
      apply Forall_app. split; [exact Hst|]. constructor; [reflexivity|constructor].
    - rewrite (CurrentFacts.current_unreadable _ _ _ _ _ _ _ Hread). exact Hst. }
  apply H. constructor.
Qed.

(** The older copy, on the same occurrences and with the array of
    dependencies the constructor gives: one record, which holds the location
    of the last offset only and counts the three occurrences. *)
Lemma legacy_counts_every_occurrence :
  exists m,
    Legacy.codebaseComponents
      (Spec.legacyRun Sample.env Sample.cfg (Legacy.DependencyArray [])
         (Spec.occurrences Sample.callKind (Some "run") [] (Sample.entryIn "Lib" "run()")
            "main.swift" [0; 3; 5])
         Legacy.initial)
      !! "Lib/run/expr.call" = Some m
    /\ filewiseLocation m !! "main.swift" = Some [mkLocation 3 1 5]
    /\ totalOccurences m = 3
    /\ filewiseOccurences m !! "main.swift" = Some 3.
Proof.
  exact (RunFacts.legacy_occurrences Sample.env Sample.cfg [] Sample.callKind (Some "run") []
           (Sample.entryIn "Lib" "run()") "main.swift" Sample.content [0; 3] 5
           Legacy.initial eq_refl).
Qed.

(** The older copy once [getDebugYaml] has put an object in the place of
    that array: the same occurrences leave the store empty, each call
    ending in the [catch] of [extractMetadata]. *)
Lemma legacy_with_object_dependencies_records_nothing :
  let st :=
    Spec.legacyRun Sample.env Sample.cfg (Legacy.DependencyObject [])
      (Spec.occurrences Sample.callKind (Some "run") [] (Sample.entryIn "Lib" "run()")
         "main.swift" [0; 3; 5])
      Legacy.initial in
  Legacy.codebaseComponents st = ∅
  /\ Legacy.console st
     = [ "Error extracting metadata: this.thirdPartyDependencies is not iterable";
         "Error extracting metadata: this.thirdPartyDependencies is not iterable";
         "Error extracting metadata: this.thirdPartyDependencies is not iterable" ].
Proof.
  split.
  - apply RunFacts.legacy_object_stores_nothing. reflexivity.
  - vm_compute. reflexivity.
Qed.

(** C1 on [SwiftScanner.js]: scanning a file that calls [run] twice pushes
    two records with the same id, each counting one occurrence; scanning it
    again pushes two more. *)
Theorem C1_scans_push_duplicate_ids :
  let filePath := "/proj/Sources/App/main.swift" in
  let first := Walker.extractComponentsFromFile Sample.env Sample.cfg Current.initial filePath in
  let second := Walker.extractComponentsFromFile Sample.env Sample.cfg first filePath in
  map (fun m => (id m, totalOccurences m)) (Current.codebaseComponents first)
  = [("Lib/run/expr.call", 1); ("Lib/run/expr.call", 1)]
  /\ map (fun m => (id m, totalOccurences m)) (Current.codebaseComponents second)
     = [("Lib/run/expr.call", 1); ("Lib/run/expr.call", 1);
        ("Lib/run/expr.call", 1); ("Lib/run/expr.call", 1)].
Proof. split; vm_compute; reflexivity. Qed.

(** C2 on [SwiftScanner.js]: with two modules that both list [run()], one
    candidate is resolved once per module and two records are pushed. *)
Theorem C2_one_candidate_matches_in_every_module :
  let st :=
    Current.processComponents Sample.env Sample.cfgTwoModules Current.initial
      [Sample.call "run" 3] "/proj/Sources/App/main.swift" in
  map id (Current.codebaseComponents st) = ["LibA/run/expr.call"; "LibB/run/expr.call"]
  /\ length (Current.projectComponents st) = 2.
Proof. split; vm_compute; reflexivity. Qed.

(** The older copy, on the same input, resolves the candidate to the first
    module only. *)
Lemma legacy_resolves_to_first_module :
  let st :=
    Legacy.processComponents Sample.env Sample.cfgTwoModules (Legacy.DependencyArray [])
      Legacy.initial [Sample.call "run" 3] "/proj/Sources/App/main.swift" in
  map fst (map_to_list (Legacy.codebaseComponents st)) = ["LibA/run/expr.call"]
  /\ Legacy.projectComponents st = [Some "LibA/run/expr.call"].
Proof. split; vm_compute; reflexivity. Qed.

(** ** File walker *)

Module WalkerFacts.

(** Induction on what the file system holds, with the hypothesis for every
    entry of a directory. *)
Lemma FsEntry_forall_ind (P : FsEntry -> Prop) :
  (forall message, P (FsMissing message)) ->
  P FsFile ->
  (forall message, P (FsUnreadable message)) ->
  (forall files, Forall (fun fe => P (snd fe)) files -> P (FsDirectory files)) ->
  forall entry, P entry.
Proof.
  intros Hmissing Hfile Hunreadable Hdirectory.
  fix IH 1.
  intros [message| |message|files];
    [apply Hmissing | apply Hfile | apply Hunreadable | apply Hdirectory].
  induction files as [|[file child] files IHfiles]; constructor.
  - apply IH.
  - exact IHfiles.
Qed.

Lemma same_refl (st : Current.State) : Spec.sameRecords st st.
Proof. split; reflexivity. Qed.

Lemma same_log (lines lines' : list string) (st st' : Current.State) :
  Spec.sameRecords st st' -> Spec.sameRecords (Current.log lines st) (Current.log lines' st').
Proof. intros H. exact H. Qed.

Lemma same_log_l (lines : list string) (st : Current.State) :
  Spec.sameRecords (Current.log lines st) st.
Proof. split; reflexivity. Qed.

Lemma fold_left_same {A : Type} (f : Current.State -> A -> Current.State) (l : list A) :
  (forall st st' a, Spec.sameRecords st st' -> Spec.sameRecords (f st a) (f st' a)) ->
  forall st st', Spec.sameRecords st st' ->
    Spec.sameRecords (fold_left f l st) (fold_left f l st').
Proof.
  intros Hf. induction l as [|a l IH]; intros st st' H; [exact H|].
  apply IH, Hf, H.
Qed.

Section Steps.
Variable env : Env.
Variable cfg : Config.

Lemma extractMetadata_same (st st' : Current.State) (component : Node)
    (entry : CatalogEntry) (filePath : string) :
  Spec.sameRecords st st' ->
  Spec.sameRecords (Current.extractMetadata env cfg st component entry filePath).1
                   (Current.extractMetadata env cfg st' component entry filePath).1
  /\ (Current.extractMetadata env cfg st component entry filePath).2
     = (Current.extractMetadata env cfg st' component entry filePath).2.
Proof.
  intros [Hc Hp]. unfold Current.extractMetadata. rewrite Hc.
  destruct (Locate.findLineAndColumn (readFile env) filePath (key_offset component))
    as [lines [lc|]]; (split; [split|]); cbn; auto.
Qed.

Lemma visitModule_same (component : Node) (componentName filePath : string)
    (moduleComponents : list Current.Processed) (st st' : Current.State) :
  Spec.sameRecords st st' ->
  Spec.sameRecords
    (Current.visitModule env cfg component componentName filePath st moduleComponents)
    (Current.visitModule env cfg component componentName filePath st' moduleComponents).
Proof.
  intros H. unfold Current.visitModule.
  destruct (List.find _ moduleComponents) as [p|]; [|exact H].
  destruct (extractMetadata_same st st' component (Current.fullComponent p) filePath H)
    as [[Hc Hp] Hr].
  destruct (Current.extractMetadata env cfg st component (Current.fullComponent p) filePath)
    as [st1 r1].
  destruct (Current.extractMetadata env cfg st' component (Current.fullComponent p) filePath)
    as [st1' r1'].
  cbn in *. subst r1'. split; cbn; congruence.
Qed.

Lemma processComponents_same (components : list Node) (filePath : string)
    (st st' : Current.State) :
  Spec.sameRecords st st' ->
  Spec.sameRecords (Current.processComponents env cfg st components filePath)
                   (Current.processComponents env cfg st' components filePath).
Proof.
  unfold Current.processComponents. apply fold_left_same.
  intros st1 st1' component H. unfold Current.visitComponent.
  destruct (Current.componentNameOf component) as [componentName|]; [|exact H].
  revert st1 st1' H. apply fold_left_same.
  intros st2 st2' [moduleName moduleComponents] H. apply visitModule_same, H.
Qed.

Lemma extractComponentsFromFile_same (filePath : string) (st st' : Current.State) :
  Spec.sameRecords st st' ->
  Spec.sameRecords (Walker.extractComponentsFromFile env cfg st filePath)
                   (Walker.extractComponentsFromFile env cfg st' filePath).
Proof.
  intros H. unfold Walker.extractComponentsFromFile, Walker.extractComponents.
  destruct (readFile env filePath); [|apply same_log, same_log, H].
  destruct (Oracle.getStructureFromFile env filePath).
  - apply processComponents_same, same_log, same_log, H.
  - apply same_log, same_log, same_log, H.
Qed.

Lemma scanFilesRecursively_same (entry : FsEntry) (filePath : string)
    (excludedFolders : list string) (st st' : Current.State) :
  Spec.sameRecords st st' ->
  Spec.sameRecords (Walker.scanFilesRecursively env cfg entry filePath excludedFolders st)
                   (Walker.scanFilesRecursively env cfg entry filePath excludedFolders st').
Proof.
  revert filePath st st'.
  induction entry as [message| |message|files IH] using FsEntry_forall_ind;
    intros filePath st st' H; cbn [Walker.scanFilesRecursively].
  - apply same_log, H.
  - destruct (Js.endsWith filePath ".swift"); [|exact H].
    apply extractComponentsFromFile_same, H.
  - destruct (Walker.validPath cfg filePath); apply same_log, H.
  - destruct (Walker.validPath cfg filePath); [|apply same_log, H].
    revert st st' H. induction IH as [|[file child] files Hchild _ IHfiles];
      intros st st' H; [exact H|].
    destruct (existsb (Js.streq file) excludedFolders).
    + apply IHfiles, H.
    + apply IHfiles, Hchild, H.
Qed.

Lemma scanAll_same (roots : list (string * FsEntry)) (excludedFolders : list string)
    (st st' : Current.State) :
  Spec.sameRecords st st' ->
  Spec.sameRecords (Walker.scanAll env cfg roots excludedFolders st)
                   (Walker.scanAll env cfg roots excludedFolders st').
Proof.
  unfold Walker.scanAll. apply fold_left_same.
  intros st1 st1' [filePath entry] H. apply scanFilesRecursively_same, H.
Qed.

Lemma rejected (entry : FsEntry) (directoryPath : string) (excludedFolders : list string)
    (st : Current.State) :
  Spec.isDirectory entry ->
  Walker.validPath cfg directoryPath = false ->
  Walker.scanFilesRecursively env cfg entry directoryPath excludedFolders st
  = Current.log (Walker.guidance cfg) st.
Proof.
  intros Hdir Hvalid. destruct entry as [message| |message|files]; try contradiction;
    cbn [Walker.scanFilesRecursively]; rewrite Hvalid; reflexivity.
Qed.

End Steps.

End WalkerFacts.

(** What a rejection does: a directory for which [validPath] is false is
    not scanned. The walker writes the guidance (the header and one line per
    module path) to the console and leaves the records as they were, and
    the other paths of the invocation, before and after it, yield the
    records they yield without it. With an empty module list this holds for
    every directory. *)
Lemma rejected_directory_changes_no_record (env : Env) (cfg : Config)
    (excludedFolders : list string) :
  (forall entry directoryPath st,
     Spec.isDirectory entry ->
     Walker.validPath cfg directoryPath = false ->
     let rejected := Walker.scanFilesRecursively env cfg entry directoryPath excludedFolders st in
     Current.console rejected
     = Current.console st
         ++ ["Directory path does not include any module path. Please provide a valid scan path.";
             "Available module paths:"]
         ++ map (fun md => " - " +:+ module_path md) (projectModulesList cfg)
     /\ Current.codebaseComponents rejected = Current.codebaseComponents st
     /\ Current.projectComponents rejected = Current.projectComponents st
     /\ forall before after,
          Spec.sameRecords
            (Walker.scanAll env cfg (before ++ (directoryPath, entry) :: after) excludedFolders st)
            (Walker.scanAll env cfg (before ++ after) excludedFolders st))
  /\ (projectModulesList cfg = [] ->
      forall entry directoryPath st,
        Spec.isDirectory entry ->
        Walker.scanFilesRecursively env cfg entry directoryPath excludedFolders st
        = Current.log
            ["Directory path does not include any module path. Please provide a valid scan path.";
             "Available module paths:"] st).
Proof.
  split.
  - intros entry directoryPath st Hdir Hvalid rejected.
    assert (Hrej : forall st0,
               Walker.scanFilesRecursively env cfg entry directoryPath excludedFolders st0
               = Current.log (Walker.guidance cfg) st0)
      by (intros st0; apply WalkerFacts.rejected; assumption).
    subst rejected. rewrite Hrej.
    split; [reflexivity|]. split; [reflexivity|]. split; [reflexivity|].
    intros before after. unfold Walker.scanAll.
    rewrite !fold_left_app. cbn [fold_left]. rewrite Hrej.
    apply (WalkerFacts.scanAll_same env cfg after), WalkerFacts.same_log_l.
  - intros Hempty entry directoryPath st Hdir.
    rewrite (WalkerFacts.rejected env cfg entry directoryPath excludedFolders st Hdir).
    + unfold Walker.guidance. rewrite Hempty. reflexivity.
    + unfold Walker.validPath. rewrite Hempty. reflexivity.
Qed.

(** C8 on [SwiftScanner.js]. The directory [/proj/Sources/Ap] neither lies
    under nor contains the module path [/proj/Sources/App], yet [validPath]
    accepts it, its Swift file is scanned and two records are pushed, with
    no guidance on the console. And the module's own directory, passed after
    a rejected one, is not scanned to completion: its subdirectory [Views],
    which lies under the module path, is rejected with the guidance and the
    Swift file in it is never read. *)
Theorem C8_validPath_is_a_text_search_in_the_module_paths :
  let beside := Walker.scanAll Sample.env Sample.cfg [Sample.besideRoot] [] Current.initial in
  let nested :=
    Walker.scanAll Sample.env Sample.cfg [Sample.outsideRoot; Sample.nestedRoot] []
      Current.initial in
  (Spec.outsideModules Sample.cfg "/proj/Sources/Ap"
   /\ Walker.validPath Sample.cfg "/proj/Sources/Ap" = true
   /\ map id (Current.codebaseComponents beside) = ["Lib/run/expr.call"; "Lib/run/expr.call"]
   /\ length (Current.projectComponents beside) = 2
   /\ Current.console beside = ["scanning file: /proj/Sources/Ap/x.swift"])
  /\ (Spec.pathWithin "/proj/Sources/App/Views" "/proj/Sources/App" = true
      /\ Walker.validPath Sample.cfg "/proj/Sources/App/Views" = false
      /\ Current.codebaseComponents nested = []
      /\ Current.console nested
         = ["Directory path does not include any module path. Please provide a valid scan path.";
            "Available module paths:";
            " - /proj/Sources/App";
            "Directory path does not include any module path. Please provide a valid scan path.";
            "Available module paths:";
            " - /proj/Sources/App"]).
Proof.
  split.
  - split.
    + intros md Hmd. apply elem_of_cons in Hmd as [->|Hmd]; [|inversion Hmd].
      split; vm_compute; reflexivity.
    + repeat split; vm_compute; reflexivity.
  - repeat split; vm_compute; reflexivity.
Qed.

(** The module's own directory, passed after the rejected one, is scanned:
    its Swift file yields its two records. *)
Lemma sibling_of_rejected_root_is_scanned :
  let st :=
    Walker.scanAll Sample.env Sample.cfg [Sample.outsideRoot; Sample.appRoot] []
      Current.initial in
  map id (Current.codebaseComponents st) = ["Lib/run/expr.call"; "Lib/run/expr.call"]
  /\ Current.console st
     = ["Directory path does not include any module path. Please provide a valid scan path.";
        "Available module paths:";
        " - /proj/Sources/App";
        "scanning file: /proj/Sources/App/main.swift"].
Proof. split; vm_compute; reflexivity. Qed.

(** * Further properties of the code *)

(** ** Locations *)

Module LocateFacts.

Import LocateSpec.

Lemma app_assoc_string (a b c : string) : (a +:+ b) +:+ c = a +:+ (b +:+ c).
Proof.
  induction a as [|x a IH]; [reflexivity|].
  rewrite !ManifestFacts.app_String, IH. reflexivity.
Qed.

Lemma charAt_app_r (pre s : string) (j : nat) :
  Js.charAt (pre +:+ s) (String.length pre + j) = Js.charAt s j.
Proof.
  unfold Js.charAt. induction pre as [|x pre IH]; [reflexivity|].
  rewrite ManifestFacts.app_String. cbn [String.length Nat.add String.get]. exact IH.
Qed.

Lemma charAt_app_here (pre : string) (c : ascii) (s : string) :
  Js.charAt (pre +:+ String c s) (String.length pre) = Some c.
Proof.
  rewrite <- (Nat.add_0_r (String.length pre)), charAt_app_r. reflexivity.
Qed.

Lemma lineStartOf_le (content : string) (n : nat) : Locate.lineStartOf content n <= n.
Proof.
  induction n as [|n IH]; [reflexivity|].
  cbn [Locate.lineStartOf].
  destruct (Js.charAt content n) as [c|]; [destruct (Ascii.eqb c Js.newline)|]; lia.
Qed.

Lemma lineOf_bounds (content : string) (n : nat) :
  1 <= Locate.lineOf content n <= 1 + n.
Proof.
  unfold Locate.lineOf.
  assert (H : forall l acc,
             acc <= fold_left
                      (fun line i =>
                         match Js.charAt content i with
                         | Some c => if Ascii.eqb c Js.newline then S line else line
                         | None => line
                         end) l acc <= acc + length l).
  { induction l as [|i l IH]; intros acc; cbn [fold_left length]; [lia|].
    destruct (Js.charAt content i) as [c|]; [destruct (Ascii.eqb c Js.newline)|];
      match goal with |- _ <= fold_left _ _ ?a <= _ => specialize (IH a) end; lia. }
  specialize (H (seq 0 n) 1). rewrite length_seq in H. lia.
Qed.

(** The start of the line: walking back over [k] characters that are not
    line feeds stops where [before] ends. *)
Lemma lineStartOf_after (before rest : string) (k : nat) :
  endsLine before ->
  noNewlineBelow rest k ->
  Locate.lineStartOf (before +:+ rest) (String.length before + k) = String.length before.
Proof.
  intros Hends Hno. induction k as [|k IH].
  - rewrite Nat.add_0_r. destruct Hends as [->|[b ->]]; [reflexivity|].
    rewrite ManifestFacts.length_app. cbn [String.length].
    replace (String.length b + 1) with (S (String.length b)) by lia.
    cbn [Locate.lineStartOf]. rewrite app_assoc_string.
    rewrite ManifestFacts.app_String, ManifestFacts.app_empty, charAt_app_here.
    rewrite Ascii.eqb_refl. reflexivity.
  - replace (String.length before + S k) with (S (String.length before + k)) by lia.
    cbn [Locate.lineStartOf]. rewrite charAt_app_r.
    assert (Hk : Js.charAt rest k <> Some Js.newline) by (apply Hno; lia).
    assert (IH' : Locate.lineStartOf (before +:+ rest) (String.length before + k)
                  = String.length before)
      by (apply IH; intros j Hj; apply Hno; lia).
    destruct (Js.charAt rest k) as [c|]; [|exact IH'].
    destruct (Ascii.eqb c Js.newline) eqn:Hc; [|exact IH'].
    apply Ascii.eqb_eq in Hc. subst c. contradiction.
Qed.

(** Counting the line feeds below an index that ends [s]. *)
Lemma count_fold (pre s rest : string) (acc : nat) :
  fold_left
    (fun line i =>
       match Js.charAt (pre +:+ s +:+ rest) i with
       | Some c => if Ascii.eqb c Js.newline then S line else line
       | None => line
       end)
    (seq (String.length pre) (String.length s)) acc
  = acc + countNewlines s.
Proof.
  revert pre acc. induction s as [|c s IH]; intros pre acc.
  - cbn. lia.
  - cbn [String.length seq fold_left countNewlines].
    rewrite ManifestFacts.app_String, charAt_app_here.
    assert (E : pre +:+ String c (s +:+ rest) = (pre +:+ String c "") +:+ s +:+ rest).
    { rewrite app_assoc_string. reflexivity. }
    rewrite E.
    replace (S (String.length pre)) with (String.length (pre +:+ String c ""))
      by (rewrite ManifestFacts.length_app; cbn; lia).
    rewrite IH. destruct (Ascii.eqb c Js.newline); lia.
Qed.

Lemma lineOf_before (before rest : string) :
  Locate.lineOf (before +:+ rest) (String.length before) = 1 + countNewlines before.
Proof.
  unfold Locate.lineOf.
  exact (count_fold "" before rest 1).
Qed.

End LocateFacts.

(** X1: when the content is [before] followed by [rest], [before] ends where
    a line starts and the first [k] characters of [rest] hold no line feed,
    the offset [length before + k] is located on line 1 + (line feeds of
    [before]), column [k + 1]; also when the offset lies past the end of the
    content. *)
Theorem X1_location_of_offset (fileName before rest : string) (k : nat) :
  LocateSpec.endsLine before ->
  LocateSpec.noNewlineBelow rest k ->
  Locate.findLineAndColumn (fun _ => Normal (before +:+ rest)) fileName
    (String.length before + k)
  = ([], Some (1 + LocateSpec.countNewlines before, k + 1)).
Proof.
  intros Hends Hno. unfold Locate.findLineAndColumn, Locate.locate.
  rewrite (LocateFacts.lineStartOf_after before rest k Hends Hno).
  rewrite LocateFacts.lineOf_before. do 3 f_equal. lia.
Qed.

Lemma X1_location_witness :
  Locate.findLineAndColumn (fun _ => Normal Sample.content) "a.swift" 7 = ([], Some (3, 3)).
Proof.
  apply (X1_location_of_offset "a.swift"
           (String "a" (String Js.newline (String "b" (String "b" (String Js.newline "")))))
           "ccc" 2).
  - right. exists (String "a" (String Js.newline (String "b" (String "b" ""))))%string.
    reflexivity.
  - intros j Hj. destruct j as [|[|j]]; [discriminate|discriminate|lia].
Defined.

(** X2: for every content and offset, also past the end, the location has
    line and column at least 1, and (line - 1) + (column - 1) is at most the
    offset. *)
Theorem X2_location_bounds (content : string) (offset : nat) :
  let '(line, column) := Locate.locate content offset in
  1 <= line /\ 1 <= column /\ line + column <= offset + 2.
Proof.
  unfold Locate.locate.
  pose proof (LocateFacts.lineStartOf_le content offset).
  pose proof (LocateFacts.lineOf_bounds content (Locate.lineStartOf content offset)).
  lia.
Qed.

(** ** Metadata ids *)

Module IdFacts.

Import RecordSpec.

Lemma substring_all (t : string) : String.substring 0 (String.length t) t = t.
Proof. induction t as [|c t IH]; cbn; [reflexivity | rewrite IH; reflexivity]. Qed.

Lemma substring_skip (p t : string) (m : nat) :
  String.substring (String.length p) m (p +:+ t) = String.substring 0 m t.
Proof.
  induction p as [|c p IH]; [reflexivity|].
  rewrite ManifestFacts.app_String. cbn [String.length String.substring]. exact IH.
Qed.

(** Replacing a prefix by the empty text removes it. *)
Lemma replace_prefix (p t : string) : Js.replace (p +:+ t) p "" = t.
Proof.
  assert (H : Js.replace (p +:+ t) p ""
              = "" +:+ String.substring (String.length p)
                         (String.length (p +:+ t) - String.length p) (p +:+ t)).
  { destruct (p +:+ t) eqn:E; cbn [Js.replace]; rewrite <- E at 1;
      rewrite JsFacts.startsWith_app; rewrite ?E; reflexivity. }
  rewrite H, ManifestFacts.app_empty, ManifestFacts.length_app.
  replace (String.length p + String.length t - String.length p) with (String.length t) by lia.
  rewrite substring_skip. apply substring_all.
Qed.

Lemma startsWith_trans (s p q : string) :
  Js.startsWith s (p +:+ q) = true -> Js.startsWith s p = true.
Proof.
  intros H. apply JsFacts.startsWith_inv in H as [t ->].
  rewrite LocateFacts.app_assoc_string. apply JsFacts.startsWith_app.
Qed.

Lemma retained_kind (component : Node) :
  Structure.isSwiftComponent component = true ->
  key_kind component = "source.lang.swift." +:+ Aggregator.componentType component.
Proof.
  unfold Structure.isSwiftComponent. rewrite !orb_true_iff.
  intros H.
  assert (Hp : Js.startsWith (key_kind component) "source.lang.swift." = true).
  { destruct H as [[H|H]|H].
    - exact (startsWith_trans _ "source.lang.swift." "decl" H).
    - exact (startsWith_trans _ "source.lang.swift." "expr" H).
    - exact (startsWith_trans _ "source.lang.swift." "structure" H). }
  apply JsFacts.startsWith_inv in Hp as [t Ht].
  unfold Aggregator.componentType. rewrite Ht, replace_prefix. reflexivity.
Qed.

(** Splitting at the first and at the last slash. *)
Lemma split_first (a a' r r' : string) :
  without Js.slash a = true -> without Js.slash a' = true ->
  a +:+ String Js.slash r = a' +:+ String Js.slash r' -> a = a' /\ r = r'.
Proof.
  revert a'. induction a as [|c a IH]; intros a' Ha Ha' E.
  - destruct a' as [|c' a'].
    + rewrite !ManifestFacts.app_empty in E. injection E as ->. auto.
    + rewrite ManifestFacts.app_empty, ManifestFacts.app_String in E.
      injection E as <- _. cbn in Ha'. try rewrite Ascii.eqb_refl in Ha'. discriminate.
  - destruct a' as [|c' a'].
    + rewrite ManifestFacts.app_empty, ManifestFacts.app_String in E.
      injection E as -> _. cbn in Ha. try rewrite Ascii.eqb_refl in Ha. discriminate.
    + rewrite !ManifestFacts.app_String in E. injection E as -> E.
      cbn in Ha, Ha'. apply andb_true_iff in Ha as [_ Ha]. apply andb_true_iff in Ha' as [_ Ha'].
      destruct (IH a' Ha Ha' E) as [-> ->]. auto.
Qed.

Lemma without_app_slash (n t : string) : without Js.slash (n +:+ String Js.slash t) = false.
Proof.
  induction n as [|c n IH].
  - rewrite ManifestFacts.app_empty. reflexivity.
  - rewrite ManifestFacts.app_String. cbn [without]. rewrite IH. apply andb_false_r.
Qed.

Lemma split_last (n n' t t' : string) :
  without Js.slash t = true -> without Js.slash t' = true ->
  n +:+ String Js.slash t = n' +:+ String Js.slash t' -> n = n' /\ t = t'.
Proof.
  revert n'. induction n as [|c n IH]; intros n' Ht Ht' E.
  - destruct n' as [|c' n'].
    + rewrite !ManifestFacts.app_empty in E. injection E as ->. auto.
    + rewrite ManifestFacts.app_empty, ManifestFacts.app_String in E.
      injection E as _ E. rewrite E, without_app_slash in Ht. discriminate.
  - destruct n' as [|c' n'].
    + rewrite ManifestFacts.app_empty, ManifestFacts.app_String in E.
      injection E as _ E. rewrite <- E, without_app_slash in Ht'. discriminate.
    + rewrite !ManifestFacts.app_String in E. injection E as -> E.
      destruct (IH n' Ht Ht' E) as [-> ->]. auto.
Qed.

End IdFacts.

(** X3: every candidate the structural extractor returns has a kind that
    starts with [source.lang.swift.], and the type that enters its metadata
    id is the kind without that prefix. *)
Theorem X3_candidate_type_is_kind_without_prefix (root component : Node) :
  component ∈ Structure.extractComponentsFromStructure root ->
  key_kind component = "source.lang.swift." +:+ Aggregator.componentType component.
Proof.
  intros Hin. apply IdFacts.retained_kind.
  rewrite StructureFacts.extract_is_filtered_walk in Hin.
  unfold Structure.flattenSpec in Hin.
  apply list_elem_of_In, List.filter_In in Hin. apply Hin.
Qed.

Lemma X3_candidate_type_witness :
  key_kind (Sample.call "run" 3)
  = "source.lang.swift." +:+ Aggregator.componentType (Sample.call "run" 3).
Proof.
  apply (X3_candidate_type_is_kind_without_prefix Sample.tree).
  apply list_elem_of_In. vm_compute. right. right. left. reflexivity.
Defined.

(** X4: two resolved matches get the same metadata id only when the module
    name, the candidate's name and the type agree, provided the module names
    and the types hold no slash and the candidates have a name. *)
Theorem X4_metadata_id_injective (component component' : Node)
    (entry entry' : CatalogEntry) (n n' : string) :
  key_name component = Some n ->
  key_name component' = Some n' ->
  RecordSpec.without Js.slash (entry_moduleName entry) = true ->
  RecordSpec.without Js.slash (entry_moduleName entry') = true ->
  RecordSpec.without Js.slash (Aggregator.componentType component) = true ->
  RecordSpec.without Js.slash (Aggregator.componentType component') = true ->
  Aggregator.metadataId component entry = Aggregator.metadataId component' entry' ->
  entry_moduleName entry = entry_moduleName entry'
  /\ n = n'
  /\ Aggregator.componentType component = Aggregator.componentType component'.
Proof.
  intros Hn Hn' Hm Hm' Ht Ht'. unfold Aggregator.metadataId, Aggregator.nameText.
  rewrite Hn, Hn'. intros E.
  change ("/" +:+ n +:+ "/" +:+ Aggregator.componentType component)
    with (String Js.slash (n +:+ String Js.slash (Aggregator.componentType component))) in E.
  change ("/" +:+ n' +:+ "/" +:+ Aggregator.componentType component')
    with (String Js.slash (n' +:+ String Js.slash (Aggregator.componentType component'))) in E.
  destruct (IdFacts.split_first _ _ _ _ Hm Hm' E) as [Emod Erest].
  destruct (IdFacts.split_last _ _ _ _ Ht Ht' Erest) as [En Etype].
  auto.
Qed.

Lemma X4_metadata_id_witness :
  entry_moduleName (Sample.entryIn "Lib" "run()") = entry_moduleName (Sample.entryIn "Lib" "run(x:)")
  /\ "run" = "run"
  /\ Aggregator.componentType (Sample.call "run" 3) = Aggregator.componentType (Sample.call "run" 5).
Proof.
  apply (X4_metadata_id_injective (Sample.call "run" 3) (Sample.call "run" 5)
           (Sample.entryIn "Lib" "run()") (Sample.entryIn "Lib" "run(x:)") "run" "run");
    reflexivity.
Defined.

(** ** The two copies of the matcher *)

Module MatchCountFacts.

Lemma find_existsb {A : Type} (f : A -> bool) (l : list A) :
  match List.find f l with Some _ => true | None => false end = existsb f l.
Proof.
  induction l as [|a l IH]; [reflexivity|].
  cbn [List.find existsb]. destruct (f a); [reflexivity|exact IH].
Qed.

Section Steps.
Variable env : Env.
Variable cfg : Config.
Variable thirdPartyDependencies : Legacy.Dependencies.

Lemma current_extract_project (st : Current.State) (component : Node)
    (entry : CatalogEntry) (filePath : string) :
  Current.projectComponents (Current.extractMetadata env cfg st component entry filePath).1
  = Current.projectComponents st.
Proof.
  unfold Current.extractMetadata.
  destruct (Locate.findLineAndColumn (readFile env) filePath (key_offset component))
    as [lines [lc|]]; reflexivity.
Qed.

Lemma current_visitModule_length (component : Node) (componentName filePath : string)
    (st : Current.State) (moduleComponents : list Current.Processed) :
  length (Current.projectComponents
            (Current.visitModule env cfg component componentName filePath st moduleComponents))
  = length (Current.projectComponents st)
    + (if existsb (Current.satisfies componentName (key_kind component)) moduleComponents
       then 1 else 0).
Proof.
  unfold Current.visitModule. rewrite <- find_existsb.
  destruct (List.find _ moduleComponents) as [p|]; [|lia].
  pose proof (current_extract_project st component (Current.fullComponent p) filePath) as H.
  destruct (Current.extractMetadata env cfg st component (Current.fullComponent p) filePath)
    as [st' r].
  cbn in *. rewrite length_app, H. reflexivity.
Qed.

Lemma current_visitComponent_length (filePath : string) (st : Current.State)
    (component : Node) :
  length (Current.projectComponents (Current.visitComponent env cfg filePath st component))
  = length (Current.projectComponents st)
    + length (RecordSpec.modulesMatching cfg component).
Proof.
  unfold Current.visitComponent, RecordSpec.modulesMatching.
  destruct (Current.componentNameOf component) as [componentName|]; [|cbn; lia].
  rewrite length_map. revert st.
  induction (Current.moduleComponentsMap cfg) as [|[moduleName moduleComponents] l IH];
    intros st; [cbn; lia|].
  cbn [fold_left List.filter]. rewrite IH, current_visitModule_length.
  destruct (existsb _ moduleComponents); cbn [length]; lia.
Qed.

Lemma legacy_extract_project (st : Legacy.State) (component : Node)
    (entry : CatalogEntry) (filePath : string) :
  Legacy.projectComponents
    (Legacy.extractMetadata env cfg thirdPartyDependencies st component entry filePath).1
  = Legacy.projectComponents st.
Proof.
  unfold Legacy.extractMetadata.
  destruct (Legacy.startRecord cfg thirdPartyDependencies st component entry);
    [|reflexivity].
  destruct (Locate.findLineAndColumn (readFile env) filePath (key_offset component))
    as [lines [lc|]]; reflexivity.
Qed.

Lemma legacy_visitModules_length (component : Node) (filePath : string) (st : Legacy.State) :
  length (Legacy.projectComponents
            (Legacy.visitModules env cfg thirdPartyDependencies component filePath st
               (componentsDataset cfg)))
  = length (Legacy.projectComponents st)
    + (match Spec.firstSatisfying (componentsDataset cfg) component with
       | Some _ => 1
       | None => 0
       end).
Proof.
  rewrite RunFacts.legacy_first_match_wins.
  destruct (Spec.firstSatisfying (componentsDataset cfg) component) as [e|]; [|lia].
  pose proof (legacy_extract_project st component e filePath) as H.
  destruct (Legacy.extractMetadata env cfg thirdPartyDependencies st component e filePath)
    as [st' r].
  cbn in *. rewrite length_app, H. reflexivity.
Qed.

End Steps.

End MatchCountFacts.

(** X5: for a candidate that [SwiftScanner.js] does not skip (its trimmed
    base name is not empty), the test of the older copy and the test of
    [SwiftScanner.js] decide alike on every catalog entry. *)
Theorem X5_both_copies_apply_the_same_rule (component : Node) (entry : CatalogEntry)
    (componentName : string) :
  Current.componentNameOf component = Some componentName ->
  Legacy.satisfies component entry = Current.declaresMatch entry component.
Proof.
  intros Hc. unfold Current.declaresMatch. rewrite Hc.
  apply MatcherFacts.componentNameOf_Some in Hc as (n & Hn & Hb & Hne).
  pose proof (MatcherFacts.baseName_nonempty n) as Hnn. rewrite Hb in Hnn.
  specialize (Hnn Hne). apply JsFacts.truthy_true in Hnn.
  unfold Legacy.satisfies, Legacy.nameTruthy, Aggregator.nameText, Current.preprocess.
  rewrite Hn, Hnn, Hb. cbn [flat_map].
  destruct (Js.truthy (entry_name entry)); [|reflexivity].
  cbn [app existsb andb]. unfold Current.satisfies.
  cbn [Current.baseName Current.isFunc Current.kind].
  destruct (Js.streq (Current.baseNameOf (entry_name entry)) componentName),
    (Js.includes (entry_kind entry) "function"),
    (Js.includes (key_kind component) "expr"),
    (Js.streq (entry_kind entry) (key_kind component)); reflexivity.
Qed.

Lemma X5_same_rule_witness :
  Legacy.satisfies (Sample.call "run" 3) (Sample.entryIn "Lib" "run()")
  = Current.declaresMatch (Sample.entryIn "Lib" "run()") (Sample.call "run" 3).
Proof.
  apply (X5_both_copies_apply_the_same_rule _ _ "run"). reflexivity.
Defined.

(** Where the two copies differ: a candidate whose base name is empty. *)
Lemma copies_differ_on_empty_base_name :
  Legacy.satisfies (mkNode Sample.functionKind (Some "(y)") 0 []) (Sample.entryIn "Lib" "(x)")
  = true
  /\ Current.declaresMatch (Sample.entryIn "Lib" "(x)")
       (mkNode Sample.functionKind (Some "(y)") 0 []) = false.
Proof. split; reflexivity. Qed.

(** X6: in [SwiftScanner.js] a candidate adds to [projectComponents] one
    element for every module of the dataset that holds a satisfying entry,
    so [processComponents] adds as many elements as there are such pairs of a
    candidate and a module. *)
Theorem X6_pushes_once_per_matching_module (env : Env) (cfg : Config) (st : Current.State)
    (components : list Node) (filePath : string) :
  length (Current.projectComponents (Current.processComponents env cfg st components filePath))
  = length (Current.projectComponents st)
    + length (flat_map (RecordSpec.modulesMatching cfg) components).
Proof.
  unfold Current.processComponents. revert st.
  induction components as [|component components IH]; intros st; [cbn; lia|].
  cbn [fold_left flat_map]. rewrite IH, MatchCountFacts.current_visitComponent_length.
  rewrite length_app. lia.
Qed.

(** X7: in the older copy a candidate adds one element to
    [projectComponents] when some entry of the dataset satisfies the test and
    none otherwise, so [processComponents] adds at most one element per
    candidate. *)
Theorem X7_legacy_pushes_at_most_once (env : Env) (cfg : Config)
    (thirdPartyDependencies : Legacy.Dependencies) (st : Legacy.State)
    (components : list Node) (filePath : string) :
  let after := Legacy.processComponents env cfg thirdPartyDependencies st components filePath in
  length (Legacy.projectComponents after)
  = length (Legacy.projectComponents st)
    + length (List.filter
                (fun component =>
                   match Spec.firstSatisfying (componentsDataset cfg) component with
                   | Some _ => true
                   | None => false
                   end) components)
  /\ length (Legacy.projectComponents after)
     <= length (Legacy.projectComponents st) + length components.
Proof.
  cbn zeta.
  assert (H : forall st,
             length (Legacy.projectComponents
                       (Legacy.processComponents env cfg thirdPartyDependencies st components
                          filePath))
             = length (Legacy.projectComponents st)
               + length (List.filter
                           (fun component =>
                              match Spec.firstSatisfying (componentsDataset cfg) component with
                              | Some _ => true
                              | None => false
                              end) components)).
  { unfold Legacy.processComponents.
    induction components as [|component components IH]; intros st0; [cbn; lia|].
    cbn [fold_left List.filter]. rewrite IH, MatchCountFacts.legacy_visitModules_length.
    destruct (Spec.firstSatisfying (componentsDataset cfg) component); cbn [length]; lia. }
  split; [apply H|]. rewrite H.
  pose proof (List.filter_length_le
                (fun component =>
                   match Spec.firstSatisfying (componentsDataset cfg) component with
                   | Some _ => true
                   | None => false
                   end) components).
  lia.
Qed.

(** ** Invariants of the stored records *)

Module RecordFacts.

Import Aggregator RecordSpec.





Section Steps.
Variable env : Env.
Variable cfg : Config.
Variable thirdPartyDependencies : Legacy.Dependencies.




(** In the older copy every record is stored under its own id. *)
Lemma legacy_step_keys (st : Legacy.State) (component : Node)
    (entry : CatalogEntry) (filePath : string) :
  map_Forall (fun key m => id m = key) (Legacy.codebaseComponents st) ->
  map_Forall (fun key m => id m = key)
    (Legacy.codebaseComponents
       (Legacy.extractMetadata env cfg thirdPartyDependencies st component entry filePath).1).
Proof.
  intros Hst.
  destruct (Legacy.startRecord cfg thirdPartyDependencies st component entry)
    as [start|message] eqn:Hstart.
  - assert (Hid : id start = metadataId component entry).
    { destruct (LegacyFacts.start_cases _ _ _ _ _ _ Hstart) as [Hm|(_ & tp & ->)].
      - exact (Hst _ _ Hm).
      - reflexivity. }
    destruct (readFile env filePath) as [content|failure] eqn:Hread.
    + rewrite (LegacyFacts.legacy_readable _ _ _ _ _ _ _ _ _ Hread Hstart). cbn.
      apply map_Forall_insert_2; [exact Hid|exact Hst].
    + rewrite (LegacyFacts.legacy_unreadable _ _ _ _ _ _ _ _ _ Hread Hstart).
      destruct (Legacy.codebaseComponents st !! metadataId component entry); [|exact Hst].
      apply map_Forall_insert_2; [exact Hid|exact Hst].
  - rewrite (LegacyFacts.legacy_throws _ _ _ _ _ _ _ _ Hstart). exact Hst.
Qed.

End Steps.

End RecordFacts.

(** X8: in the older copy, after any sequence of aggregator calls from the
    empty store, every record is stored under its own id, which is the id
    computed for the match. *)
Theorem X8_legacy_records_are_stored_under_their_id (env : Env) (cfg : Config)
    (thirdPartyDependencies : Legacy.Dependencies) (calls : list Spec.Resolved) :
  map_Forall (fun key m => id m = key)
    (Legacy.codebaseComponents
       (Spec.legacyRun env cfg thirdPartyDependencies calls Legacy.initial)).
Proof.
  unfold Spec.legacyRun.
  assert (H : forall st,
             map_Forall (fun key m => id m = key) (Legacy.codebaseComponents st) ->
             map_Forall (fun key m => id m = key)
               (Legacy.codebaseComponents
                  (fold_left
                     (fun st r =>
                        (Legacy.extractMetadata env cfg thirdPartyDependencies st
                           (Spec.candidate r) (Spec.resolvedTo r) (Spec.inFile r)).1)
                     calls st))).
  { induction calls as [|r calls IH]; intros st Hst; [exact Hst|].
    apply IH, RecordFacts.legacy_step_keys, Hst. }
  apply H, map_Forall_empty.
Qed.


(** ** Invariants of the walker *)

Module WalkFacts.

Import WalkSpec.

Section Closure.
Variable env : Env.
Variable cfg : Config.
Variable R : Current.State -> Current.State -> Prop.
Hypothesis R_refl : forall st, R st st.
Hypothesis R_trans : forall a b c, R a b -> R b c -> R a c.
Hypothesis R_log : forall lines st, R st (Current.log lines st).
Hypothesis R_match :
  forall st component entry filePath,
    R st (let '(st', metadata) := Current.extractMetadata env cfg st component entry filePath in
          Current.pushProject metadata st').

Lemma fold_left_closed {A : Type} (f : Current.State -> A -> Current.State) (l : list A) :
  (forall st a, R st (f st a)) -> forall st, R st (fold_left f l st).
Proof.
  intros Hf. induction l as [|a l IH]; intros st; [apply R_refl|].
  cbn [fold_left]. eapply R_trans; [apply Hf|apply IH].
Qed.

Lemma processComponents_closed (st : Current.State) (components : list Node)
    (filePath : string) :
  R st (Current.processComponents env cfg st components filePath).
Proof.
  unfold Current.processComponents. apply fold_left_closed.
  intros st1 component. unfold Current.visitComponent.
  destruct (Current.componentNameOf component) as [componentName|]; [|apply R_refl].
  apply fold_left_closed. intros st2 [moduleName moduleComponents].
  unfold Current.visitModule.
  destruct (List.find _ moduleComponents) as [p|]; [apply R_match|apply R_refl].
Qed.

Lemma file_closed (st : Current.State) (filePath : string) :
  R st (Walker.extractComponentsFromFile env cfg st filePath).
Proof.
  unfold Walker.extractComponentsFromFile, Walker.extractComponents.
  eapply R_trans; [apply (R_log ["scanning file: " +:+ filePath])|].
  destruct (readFile env filePath); [|apply R_log].
  eapply R_trans; [apply R_log|].
  destruct (Oracle.getStructureFromFile env filePath);
    [apply processComponents_closed|apply R_log].
Qed.

Lemma scan_closed (entry : FsEntry) (filePath : string) (excludedFolders : list string)
    (st : Current.State) :
  R st (Walker.scanFilesRecursively env cfg entry filePath excludedFolders st).
Proof.
  revert filePath st.
  induction entry as [message| |message|files IH] using WalkerFacts.FsEntry_forall_ind;
    intros filePath st; cbn [Walker.scanFilesRecursively].
  - apply R_log.
  - destruct (Js.endsWith filePath ".swift"); [apply file_closed|apply R_refl].
  - destruct (Walker.validPath cfg filePath); apply R_log.
  - destruct (Walker.validPath cfg filePath); [|apply R_log].
    revert st. induction IH as [|[file child] files Hchild _ IHfiles]; intros st;
      [apply R_refl|].
    destruct (existsb (Js.streq file) excludedFolders); [apply IHfiles|].
    eapply R_trans; [apply Hchild|apply IHfiles].
Qed.

Lemma scanAll_closed (roots : list (string * FsEntry)) (excludedFolders : list string)
    (st : Current.State) :
  R st (Walker.scanAll env cfg roots excludedFolders st).
Proof.
  unfold Walker.scanAll. apply fold_left_closed.
  intros st1 [filePath entry]. apply scan_closed.
Qed.

End Closure.

Lemma extends_refl (st : Current.State) : extends st st.
Proof. repeat split; reflexivity. Qed.

Lemma extends_trans (a b c : Current.State) : extends a b -> extends b c -> extends a c.
Proof.
  intros (H1 & H2 & H3) (K1 & K2 & K3). repeat split; etransitivity; eassumption.
Qed.

Lemma extends_log (lines : list string) (st : Current.State) :
  extends st (Current.log lines st).
Proof.
  repeat split; cbn; try reflexivity. apply prefix_app_r. reflexivity.
Qed.

Lemma extends_match (env : Env) (cfg : Config) (st : Current.State) (component : Node)
    (entry : CatalogEntry) (filePath : string) :
  extends st
    (let '(st', metadata) := Current.extractMetadata env cfg st component entry filePath in
     Current.pushProject metadata st').
Proof.
  unfold Current.extractMetadata. rewrite CurrentFacts.lookup_by_id_finds_nothing.
  destruct (Locate.findLineAndColumn (readFile env) filePath (key_offset component))
    as [lines [lc|]]; repeat split; cbn; try reflexivity;
    apply prefix_app_r; reflexivity.
Qed.

Lemma mirrors_match (env : Env) (cfg : Config) (st : Current.State) (component : Node)
    (entry : CatalogEntry) (filePath : string) :
  mirrors st ->
  mirrors
    (let '(st', metadata) := Current.extractMetadata env cfg st component entry filePath in
     Current.pushProject metadata st').
Proof.
  unfold mirrors, Current.extractMetadata. intros H.
  rewrite CurrentFacts.lookup_by_id_finds_nothing.
  destruct (Locate.findLineAndColumn (readFile env) filePath (key_offset component))
    as [lines [lc|]]; cbn; rewrite omap_app, H; cbn.
  - reflexivity.
  - apply app_nil_r.
Qed.

End WalkFacts.

(** X10: a scan never removes or changes what is there: after the [scan]
    command has walked any paths, the records of [codebaseComponents], the
    elements of [projectComponents] and the console lines of the state it
    started from are still there, in place, followed by what the scan
    added. *)
Theorem X10_scan_only_appends (env : Env) (cfg : Config) (roots : list (string * FsEntry))
    (excludedFolders : list string) (st : Current.State) :
  let after := Walker.scanAll env cfg roots excludedFolders st in
  (exists records, Current.codebaseComponents after = Current.codebaseComponents st ++ records)
  /\ (exists elements,
        Current.projectComponents after = Current.projectComponents st ++ elements)
  /\ (exists lines, Current.console after = Current.console st ++ lines).
Proof.
  apply (WalkFacts.scanAll_closed env cfg WalkSpec.extends WalkFacts.extends_refl
           WalkFacts.extends_trans WalkFacts.extends_log (WalkFacts.extends_match env cfg)).
Qed.

(** X11: after the [scan] command has walked any paths from the initial
    state, [projectComponents] holds the records of [codebaseComponents], in
    the same order, and besides them only the empty objects of the
    extractions that failed. *)
Theorem X11_project_components_mirror_the_records (env : Env) (cfg : Config)
    (roots : list (string * FsEntry)) (excludedFolders : list string) :
  let after := Walker.scanAll env cfg roots excludedFolders Current.initial in
  omap (fun r : option Metadata => r) (Current.projectComponents after)
  = Current.codebaseComponents after.
Proof.
  apply (WalkFacts.scanAll_closed env cfg
           (fun st st' => WalkSpec.mirrors st -> WalkSpec.mirrors st')).
  - auto.
  - auto.
  - intros lines st H. exact H.
  - intros st component entry filePath. apply WalkFacts.mirrors_match.
  - reflexivity.
Qed.

Module WalkMoreFacts.

Lemma includes_length (s p : string) :
  Js.includes s p = true -> String.length p <= String.length s.
Proof.
  intros H. apply JsFacts.includes_inv in H as (a & b & ->).
  rewrite !ManifestFacts.length_app. lia.
Qed.

Lemma validPath_longer (cfg : Config) (directoryPath : string) :
  (forall md, md ∈ projectModulesList cfg ->
     String.length (module_path md) < String.length directoryPath) ->
  Walker.validPath cfg directoryPath = false.
Proof.
  unfold Walker.validPath.
  induction (projectModulesList cfg) as [|md l IH]; intros H; [reflexivity|].
  cbn [existsb].
  destruct (Js.includes (module_path md) directoryPath) eqn:E.
  - apply includes_length in E. specialize (H md (list_elem_of_here _ _)). lia.
  - apply IH. intros md' Hmd'. apply H. right. exact Hmd'.
Qed.

End WalkMoreFacts.

(** X12: the exclusion list is applied by entry name to every entry of every
    directory walked, files as well as folders: a scan gives the same state
    as the scan of the same tree without the excluded entries. *)
Theorem X12_excluded_entries_are_never_visited (env : Env) (cfg : Config) (entry : FsEntry)
    (filePath : string) (excludedFolders : list string) (st : Current.State) :
  Walker.scanFilesRecursively env cfg (WalkSpec.prune excludedFolders entry) filePath
    excludedFolders st
  = Walker.scanFilesRecursively env cfg entry filePath excludedFolders st.
Proof.
  revert filePath st.
  induction entry as [message| |message|files IH] using WalkerFacts.FsEntry_forall_ind;
    intros filePath st; try reflexivity.
  cbn [WalkSpec.prune Walker.scanFilesRecursively].
  destruct (Walker.validPath cfg filePath); [|reflexivity].
  revert st. induction IH as [|[file child] files Hchild _ IHfiles]; intros st;
    [reflexivity|].
  destruct (existsb (Js.streq file) excludedFolders) eqn:E.
  - apply IHfiles.
  - rewrite E. cbn [snd] in Hchild. rewrite Hchild. apply IHfiles.
Qed.

(** X13: when a Swift file cannot be read, or the oracle's output for it is
    not JSON, or the oracle fails and its error text is not JSON, the file is
    given up: [codebaseComponents] and [projectComponents] stay as they were,
    and the walker goes on. *)
Theorem X13_failed_file_changes_no_record (env : Env) (cfg : Config) (st : Current.State)
    (filePath : string) :
  WalkSpec.fileFails env filePath ->
  Spec.sameRecords (Walker.extractComponentsFromFile env cfg st filePath) st
  /\ exists lines,
       Current.console (Walker.extractComponentsFromFile env cfg st filePath)
       = Current.console st ++ ("scanning file: " +:+ filePath) :: lines.
Proof.
  unfold Walker.extractComponentsFromFile, Walker.extractComponents,
    Oracle.getStructureFromFile, Oracle.executeCommand, Oracle.executeCommandLog,
    Oracle.tryCatch.
  intros [[message Hread]|[(stdout & message & Hexec & Hparse)
                          |(failure & message & Hexec & Hparse)]].
  - rewrite Hread. split; [split; reflexivity|]. cbn. rewrite <- app_assoc. eauto.
  - destruct (readFile env filePath) as [content|message'].
    + rewrite Hexec, Hparse. split; [split; reflexivity|]. cbn.
      rewrite <- !app_assoc. eauto.
    + split; [split; reflexivity|]. cbn. rewrite <- app_assoc. eauto.
  - destruct (readFile env filePath) as [content|message'].
    + rewrite Hexec, Hparse. split; [split; reflexivity|]. cbn.
      rewrite <- !app_assoc. eauto.
    + split; [split; reflexivity|]. cbn. rewrite <- app_assoc. eauto.
Qed.

Lemma X13_failed_file_witness :
  Spec.sameRecords
    (Walker.extractComponentsFromFile Sample.failingEnv Sample.cfg Current.initial "a.swift")
    Current.initial.
Proof.
  apply (X13_failed_file_changes_no_record Sample.failingEnv Sample.cfg Current.initial
           "a.swift").
  right. right. eexists _, _. split; reflexivity.
Defined.

(** X14: [validPath] accepts a directory only when its path occurs inside a
    module path, so a directory whose path is longer than every module path
    is rejected with the guidance lines and nothing below it is scanned;
    among them the subdirectories of the module with the longest path. *)
Theorem X14_directories_below_the_modules_are_rejected (env : Env) (cfg : Config)
    (entry : FsEntry) (directoryPath : string) (excludedFolders : list string)
    (st : Current.State) :
  Spec.isDirectory entry ->
  (forall md, md ∈ projectModulesList cfg ->
     String.length (module_path md) < String.length directoryPath) ->
  Walker.scanFilesRecursively env cfg entry directoryPath excludedFolders st
  = Current.log (Walker.guidance cfg) st.
Proof.
  intros Hdir Hlong. apply WalkerFacts.rejected; [exact Hdir|].
  apply WalkMoreFacts.validPath_longer, Hlong.
Qed.

Lemma X14_subdirectory_witness :
  Walker.scanFilesRecursively Sample.env Sample.cfg
    (FsDirectory [("View.swift", FsFile)]) "/proj/Sources/App/Views" [] Current.initial
  = Current.log (Walker.guidance Sample.cfg) Current.initial.
Proof.
  apply X14_directories_below_the_modules_are_rejected; [exact I|].
  intros md Hmd. apply elem_of_cons in Hmd as [->|Hmd]; [|inversion Hmd].
  vm_compute. lia.
Defined.

(** ** Symbol catalog *)

Module CatalogFacts.

Import Catalog.

(** One component, while the object owns no bucket named [hasOwnProperty]
    and the component is not of a module of that name. *)
Lemma file_bucket (store : Store) (component : CatalogEntry) :
  own store !! "hasOwnProperty" = None ->
  entry_moduleName component <> "hasOwnProperty" ->
  exists store',
    file store component = Normal store'
    /\ own store' !! "hasOwnProperty" = None
    /\ forall moduleName, moduleName <> "__proto__" ->
         bucket store' moduleName
         = bucket store moduleName
           ++ (if Js.streq (entry_moduleName component) moduleName then [component] else []).
Proof.
  intros Hmethod Hname. unfold file. rewrite Hmethod.
  destruct (own store !! entry_moduleName component) as [entries|] eqn:Hown.
  - eexists. split; [reflexivity|]. cbn [own]. split.
    + rewrite lookup_insert_ne by exact Hname. exact Hmethod.
    + intros moduleName _. unfold bucket. cbn [own].
      destruct (Js.streq (entry_moduleName component) moduleName) eqn:E.
      * apply JsFacts.streq_true in E. subst moduleName.
        rewrite lookup_insert_eq, Hown. reflexivity.
      * apply JsFacts.streq_false in E.
        rewrite lookup_insert_ne by exact E. rewrite app_nil_r. reflexivity.
  - destruct (Js.streq (entry_moduleName component) "__proto__") eqn:Eproto.
    + eexists. split; [reflexivity|]. cbn [own]. split; [exact Hmethod|].
      intros moduleName Hproto. apply JsFacts.streq_true in Eproto.
      assert (Js.streq (entry_moduleName component) moduleName = false) as ->
        by (apply JsFacts.streq_false; congruence).
      rewrite app_nil_r. reflexivity.
    + eexists. split; [reflexivity|]. cbn [own]. split.
      * rewrite lookup_insert_ne by exact Hname. exact Hmethod.
      * intros moduleName _. unfold bucket. cbn [own].
        destruct (Js.streq (entry_moduleName component) moduleName) eqn:E.
        -- apply JsFacts.streq_true in E. subst moduleName.
           rewrite lookup_insert_eq, Hown. reflexivity.
        -- apply JsFacts.streq_false in E.
           rewrite lookup_insert_ne by exact E. rewrite app_nil_r. reflexivity.
Qed.

(** One component keeps the dataset filed by module. *)
Lemma file_filed (store store' : Store) (component : CatalogEntry) :
  filed store -> file store component = Normal store' -> filed store'.
Proof.
  intros [Hown Hproto]. unfold file.
  destruct (own store !! "hasOwnProperty"); [discriminate|].
  destruct (own store !! entry_moduleName component) as [entries|] eqn:Hentries.
  - intros [= <-]. split; [|exact Hproto]. cbn [own]. intros moduleName es Hes.
    destruct (decide (entry_moduleName component = moduleName)) as [<-|Hne].
    + rewrite lookup_insert_eq in Hes. injection Hes as <-.
      split; [destruct entries; discriminate|].
      intros c Hc. apply elem_of_app in Hc as [Hc|Hc].
      * exact (proj2 (Hown _ _ Hentries) c Hc).
      * apply list_elem_of_singleton in Hc. subst c. reflexivity.
    + rewrite lookup_insert_ne in Hes by exact Hne. exact (Hown _ _ Hes).
  - destruct (Js.streq (entry_moduleName component) "__proto__") eqn:Eproto.
    + intros [= <-]. split; [exact Hown|]. cbn [prototype]. intros es [= <-].
      split; [discriminate|].
      intros c Hc. apply list_elem_of_singleton in Hc. subst c.
      apply JsFacts.streq_true, Eproto.
    + intros [= <-]. split; [|exact Hproto]. cbn [own]. intros moduleName es Hes.
      destruct (decide (entry_moduleName component = moduleName)) as [<-|Hne].
      * rewrite lookup_insert_eq in Hes. injection Hes as <-.
        split; [discriminate|].
        intros c Hc. apply list_elem_of_singleton in Hc. subst c. reflexivity.
      * rewrite lookup_insert_ne in Hes by exact Hne. exact (Hown _ _ Hes).
Qed.

(** The first component of a module named [hasOwnProperty] gets its
    bucket ... *)
Lemma file_method (store : Store) (component : CatalogEntry) :
  own store !! "hasOwnProperty" = None ->
  entry_moduleName component = "hasOwnProperty" ->
  file store component
  = Normal {| own := <["hasOwnProperty" := [component]]> (own store);
              prototype := prototype store |}.
Proof.
  intros Hmethod Hname. unfold file. rewrite Hmethod, Hname, Hmethod. reflexivity.
Qed.

(** ... and with that bucket in place every call of the callback throws. *)
Lemma file_shadowed (store : Store) (component : CatalogEntry) (entries : list CatalogEntry) :
  own store !! "hasOwnProperty" = Some entries ->
  file store component = Throw notAFunction.
Proof. intros Hmethod. unfold file. rewrite Hmethod. reflexivity. Qed.

(** The loop goes through the components given first, then through the
    others, unless an error has ended it. *)
Lemma updateDataset_app (store : Store) (first others : list CatalogEntry) :
  updateDataset store (first ++ others)
  = match updateDataset store first with
    | (store', None) => updateDataset store' others
    | (store', Some message) => (store', Some message)
    end.
Proof.
  revert store. induction first as [|component first IH]; intros store; [reflexivity|].
  cbn [app updateDataset]. destruct (file store component) as [store'|message]; [|reflexivity].
  apply IH.
Qed.

(** Without a module named [hasOwnProperty] the loop ends without error
    and the object still owns no bucket of that name. *)
Lemma updateDataset_completes (store : Store) (components : list CatalogEntry) :
  own store !! "hasOwnProperty" = None ->
  Forall (fun component => entry_moduleName component <> "hasOwnProperty") components ->
  (updateDataset store components).2 = None
  /\ own (updateDataset store components).1 !! "hasOwnProperty" = None.
Proof.
  revert store. induction components as [|component components IH]; intros store Hmethod Hnames.
  - split; [reflexivity|exact Hmethod].
  - apply Forall_cons in Hnames as [Hname Hnames].
    destruct (file_bucket store component Hmethod Hname) as (store' & Hfile & Hmethod' & _).
    cbn [updateDataset]. rewrite Hfile. apply IH; assumption.
Qed.

(** The [{}] of the constructor is filed by module. *)
Lemma filed_empty : filed empty.
Proof.
  split.
  - intros moduleName entries Hin. cbn in Hin. rewrite lookup_empty in Hin. discriminate.
  - intros entries Hin. discriminate Hin.
Qed.

End CatalogFacts.

(** X15: when the dataset owns no bucket named [hasOwnProperty] and no
    component is of a module of that name, [updateDataset] ends without
    error, and the bucket of every module other than [__proto__] holds what
    it held before followed by the components of that module, in the order
    they were given; an absent bucket counts as empty. *)
Theorem X15_update_appends_to_the_bucket_of_the_module (store : Catalog.Store)
    (components : list CatalogEntry) (moduleName : string) :
  Catalog.own store !! "hasOwnProperty" = None ->
  Forall (fun component => entry_moduleName component <> "hasOwnProperty") components ->
  moduleName <> "__proto__" ->
  (Catalog.updateDataset store components).2 = None
  /\ Catalog.bucket (Catalog.updateDataset store components).1 moduleName
     = Catalog.bucket store moduleName
       ++ List.filter (fun component => Js.streq (entry_moduleName component) moduleName)
            components.
Proof.
  intros Hmethod Hnames Hproto.
  split; [apply CatalogFacts.updateDataset_completes; assumption|].
  revert store Hmethod. induction components as [|component components IH]; intros store Hmethod.
  - cbn. rewrite app_nil_r. reflexivity.
  - apply Forall_cons in Hnames as [Hname Hnames].
    destruct (CatalogFacts.file_bucket store component Hmethod Hname)
      as (store' & Hfile & Hmethod' & Hbucket).
    cbn [Catalog.updateDataset List.filter]. rewrite Hfile.
    rewrite (IH Hnames store' Hmethod'), (Hbucket moduleName Hproto), <- app_assoc.
    destruct (Js.streq (entry_moduleName component) moduleName); reflexivity.
Qed.

Lemma X15_update_witness :
  (Catalog.updateDataset Catalog.empty
     [Sample.entryIn "Lib" "f()"; Sample.entryIn "App" "g()"; Sample.entryIn "Lib" "h()"]).2
  = None
  /\ Catalog.bucket
       (Catalog.updateDataset Catalog.empty
          [Sample.entryIn "Lib" "f()"; Sample.entryIn "App" "g()"; Sample.entryIn "Lib" "h()"]).1
       "Lib"
     = [Sample.entryIn "Lib" "f()"; Sample.entryIn "Lib" "h()"].
Proof.
  apply (X15_update_appends_to_the_bucket_of_the_module Catalog.empty
           [Sample.entryIn "Lib" "f()"; Sample.entryIn "App" "g()"; Sample.entryIn "Lib" "h()"]
           "Lib").
  - reflexivity.
  - repeat constructor; discriminate.
  - discriminate.
Defined.

(** X16: [updateDataset] keeps a dataset filed by module, whatever the
    components and whether or not an error ends the loop: afterwards no
    bucket is empty and every entry sits in the bucket named by its own
    [moduleName], the entries of a module named [__proto__] possibly in the
    array that has become the prototype of the object. *)
Theorem X16_built_dataset_is_filed_by_module (store : Catalog.Store)
    (components : list CatalogEntry) :
  Catalog.filed store ->
  Catalog.filed (Catalog.updateDataset store components).1.
Proof.
  revert store. induction components as [|component components IH]; intros store Hfiled;
    [exact Hfiled|].
  cbn [Catalog.updateDataset].
  destruct (Catalog.file store component) as [store'|message] eqn:Hfile; [|exact Hfiled].
  apply IH. exact (CatalogFacts.file_filed store store' component Hfiled Hfile).
Qed.

Lemma X16_filed_witness :
  Catalog.filed
    (Catalog.updateDataset Catalog.empty
       [Sample.entryIn "Lib" "f()"; Sample.entryIn "__proto__" "g()";
        Sample.entryIn "hasOwnProperty" "h()"; Sample.entryIn "Lib" "k()"]).1.
Proof.
  apply (X16_built_dataset_is_filed_by_module Catalog.empty
           [Sample.entryIn "Lib" "f()"; Sample.entryIn "__proto__" "g()";
            Sample.entryIn "hasOwnProperty" "h()"; Sample.entryIn "Lib" "k()"]).
  exact CatalogFacts.filed_empty.
Defined.

(** X28: once a component of a module named [hasOwnProperty] has been
    filed, the next component ends [updateDataset] with a [TypeError]: the
    dataset is left as it was after that component, and none of the
    components that follow is filed. *)
Theorem X28_bucket_named_hasOwnProperty_ends_the_update (store : Catalog.Store)
    (before : list CatalogEntry) (component next : CatalogEntry) (others : list CatalogEntry) :
  Catalog.own store !! "hasOwnProperty" = None ->
  Forall (fun c => entry_moduleName c <> "hasOwnProperty") before ->
  entry_moduleName component = "hasOwnProperty" ->
  Catalog.updateDataset store (before ++ component :: next :: others)
  = ((Catalog.updateDataset store (before ++ [component])).1,
     Some "this.componentsDataset.hasOwnProperty is not a function")
  /\ Catalog.bucket (Catalog.updateDataset store (before ++ [component])).1 "hasOwnProperty"
     = [component].
Proof.
  intros Hmethod Hnames Hname.
  destruct (CatalogFacts.updateDataset_completes store before Hmethod Hnames)
    as [Hdone Hmethod'].
  rewrite !CatalogFacts.updateDataset_app.
  destruct (Catalog.updateDataset store before) as [store' error].
  cbn [fst snd] in Hdone, Hmethod'. subst error.
  cbn [Catalog.updateDataset].
  rewrite (CatalogFacts.file_method store' component Hmethod' Hname).
  rewrite (CatalogFacts.file_shadowed _ next [component]) by apply lookup_insert_eq.
  split; [reflexivity|].
  unfold Catalog.bucket. cbn [fst Catalog.own]. rewrite lookup_insert_eq. reflexivity.
Qed.

Lemma X28_shadowed_method_witness :
  Catalog.updateDataset Catalog.empty
    [Sample.entryIn "hasOwnProperty" "f()"; Sample.entryIn "Lib" "g()"]
  = ((Catalog.updateDataset Catalog.empty [Sample.entryIn "hasOwnProperty" "f()"]).1,
     Some "this.componentsDataset.hasOwnProperty is not a function")
  /\ Catalog.bucket
       (Catalog.updateDataset Catalog.empty [Sample.entryIn "hasOwnProperty" "f()"]).1
       "hasOwnProperty"
     = [Sample.entryIn "hasOwnProperty" "f()"].
Proof.
  apply (X28_bucket_named_hasOwnProperty_ends_the_update Catalog.empty []
           (Sample.entryIn "hasOwnProperty" "f()") (Sample.entryIn "Lib" "g()") []).
  - reflexivity.
  - constructor.
  - reflexivity.
Defined.

Module OffsetFacts.

(** The last occurrence of a character. *)
Lemma lastIndexOf_spec (c : ascii) (s : string) :
  (Js.lastIndexOf c s = (-1)%Z /\ forall j, Js.charAt s j <> Some c)
  \/ ((0 <= Js.lastIndexOf c s)%Z
      /\ Js.charAt s (Z.to_nat (Js.lastIndexOf c s)) = Some c
      /\ forall j, Z.to_nat (Js.lastIndexOf c s) < j -> Js.charAt s j <> Some c).
Proof.
  unfold Js.charAt. induction s as [|a s IH].
  - left. split; [reflexivity|]. intros j. destruct j; discriminate.
  - cbn [Js.lastIndexOf]. destruct IH as [[Hr Hnone]|(Hr & Hat & Hafter)].
    + rewrite Hr. cbn [Z.leb Z.compare].
      destruct (Ascii.eqb a c) eqn:Hac.
      * apply Ascii.eqb_eq in Hac. subst a. right. split; [lia|]. split; [reflexivity|].
        intros j Hj. destruct j as [|j]; [cbn in Hj; lia|]. cbn [String.get]. apply Hnone.
      * left. split; [reflexivity|]. intros j. destruct j as [|j]; cbn [String.get].
        -- intros [= ->]. rewrite Ascii.eqb_refl in Hac. discriminate.
        -- apply Hnone.
    + destruct (Z.leb_spec 0 (Js.lastIndexOf c s)) as [_|Hneg]; [|lia].
      right. split; [lia|].
      replace (Z.to_nat (Js.lastIndexOf c s + 1)) with (S (Z.to_nat (Js.lastIndexOf c s)))
        by lia.
      split; [exact Hat|].
      intros j Hj. destruct j as [|j]; [lia|]. cbn [String.get]. apply Hafter. lia.
Qed.

End OffsetFacts.

(** X17: [getOffset] never changes the file. For a content with a line feed
    it returns the index of the last one: a line feed is there and none
    after it. For a content without line feed it returns [null] and writes
    one error line, the append it attempts being a call of a function the
    promise API of [fs] does not have. *)
Theorem X17_offset_is_the_last_line_feed (swiftCode filePath : string) :
  match Catalog.getOffset swiftCode filePath with
  | (lines, Some index) =>
      lines = []
      /\ (0 <= index)%Z
      /\ Js.charAt swiftCode (Z.to_nat index) = Some Js.newline
      /\ forall j, Z.to_nat index < j -> Js.charAt swiftCode j <> Some Js.newline
  | (lines, None) =>
      lines = ["Error reading or updating file " +:+ filePath
                 +:+ ": fs.appendFileSync is not a function"]
      /\ forall j, Js.charAt swiftCode j <> Some Js.newline
  end.
Proof.
  unfold Catalog.getOffset.
  destruct (OffsetFacts.lastIndexOf_spec Js.newline swiftCode)
    as [[Hr Hnone]|(Hr & Hat & Hafter)].
  - rewrite Hr. cbn [Z.eqb Pos.eqb]. split; [reflexivity|exact Hnone].
  - destruct (Z.eqb_spec (Js.lastIndexOf Js.newline swiftCode) (-1)) as [E|_]; [lia|].
    auto.
Qed.

(** ** Modules of a path *)

Module PathFacts.

Lemma find_first {A : Type} (f : A -> bool) (before : list A) (x : A) (after : list A) :
  (forall y, y ∈ before -> f y = false) -> f x = true ->
  List.find f (before ++ x :: after) = Some x.
Proof.
  intros Hbefore Hx. induction before as [|y before IH].
  - cbn. rewrite Hx. reflexivity.
  - cbn [app List.find]. rewrite (Hbefore y (list_elem_of_here _ _)).
    apply IH. intros z Hz. apply Hbefore. right. exact Hz.
Qed.

Lemma find_none {A : Type} (f : A -> bool) (l : list A) :
  (forall y, y ∈ l -> f y = false) -> List.find f l = None.
Proof.
  induction l as [|y l IH]; intros H; [reflexivity|].
  cbn [List.find]. rewrite (H y (list_elem_of_here _ _)).
  apply IH. intros z Hz. apply H. right. exact Hz.
Qed.

End PathFacts.

(** X18: [getModuleName] attributes a path to the first module of the list
    whose path occurs anywhere in it, whatever modules follow; it returns
    [null] when no module path occurs in it, in particular when there is no
    module. *)
Theorem X18_path_goes_to_the_first_module_found (cfg : Config) (parentDir : string) :
  (forall before md after,
     projectModulesList cfg = before ++ md :: after ->
     (forall other, other ∈ before -> Js.includes parentDir (module_path other) = false) ->
     Js.includes parentDir (module_path md) = true ->
     Paths.getModuleName cfg parentDir = Some (module_name md))
  /\ ((forall md, md ∈ projectModulesList cfg ->
         Js.includes parentDir (module_path md) = false) ->
      Paths.getModuleName cfg parentDir = None).
Proof.
  unfold Paths.getModuleName. split.
  - intros before md after -> Hbefore Hmd.
    rewrite (PathFacts.find_first (fun md => Js.includes parentDir (module_path md))
               before md after Hbefore Hmd).
    reflexivity.
  - intros Hnone.
    rewrite (PathFacts.find_none (fun md => Js.includes parentDir (module_path md))
               _ Hnone).
    reflexivity.
Qed.

Lemma X18_nested_module_witness :
  Paths.getModuleName Sample2.cfg "/proj/Sources/AppTests/AppTests.swift" = Some "App".
Proof.
  destruct (X18_path_goes_to_the_first_module_found Sample2.cfg
              "/proj/Sources/AppTests/AppTests.swift") as [Hfirst _].
  apply (Hfirst [] Sample.appModule [Sample2.testsModule; Sample2.libModule] eq_refl).
  - intros other Hother. inversion Hother.
  - reflexivity.
Defined.

(** ** Third-party flag *)

Module ThirdPartyFacts.

Lemma find_by_name (modules : list ProjectModule) (md : ProjectModule) :
  NoDup (map module_name modules) -> md ∈ modules ->
  List.find (fun other => Js.streq (module_name other) (module_name md)) modules = Some md.
Proof.
  induction modules as [|other modules IH]; intros Hnd Hin; [inversion Hin|].
  cbn [map] in Hnd. apply NoDup_cons in Hnd as [Hfresh Hnd].
  cbn [List.find]. apply elem_of_cons in Hin as [->|Hin].
  - rewrite JsFacts.streq_refl. reflexivity.
  - destruct (Js.streq (module_name other) (module_name md)) eqn:E; [|exact (IH Hnd Hin)].
    apply JsFacts.streq_true in E. exfalso. apply Hfresh. rewrite E.
    apply list_elem_of_fmap. exists md. auto.
Qed.

End ThirdPartyFacts.

(** X19: when the module names are distinct, [isThirdParty] of a module's
    name is that module's flag, and the record created for an entry of that
    module in a readable file carries it: [thirdParty] is the flag,
    [isSelfDeclared] its negation and [libraryName] the module's name. A
    name that no module has is not third-party. *)
Theorem X19_record_carries_the_flag_of_its_module (env : Env) (cfg : Config)
    (st : Current.State) (component : Node) (entry : CatalogEntry)
    (filePath content : string) :
  NoDup (map module_name (projectModulesList cfg)) ->
  readFile env filePath = Normal content ->
  (forall md, md ∈ projectModulesList cfg ->
     entry_moduleName entry = module_name md ->
     Current.isThirdParty cfg (module_name md) = module_isThirdParty md
     /\ exists m,
          (Current.extractMetadata env cfg st component entry filePath).2 = Some m
          /\ thirdParty m = module_isThirdParty md
          /\ isSelfDeclared m = negb (module_isThirdParty md)
          /\ libraryName m = module_name md)
  /\ ((forall md, md ∈ projectModulesList cfg -> module_name md <> entry_moduleName entry) ->
      Current.isThirdParty cfg (entry_moduleName entry) = false).
Proof.
  intros Hnd Hread. split.
  - intros md Hmd Hname.
    assert (Hflag : Current.isThirdParty cfg (module_name md) = module_isThirdParty md).
    { unfold Current.isThirdParty.
      rewrite (ThirdPartyFacts.find_by_name _ md Hnd Hmd). reflexivity. }
    split; [exact Hflag|].
    rewrite (CurrentFacts.current_readable env cfg st component entry filePath content Hread).
    eexists. split; [reflexivity|]. cbn. rewrite Hname, Hflag. auto.
  - intros Hnone. unfold Current.isThirdParty.
    rewrite (PathFacts.find_none
               (fun md => Js.streq (module_name md) (entry_moduleName entry))); [reflexivity|].
    intros md Hmd. apply JsFacts.streq_false. apply Hnone, Hmd.
Qed.

Lemma X19_third_party_witness :
  exists m,
    (Current.extractMetadata Sample.env Sample2.cfg Current.initial (Sample.call "run" 3)
       (Sample.entryIn "Lib" "run()") "main.swift").2 = Some m
    /\ thirdParty m = true
    /\ isSelfDeclared m = false
    /\ libraryName m = "Lib".
Proof.
  assert (Hnd : NoDup (map module_name (projectModulesList Sample2.cfg))).
  { apply (bool_decide_unpack _). vm_compute. reflexivity. }
  destruct (X19_record_carries_the_flag_of_its_module Sample.env Sample2.cfg Current.initial
              (Sample.call "run" 3) (Sample.entryIn "Lib" "run()") "main.swift"
              Sample.content Hnd eq_refl) as [Hknown _].
  destruct (Hknown Sample2.libModule) as [_ H].
  - right. right. left.
  - reflexivity.
  - exact H.
Defined.

(** ** More on the build graph resolver *)

Module ManifestMoreFacts.

Import Manifest.

Lemma filterKeys_throws (data : Data) (moduleKeys : list string) (key message : string) :
  key ∈ moduleKeys ->
  firstInput data key = Throw message ->
  exists message', filterKeys data moduleKeys = Throw message'.
Proof.
  intros Hin Hthrow. induction moduleKeys as [|k moduleKeys IH]; [inversion Hin|].
  cbn [filterKeys]. apply elem_of_cons in Hin as [<-|Hin].
  - rewrite Hthrow. eauto.
  - destruct (firstInput data k) as [originalPath|message0]; [|eauto].
    destruct (IH Hin) as [message' ->]. eauto.
Qed.

Lemma join_cons (sep p : string) (rest : list string) :
  rest <> [] -> join sep (p :: rest) = p +:+ sep +:+ join sep rest.
Proof. destruct rest; [congruence|reflexivity]. Qed.

Lemma splitFrom_nonempty (sep s : string) (skip : nat) (current : string) :
  splitFrom sep s skip current <> [].
Proof.
  revert skip current. induction s as [|a s IH]; intros skip current; [discriminate|].
  cbn [splitFrom]. destruct skip; [|apply IH].
  destruct (Js.startsWith (String a s) sep); [discriminate|apply IH].
Qed.

(** A text without slash is one piece. *)
Lemma splitFrom_plain (f current : string) :
  RecordSpec.without Js.slash f = true ->
  splitFrom "/" f 0 current = [current +:+ f].
Proof.
  revert current. induction f as [|a f IH]; intros current Hf.
  - cbn. f_equal. induction current as [|c current IHc]; [reflexivity|].
    rewrite ManifestFacts.app_String, <- IHc. reflexivity.
  - cbn [RecordSpec.without] in Hf. apply andb_true_iff in Hf as [Ha Hf].
    apply negb_true_iff in Ha. unfold Js.slash in Ha.
    cbn [splitFrom Js.startsWith]. rewrite Ha. cbn [andb].
    rewrite (IH _ Hf), LocateFacts.app_assoc_string. reflexivity.
Qed.

Lemma startsWith_empty (s : string) : Js.startsWith s "" = true.
Proof. destruct s; reflexivity. Qed.

Lemma splitFrom_slash (s current : string) :
  splitFrom "/" (String Js.slash s) 0 current = current :: splitFrom "/" s 0 "".
Proof.
  cbn [splitFrom Js.startsWith]. rewrite startsWith_empty. reflexivity.
Qed.

Lemma splitFrom_other (c : ascii) (s current : string) :
  Ascii.eqb c Js.slash = false ->
  splitFrom "/" (String c s) 0 current = splitFrom "/" s 0 (current +:+ String c "").
Proof.
  intros Hc. unfold Js.slash in Hc. cbn [splitFrom Js.startsWith]. rewrite Hc. reflexivity.
Qed.

Lemma splitFrom_last (d f current : string) :
  RecordSpec.without Js.slash f = true ->
  splitFrom "/" (d +:+ String Js.slash f) 0 current = splitFrom "/" d 0 current ++ [f].
Proof.
  intros Hf. revert current. induction d as [|c d IH]; intros current.
  - rewrite ManifestFacts.app_empty, splitFrom_slash, (splitFrom_plain f "" Hf).
    reflexivity.
  - rewrite ManifestFacts.app_String.
    destruct (Ascii.eqb c Js.slash) eqn:Hc.
    + apply Ascii.eqb_eq in Hc. subst c. rewrite !splitFrom_slash, IH. reflexivity.
    + rewrite !splitFrom_other by exact Hc. apply IH.
Qed.

(** Joining the pieces gives the text back. *)
Lemma join_splitFrom (d current : string) :
  join "/" (splitFrom "/" d 0 current) = current +:+ d.
Proof.
  revert current. induction d as [|c d IH]; intros current.
  - cbn. induction current as [|x current IHc]; [reflexivity|].
    rewrite ManifestFacts.app_String, <- IHc. reflexivity.
  - destruct (Ascii.eqb c Js.slash) eqn:Hc.
    + apply Ascii.eqb_eq in Hc. subst c. rewrite splitFrom_slash.
      rewrite join_cons by apply splitFrom_nonempty. rewrite IH. reflexivity.
    + rewrite splitFrom_other by exact Hc.
      rewrite IH, LocateFacts.app_assoc_string. reflexivity.
Qed.

Lemma directory_of (d f : string) :
  RecordSpec.without Js.slash f = true ->
  join "/" (pop (split (d +:+ String Js.slash f) "/")) = d.
Proof.
  intros Hf. unfold split, pop. rewrite (splitFrom_last d f "" Hf).
  rewrite removelast_last. apply (join_splitFrom d "").
Qed.

End ManifestMoreFacts.

(** X20: when the manifest has no [PackageStructure] command, or one of its
    module targets lists no input, the resolver fails as a whole: the promise
    is rejected and no module is pushed, not even for the other targets. *)
Theorem X20_one_bad_target_fails_the_resolution (data : Manifest.Data)
    (projectModulesList : list ProjectModule) :
  NoDup (map fst (Manifest.commands data)) ->
  Manifest.command data "PackageStructure" = None
  \/ (exists key c,
        (key, c) ∈ Manifest.commands data
        /\ Js.startsWith key "C." = true
        /\ Manifest.inputs c = []) ->
  exists message, Manifest.getDebugYaml data projectModulesList = Throw message.
Proof.
  intros Hnd [Hps|(key & c & Hin & Hc & Hinputs)]; unfold Manifest.getDebugYaml.
  - rewrite Hps. eauto.
  - destruct (Manifest.command data "PackageStructure"); [|eauto].
    destruct (ManifestMoreFacts.filterKeys_throws data
                (List.filter (fun key => Js.startsWith key "C.")
                   (map fst (Manifest.commands data)))
                key "Cannot read properties of undefined (reading 'includes')")
      as [message ->]; [| |eauto].
    + apply list_elem_of_In, List.filter_In. split; [|exact Hc].
      apply list_elem_of_In, list_elem_of_fmap. exists (key, c). auto.
    + unfold Manifest.firstInput.
      rewrite (ManifestFacts.command_of_member data key c Hnd Hin), Hinputs. reflexivity.
Qed.

Lemma X20_bad_target_witness :
  exists message, Manifest.getDebugYaml Sample2.manifestWithoutInput [] = Throw message.
Proof.
  apply X20_one_bad_target_fails_the_resolution.
  - apply (bool_decide_unpack _). vm_compute. reflexivity.
  - right. exists "C.Gen-debug.module", {| Manifest.inputs := [] |}.
    split; [right; right; left|]. split; reflexivity.
Defined.

(** X21: a module target whose key holds no dash gets the name [C.]:
    [lastIndexOf] gives -1, which [substring] reads as 0 and swaps with 2. *)
Theorem X21_key_without_dash_is_named_by_the_prefix (key : string) :
  Js.startsWith key "C." = true ->
  Js.lastIndexOf Js.dash key = (-1)%Z ->
  Manifest.moduleNameOf key = "C.".
Proof.
  intros Hprefix Hdash. unfold Manifest.moduleNameOf. rewrite Hdash.
  apply JsFacts.startsWith_inv in Hprefix as [t ->].
  unfold Js.substring. rewrite ManifestFacts.length_app. cbn [String.length].
  replace (Z.to_nat _) with 0 by lia.
  replace (Z.to_nat _) with 2 by lia.
  destruct t; reflexivity.
Qed.

Lemma X21_key_without_dash_witness : Manifest.moduleNameOf "C.App" = "C.".
Proof. apply X21_key_without_dash_is_named_by_the_prefix; reflexivity. Defined.

(** X22: for a first input outside the checkouts, the module path is the
    directory of that file: the input without its last slash and what
    follows; an input without any slash gives the empty path. *)
Theorem X22_first_party_path_is_the_directory (directory file : string) :
  RecordSpec.without Js.slash file = true ->
  (Js.includes (directory +:+ "/" +:+ file) ".build/checkouts" = false ->
   Manifest.modulePath (directory +:+ "/" +:+ file) = directory)
  /\ (Js.includes file ".build/checkouts" = false -> Manifest.modulePath file = "").
Proof.
  intros Hfile. unfold Manifest.modulePath. split; intros Hout; rewrite Hout.
  - exact (ManifestMoreFacts.directory_of directory file Hfile).
  - unfold Manifest.split, Manifest.pop.
    rewrite (ManifestMoreFacts.splitFrom_plain file "" Hfile). reflexivity.
Qed.

Lemma X22_first_party_path_witness :
  Manifest.modulePath "/proj/Sources/App/main.swift" = "/proj/Sources/App".
Proof.
  destruct (X22_first_party_path_is_the_directory "/proj/Sources/App" "main.swift" eq_refl)
    as [H _].
  exact (H eq_refl).
Defined.

Module CheckoutFacts.

Import Manifest.

Lemma app_empty_r (s : string) : s +:+ "" = s.
Proof. induction s as [|c s IH]; [reflexivity|]. rewrite ManifestFacts.app_String, IH. reflexivity. Qed.

Lemma splitFrom_absent (sep s current : string) :
  Js.includes s sep = false -> splitFrom sep s 0 current = [current +:+ s].
Proof.
  revert current. induction s as [|a s IH]; intros current H.
  - cbn [splitFrom]. rewrite app_empty_r. reflexivity.
  - rewrite JsFacts.includes_cons in H. apply orb_false_iff in H as [Hs Hrest].
    cbn [splitFrom]. rewrite Hs, (IH _ Hrest), LocateFacts.app_assoc_string. reflexivity.
Qed.

Lemma splitFrom_skip (sep x rest current : string) :
  splitFrom sep (x +:+ rest) (String.length x) current = splitFrom sep rest 0 current.
Proof.
  induction x as [|c x IH]; [reflexivity|].
  rewrite ManifestFacts.app_String. cbn [String.length splitFrom]. exact IH.
Qed.

Lemma no_straddle (a rest : string) :
  a <> "" -> Js.includes a ".build/checkouts" = false ->
  Js.startsWith (a +:+ ".build/checkouts" +:+ rest) ".build/checkouts" = false.
Proof.
  intros Hne Hinc.
  assert (Hs : Js.startsWith a ".build/checkouts" = false).
  { destruct a; [congruence|]. rewrite JsFacts.includes_cons in Hinc.
    apply orb_false_iff in Hinc. tauto. }
  clear Hinc.
  destruct a as [|c1 a]; [congruence|]. clear Hne.
  do 15 (destruct a as [|? a];
         [rewrite !ManifestFacts.app_String, ManifestFacts.app_empty;
          cbn; rewrite ?andb_false_r; reflexivity|]).
  rewrite !ManifestFacts.app_String. cbn in Hs |- *.
  rewrite ManifestMoreFacts.startsWith_empty in *. exact Hs.
Qed.

Lemma split_checkouts (parent rest current : string) :
  Js.includes parent ".build/checkouts" = false ->
  Js.includes rest ".build/checkouts" = false ->
  splitFrom ".build/checkouts" (parent +:+ ".build/checkouts" +:+ rest) 0 current
  = [current +:+ parent; rest].
Proof.
  intros Hparent Hrest. revert current. induction parent as [|c parent IH]; intros current.
  - rewrite ManifestFacts.app_empty, app_empty_r.
    change (".build/checkouts" +:+ rest) with (String "." ("build/checkouts" +:+ rest)).
    cbn [splitFrom].
    change (String "." ("build/checkouts" +:+ rest)) with (".build/checkouts" +:+ rest).
    rewrite JsFacts.startsWith_app.
    change (String.length ".build/checkouts" - 1) with (String.length "build/checkouts").
    rewrite splitFrom_skip, (splitFrom_absent _ rest "" Hrest). reflexivity.
  - pose proof (no_straddle (String c parent) rest ltac:(discriminate) Hparent) as Hno.
    rewrite JsFacts.includes_cons in Hparent. apply orb_false_iff in Hparent as [_ Hparent].
    rewrite ManifestFacts.app_String in Hno |- *.
    cbn [splitFrom]. rewrite Hno, (IH Hparent), LocateFacts.app_assoc_string. reflexivity.
Qed.

End CheckoutFacts.

(** X23: for a first input under the checkouts, with one occurrence of
    [.build/checkouts] in it, the module path is again the directory of that
    file (not the root of the checked-out package): the input without its
    last slash and what follows. *)
Theorem X23_checkout_path_is_the_directory (parent library file : string) :
  RecordSpec.without Js.slash file = true ->
  Js.includes parent ".build/checkouts" = false ->
  Js.includes (library +:+ "/" +:+ file) ".build/checkouts" = false ->
  Manifest.modulePath (parent +:+ ".build/checkouts" +:+ library +:+ "/" +:+ file)
  = parent +:+ ".build/checkouts" +:+ library.
Proof.
  intros Hfile Hparent Hrest. unfold Manifest.modulePath.
  rewrite (JsFacts.includes_app parent ".build/checkouts" (library +:+ "/" +:+ file)).
  unfold Manifest.split.
  rewrite !(CheckoutFacts.split_checkouts parent (library +:+ "/" +:+ file) "" Hparent Hrest).
  cbn [Manifest.part nth]. rewrite ManifestFacts.app_empty.
  change (Manifest.splitFrom "/" (library +:+ "/" +:+ file) 0 "")
    with (Manifest.split (library +:+ String Js.slash file) "/").
  rewrite (ManifestMoreFacts.directory_of library file Hfile). reflexivity.
Qed.

Lemma X23_checkout_path_witness :
  Manifest.modulePath "/proj/.build/checkouts/Lib/Sources/Lib/Lib.swift"
  = "/proj/.build/checkouts/Lib/Sources/Lib".
Proof.
  exact (X23_checkout_path_is_the_directory "/proj/" "/Lib/Sources/Lib" "Lib.swift"
           eq_refl eq_refl eq_refl).
Defined.

(** ** Import extractor *)

Module ImportFacts.

Import Imports.

Lemma AstNode_forall_ind (P : AstNode -> Prop) :
  (forall t x children, Forall P children -> P (mkAst t x children)) ->
  forall n, P n.
Proof.
  intros step.
  fix IH 1.
  intros [t x children]. apply step.
  induction children as [|c children IHc]; constructor.
  - apply IH.
  - exact IHc.
Qed.

Lemma getFileImports_walk (node : AstNode) (imported : list string) :
  getFileImports node imported = imported ++ flat_map ownImports (preorder node).
Proof.
  revert imported. induction node as [t x children IH] using AstNode_forall_ind.
  intros imported. cbn [getFileImports preorder flat_map].
  rewrite app_assoc. generalize (imported ++ ownImports (mkAst t x children)).
  induction IH as [|c children Hc _ IHchildren]; intros acc.
  - cbn. rewrite app_nil_r. reflexivity.
  - rewrite IHchildren, Hc, flat_map_app, app_assoc. reflexivity.
Qed.

Lemma tokenChar_not_space (a : ascii) : tokenChar a = true -> Js.isSpace a = false.
Proof.
  unfold tokenChar. intros H. apply andb_true_iff in H as [_ H].
  apply negb_true_iff in H. exact H.
Qed.

Lemma trimStart_spaces (ws t : string) :
  allSpaces ws = true -> Js.trimStart (ws +:+ t) = Js.trimStart t.
Proof.
  induction ws as [|a ws IH]; intros H; [reflexivity|].
  cbn [allSpaces] in H. apply andb_true_iff in H as [Ha Hws].
  rewrite ManifestFacts.app_String. cbn [Js.trimStart]. rewrite Ha. exact (IH Hws).
Qed.

Lemma trimStart_token (tok rest : string) :
  tok <> "" -> allToken tok = true -> Js.trimStart (tok +:+ rest) = tok +:+ rest.
Proof.
  intros Hne H. destruct tok as [|a tok]; [congruence|].
  cbn [allToken] in H. apply andb_true_iff in H as [Ha _].
  rewrite ManifestFacts.app_String. cbn [Js.trimStart].
  rewrite (tokenChar_not_space a Ha). reflexivity.
Qed.

Lemma takeToken_app (tok rest : string) :
  allToken tok = true -> endsToken rest = true -> takeToken (tok +:+ rest) = tok.
Proof.
  intros Htok Hrest. induction tok as [|a tok IH].
  - rewrite ManifestFacts.app_empty. destruct rest as [|b rest]; [reflexivity|].
    cbn [endsToken] in Hrest. apply negb_true_iff in Hrest.
    cbn [takeToken]. rewrite Hrest. reflexivity.
  - cbn [allToken] in Htok. apply andb_true_iff in Htok as [Ha Htok].
    rewrite ManifestFacts.app_String. cbn [takeToken]. rewrite Ha, (IH Htok). reflexivity.
Qed.

Lemma trimEnd_token (tok : string) : allToken tok = true -> Js.trimEnd tok = tok.
Proof.
  induction tok as [|a tok IH]; intros H; [reflexivity|].
  cbn [allToken] in H. apply andb_true_iff in H as [Ha Htok].
  cbn [Js.trimEnd]. rewrite (IH Htok), (tokenChar_not_space a Ha).
  destruct tok; reflexivity.
Qed.

Lemma trim_token (tok : string) : allToken tok = true -> Js.trim tok = tok.
Proof.
  intros H. unfold Js.trim.
  destruct tok as [|a tok]; [reflexivity|].
  assert (Ha : Js.isSpace a = false).
  { cbn [allToken] in H. apply andb_true_iff in H as [Ha _].
    exact (tokenChar_not_space a Ha). }
  cbn [Js.trimStart]. rewrite Ha. apply trimEnd_token, H.
Qed.

(** The pattern of an import, anchored where the keyword stands. *)
Lemma importAt_statement (ws tok rest : string) :
  ws <> "" -> allSpaces ws = true ->
  tok <> "" -> allToken tok = true ->
  endsToken rest = true ->
  importAt ("import" +:+ ws +:+ tok +:+ rest) = Some tok.
Proof.
  intros Hws Hspaces Htok Htoken Hrest. unfold importAt.
  rewrite JsFacts.startsWith_app.
  change (dropChars 6 ("import" +:+ ws +:+ tok +:+ rest)) with (ws +:+ tok +:+ rest).
  unfold afterSpaces. destruct ws as [|a ws]; [congruence|].
  rewrite ManifestFacts.app_String.
  assert (Ha : Js.isSpace a = true).
  { cbn [allSpaces] in Hspaces. apply andb_true_iff in Hspaces. tauto. }
  rewrite Ha. rewrite <- ManifestFacts.app_String.
  rewrite (trimStart_spaces _ _ Hspaces), (trimStart_token _ _ Htok Htoken).
  rewrite (takeToken_app _ _ Htoken Hrest).
  assert (Ht : Js.truthy tok = true) by (apply JsFacts.truthy_true; exact Htok).
  rewrite Ht. reflexivity.
Qed.

End ImportFacts.

(** X24: [getFileImports] walks the whole tree, every node before its
    children and no node skipped: the array it returns is the one it was
    given followed by what each node of the tree contributes, in that order,
    duplicates kept. *)
Theorem X24_imports_are_collected_in_preorder (node : AstNode)
    (importedLibraries : list string) :
  Imports.getFileImports node importedLibraries
  = importedLibraries ++ flat_map Imports.ownImports (Imports.preorder node).
Proof. apply ImportFacts.getFileImports_walk. Qed.

(** X25: an [import_declaration] whose trimmed text is [import], white
    space, a run of characters other than [@] and white space, and then
    nothing or a character that ends the run, contributes exactly that run:
    the first token after the keyword, whatever follows it. *)
Theorem X25_import_gives_the_first_token (text ws token rest : string)
    (children : list AstNode) :
  ws <> "" -> Imports.allSpaces ws = true ->
  token <> "" -> Imports.allToken token = true ->
  Imports.endsToken rest = true ->
  Js.trim text = "import" +:+ ws +:+ token +:+ rest ->
  Imports.ownImports (mkAst "import_declaration" text children) = [token].
Proof.
  intros Hws Hspaces Htok Htoken Hrest Htext.
  unfold Imports.ownImports. cbn [ast_type ast_text]. rewrite Htext.
  change (Js.streq "import_declaration" "import_declaration") with true. cbv iota.
  assert (Hm : Imports.leftmost Imports.importAt ("import" +:+ ws +:+ token +:+ rest)
               = Some token).
  { pose proof (ImportFacts.importAt_statement ws token rest Hws Hspaces Htok Htoken Hrest)
      as H.
    destruct ("import" +:+ ws +:+ token +:+ rest); cbn [Imports.leftmost]; rewrite H;
      reflexivity. }
  rewrite Hm, (ImportFacts.trim_token token Htoken). reflexivity.
Qed.

Lemma X25_import_kind_witness :
  Imports.ownImports (mkAst "import_declaration" "import struct Foundation.Date" [])
  = ["struct"].
Proof.
  apply (X25_import_gives_the_first_token _ " " "struct" " Foundation.Date");
    try reflexivity; discriminate.
Defined.

(** X26: an [attribute] whose trimmed text starts with [@testable import]
    followed by white space, a token and then nothing or a character that
    ends it, contributes that token; an attribute whose trimmed text does not
    start with [@testable import] (for one, with two spaces between the
    words) contributes nothing. *)
Theorem X26_testable_import_gives_the_token (text ws token rest : string)
    (children : list AstNode) :
  (ws <> "" -> Imports.allSpaces ws = true ->
   token <> "" -> Imports.allToken token = true ->
   Imports.endsToken rest = true ->
   Js.trim text = "@testable import" +:+ ws +:+ token +:+ rest ->
   Imports.ownImports (mkAst "attribute" text children) = [token])
  /\ (Js.startsWith (Js.trim text) "@testable import" = false ->
      Imports.ownImports (mkAst "attribute" text children) = []).
Proof.
  unfold Imports.ownImports. cbn [ast_type ast_text].
  change (Js.streq "attribute" "import_declaration") with false.
  change (Js.streq "attribute" "attribute") with true. cbv iota.
  split.
  - intros Hws Hspaces Htok Htoken Hrest Htext. rewrite Htext.
    rewrite JsFacts.startsWith_app.
    assert (Hm : Imports.leftmost Imports.testableAt
                   ("@testable import" +:+ ws +:+ token +:+ rest) = Some token).
    { assert (H : Imports.testableAt ("@testable import" +:+ ws +:+ token +:+ rest)
                  = Some token).
      { unfold Imports.testableAt.
        change ("@testable import" +:+ ws +:+ token +:+ rest)
          with ("@testable" +:+ String " " ("import" +:+ ws +:+ token +:+ rest)).
        rewrite JsFacts.startsWith_app.
        change (Imports.dropChars 9
                  ("@testable" +:+ String " " ("import" +:+ ws +:+ token +:+ rest)))
          with (String " " ("import" +:+ ws +:+ token +:+ rest)).
        cbn [Imports.afterSpaces]. change (Js.isSpace " ") with true. cbv iota.
        cbn [Js.trimStart]. change (Js.isSpace " ") with true. cbv iota.
        assert (Hi : Js.trimStart ("import" +:+ ws +:+ token +:+ rest)
                     = "import" +:+ ws +:+ token +:+ rest) by reflexivity.
        rewrite Hi.
        exact (ImportFacts.importAt_statement ws token rest Hws Hspaces Htok Htoken Hrest). }
      destruct ("@testable import" +:+ ws +:+ token +:+ rest); cbn [Imports.leftmost];
        rewrite H; reflexivity. }
    rewrite Hm, (ImportFacts.trim_token token Htoken). reflexivity.
  - intros ->. reflexivity.
Qed.

Lemma X26_testable_import_witness :
  Imports.ownImports (mkAst "attribute" "@testable import  Foo  " []) = ["Foo"]
  /\ Imports.ownImports (mkAst "attribute" "@testable  import Foo" []) = [].
Proof.
  destruct (X26_testable_import_gives_the_token "@testable import  Foo  " "  " "Foo" "" [])
    as [Hyes _].
  destruct (X26_testable_import_gives_the_token "@testable  import Foo" " " "Foo" "" [])
    as [_ Hno].
  split.
  - apply Hyes; try reflexivity; discriminate.
  - apply Hno. reflexivity.
Defined.

(** ** Descriptive fields of the records *)

Module DescribedFacts.

Import Aggregator RecordSpec.

Lemma described_new (cfg : Config) (tp : bool) (component : Node) (entry : CatalogEntry) :
  described cfg (newMetadata (designSystemModules cfg) tp component entry).
Proof.
  split; [reflexivity|]. split; [reflexivity|]. split; [reflexivity|].
  intros d. cbn [newMetadata designSystems libraryName]. unfold getDesignSystems.
  rewrite list_elem_of_In, List.filter_In, JsFacts.streq_true, <- list_elem_of_In.
  reflexivity.
Qed.

Lemma described_count (cfg : Config) (m : Metadata) (filePath : string) :
  described cfg m -> described cfg (countOccurence m filePath).
Proof. intros H. exact H. Qed.

Lemma described_update (cfg : Config) (m : Metadata) (filePath : string) (loc : Location) :
  described cfg m -> described cfg (setLocation (countOccurence m filePath) filePath loc).
Proof. intros H. exact H. Qed.

Section Steps.
Variable env : Env.
Variable cfg : Config.
Variable thirdPartyDependencies : Legacy.Dependencies.

Lemma current_step_described (st : Current.State) (component : Node)
    (entry : CatalogEntry) (filePath : string) :
  Forall (described cfg) (Current.codebaseComponents st) ->
  Forall (described cfg)
    (Current.codebaseComponents (Current.extractMetadata env cfg st component entry filePath).1).
Proof.
  intros Hst.
  destruct (readFile env filePath) as [content|message] eqn:Hread.
  - rewrite (CurrentFacts.current_readable _ _ _ _ _ _ _ Hread). cbn.
    apply Forall_app. split; [exact Hst|]. constructor; [|constructor].
    apply described_update, described_new.
  - rewrite (CurrentFacts.current_unreadable _ _ _ _ _ _ _ Hread). exact Hst.
Qed.

Lemma legacy_step_described (st : Legacy.State) (component : Node)
    (entry : CatalogEntry) (filePath : string) :
  map_Forall (fun _ m => described cfg m) (Legacy.codebaseComponents st) ->
  map_Forall (fun _ m => described cfg m)
    (Legacy.codebaseComponents
       (Legacy.extractMetadata env cfg thirdPartyDependencies st component entry filePath).1).
Proof.
  apply LegacyFacts.legacy_step_invariant.
  - intros tp. apply described_new.
  - intros m. apply described_count.
  - intros m loc H. exact H.
Qed.

End Steps.

End DescribedFacts.

(** X27: after any sequence of aggregator calls from the empty store, in
    both copies, every record has an id made of its library name, its name
    and its type, no tag and no story, and as design systems exactly the
    design-system modules whose name equals its library name when ASCII
    upper case is lowered: the counting and locating of later matches leave
    these fields as they were created. *)
Theorem X27_descriptive_fields_are_kept (env : Env) (cfg : Config)
    (thirdPartyDependencies : Legacy.Dependencies) (calls : list Spec.Resolved) :
  Forall (RecordSpec.described cfg)
    (Current.codebaseComponents (Spec.currentRun env cfg calls Current.initial))
  /\ map_Forall (fun _ m => RecordSpec.described cfg m)
       (Legacy.codebaseComponents
          (Spec.legacyRun env cfg thirdPartyDependencies calls Legacy.initial)).
Proof.
  split.
  - unfold Spec.currentRun.
    assert (H : forall st,
               Forall (RecordSpec.described cfg) (Current.codebaseComponents st) ->
               Forall (RecordSpec.described cfg)
                 (Current.codebaseComponents
                    (fold_left
                       (fun st r =>
                          (Current.extractMetadata env cfg st (Spec.candidate r)
                             (Spec.resolvedTo r) (Spec.inFile r)).1)
                       calls st))).
    { induction calls as [|r calls IH]; intros st Hst; [exact Hst|].
      apply IH, DescribedFacts.current_step_described, Hst. }
    apply H. constructor.
  - unfold Spec.legacyRun.
    assert (H : forall st,
               map_Forall (fun _ m => RecordSpec.described cfg m)
                 (Legacy.codebaseComponents st) ->
               map_Forall (fun _ m => RecordSpec.described cfg m)
                 (Legacy.codebaseComponents
                    (fold_left
                       (fun st r =>
                          (Legacy.extractMetadata env cfg thirdPartyDependencies st
                             (Spec.candidate r) (Spec.resolvedTo r) (Spec.inFile r)).1)
                       calls st))).
    { induction calls as [|r calls IH]; intros st Hst; [exact Hst|].
      apply IH, DescribedFacts.legacy_step_described, Hst. }
    apply H, map_Forall_empty.
Qed.
